(** * pygame-menu: the widget manager ([pygame_menu/_widgetmanager.py])

    A shallow embedding of [WidgetManager]: the attribute resolver
    [_filter_widget_attributes], the leftover check [_check_kwargs], the
    binder [_configure_widget], the registration step [_append_widget] and
    the factories [button], [color_input], [image], [label], [selector],
    [toggle_switch], [text_input], [vertical_margin], [none_widget] and
    [generic_widget].

    Python values are a closed datatype; a [dict] is an insertion-ordered
    association list with unique keys; an exception is a value of [exn];
    code that mutates a dict or the menu and may raise is a function
    returning the mutated state together with a [result]. *)

From Stdlib Require Import ZArith Floats.

From stdpp Require Import base list strings gmap pretty.

Local Open Scope string_scope.

Set Warnings "-register-all".

(** ** Python values *)

Inductive value :=
| VNone
| VBool (b : bool)
| VInt (n : Z)
| VFloat (f : float)
| VStr (s : string)
| VTuple (l : list value)
| VList (l : list value)
| VPath (p : string)            (* pathlib.Path *)
| VImage (ref : nat)            (* pygame_menu.BaseImage *)
| VSelection (ref : nat)        (* a widgets.core.Selection instance *)
| VNoneSelection                (* pygame_menu.widgets.NoneSelection() *)
| VObject (ref : nat).          (* any other object, e.g. a callable *)

Inductive exn :=
| AssertionError (msg : string)
| ValueError (msg : string)
| IndexError (msg : string)
| TypeError
| KeyError (key : string)
| RecursionError.

Inductive result (A : Type) :=
| Ok (a : A)
| Raise (e : exn).

Arguments Ok {A} a.

Arguments Raise {A} e.

Definition is_ok {A} (r : result A) : bool :=
  match r with Ok _ => true | Raise _ => false end.

Definition raises {A} (r : result A) : Prop := exists e, r = Raise e.

(** [isinstance] tests.  [bool] is a subclass of [int] in Python. *)
Definition isinstance_str (v : value) : bool :=
  match v with VStr _ => true | _ => false end.

Definition isinstance_int (v : value) : bool :=
  match v with VInt _ | VBool _ => true | _ => false end.

Definition isinstance_bool (v : value) : bool :=
  match v with VBool _ => true | _ => false end.

Definition isinstance_tuple (v : value) : bool :=
  match v with VTuple _ => true | _ => false end.

Definition isinstance_int_float (v : value) : bool :=
  match v with VInt _ | VBool _ | VFloat _ => true | _ => false end.

Definition isinstance_int_float_tuple (v : value) : bool :=
  match v with VInt _ | VBool _ | VFloat _ | VTuple _ => true | _ => false end.

Definition isinstance_str_Path (v : value) : bool :=
  match v with VStr _ | VPath _ => true | _ => false end.

Definition isinstance_BaseImage (v : value) : bool :=
  match v with VImage _ => true | _ => false end.

Definition isinstance_Selection (v : value) : bool :=
  match v with VSelection _ | VNoneSelection => true | _ => false end.

Definition is_None (v : value) : bool :=
  match v with VNone => true | _ => false end.

(** Truth value of an object used as a condition. *)
Definition truthy (v : value) : bool :=
  match v with
  | VNone => false
  | VBool b => b
  | VInt n => negb (n =? 0)%Z
  | VFloat f => negb (PrimFloat.eqb f 0%float)
  | VStr s => negb (String.eqb s "")
  | VTuple l | VList l => match l with [] => false | _ => true end
  | _ => true
  end.

(** [str(v)] for the values the resolver converts (a [str] or a [Path]). *)
Definition str_of (v : value) : string :=
  match v with
  | VStr s | VPath s => s
  | _ => ""
  end.

(** [v[i]] *)
Definition getitem (v : value) (i : nat) : result value :=
  match v with
  | VTuple l =>
      match l !! i with
      | Some x => Ok x
      | None => Raise (IndexError "tuple index out of range")
      end
  | VList l =>
      match l !! i with
      | Some x => Ok x
      | None => Raise (IndexError "list index out of range")
      end
  | VStr s =>
      match String.get i s with
      | Some c => Ok (VStr (String c ""))
      | None => Raise (IndexError "string index out of range")
      end
  | _ => Raise TypeError
  end.

(** [v >= 0] and [v > 0]: defined on numbers, [TypeError] elsewhere. *)
Definition ge_zero (v : value) : result bool :=
  match v with
  | VInt n => Ok (0 <=? n)%Z
  | VBool _ => Ok true
  | VFloat f => Ok (PrimFloat.leb 0%float f)
  | _ => Raise TypeError
  end.

Definition gt_zero (v : value) : result bool :=
  match v with
  | VInt n => Ok (0 <? n)%Z
  | VBool b => Ok b
  | VFloat f => Ok (PrimFloat.ltb 0%float f)
  | _ => Raise TypeError
  end.

(** [len(v)] *)
Definition len (v : value) : result nat :=
  match v with
  | VTuple l | VList l => Ok (length l)
  | VStr s => Ok (String.length s)
  | _ => Raise TypeError
  end.

(** ** Dictionaries

    Insertion-ordered, keys unique.  [remove] drops the binding of a key,
    [set] overwrites in place or appends, as [d[k] = v] does. *)

Module Dict.

Definition t := list (string * value).

Fixpoint get (k : string) (d : t) : option value :=
  match d with
  | [] => None
  | (k', v) :: d' => if String.eqb k' k then Some v else get k d'
  end.

Fixpoint remove (k : string) (d : t) : t :=
  match d with
  | [] => []
  | (k', v) :: d' =>
      if String.eqb k' k then remove k d' else (k', v) :: remove k d'
  end.

Fixpoint set (k : string) (v : value) (d : t) : t :=
  match d with
  | [] => [(k, v)]
  | (k', v') :: d' =>
      if String.eqb k' k then (k, v) :: d' else (k', v') :: set k v d'
  end.

Definition keys (d : t) : list string := map fst d.

Definition mem (k : string) (d : t) : bool :=
  match get k d with Some _ => true | None => false end.

(** [d.pop(k, default)]: the value and the dictionary afterwards. *)
Definition pop (k : string) (default : value) (d : t) : value * t :=
  (match get k d with Some v => v | None => default end, remove k d).

Fixpoint remove_all (ks : list string) (d : t) : t :=
  match ks with
  | [] => d
  | k :: ks' => remove_all ks' (remove k d)
  end.

End Dict.

(** ** Code that mutates a state and may raise

    [M S A]: the state afterwards (mutations made before an exception
    stay) and the outcome. *)

Definition M (S A : Type) : Type := S -> S * result A.

Definition ret {S A} (a : A) : M S A := fun s => (s, Ok a).

Definition raise {S A} (e : exn) : M S A := fun s => (s, Raise e).

Definition bind {S A B} (m : M S A) (k : A -> M S B) : M S B :=
  fun s =>
    match m s with
    | (s', Ok a) => k a s'
    | (s', Raise e) => (s', Raise e)
    end.

Definition lift {S A} (r : result A) : M S A := fun s => (s, r).

Definition assert_ {S} (b : bool) (msg : string) : M S unit :=
  if b then ret tt else raise (AssertionError msg).

Notation "'let*' x ':=' m 'in' k" := (bind m (fun x => k))
  (at level 10, x name, m at level 100, k at level 200).

Notation "m ';;;' k" := (bind m (fun _ => k))
  (at level 100, k at level 200, right associativity).

(** [kwargs.pop(k, default)] on the dictionary held as state. *)
Definition pop (k : string) (default : value) : M Dict.t value :=
  fun d => let '(v, d') := Dict.pop k default d in (d', Ok v).

(** ** The theme: the defaults the manager reads *)

Module Theme.

Record t := {
  background_color : value;
  cursor_color : value;
  cursor_selection_color : value;
  cursor_switch_ms : value;
  readonly_color : value;
  readonly_selected_color : value;
  selection_color : value;
  widget_alignment : value;
  widget_background_color : value;
  widget_background_inflate : value;
  widget_border_color : value;
  widget_border_inflate : value;
  widget_border_width : value;
  widget_font : value;
  widget_font_antialias : value;
  widget_font_background_color : value;
  widget_font_background_color_from_menu : value;
  widget_font_color : value;
  widget_font_size : value;
  widget_margin : value;
  widget_padding : value;
  widget_selection_effect : value;
  widget_shadow : value;
  widget_shadow_color : value;
  widget_shadow_offset : value;
  widget_shadow_position : value
}.

End Theme.

(** ** The attribute resolver *)

Section Resolver.

(** [pygame_menu.utils.assert_color] and [assert_vector]: [true] when
    the assertion passes, [false] when it raises. *)
Variable assert_color : value -> bool.

Variable assert_vector : value -> nat -> bool.

Definition utils_assert_color {S} (v : value) : M S unit :=
  assert_ (assert_color v) "".

Definition utils_assert_vector {S} (v : value) (n : nat) : M S unit :=
  assert_ (assert_vector v n) "".

Definition _filter_widget_attributes (theme : Theme.t) : M Dict.t Dict.t :=
  let attributes : Dict.t := [] in
  let* align := pop "align" (Theme.widget_alignment theme) in
  assert_ (isinstance_str align) "" ;;;
  let attributes := Dict.set "align" align attributes in

  let* background_color :=
    pop "background_color" (Theme.widget_background_color theme) in
  let* background_is_color :=
    if negb (is_None background_color) then
      if isinstance_BaseImage background_color then ret false
      else (utils_assert_color background_color ;;; ret true)
    else ret false in
  let attributes := Dict.set "background_color" background_color attributes in

  let* background_inflate :=
    pop "background_inflate" (Theme.widget_background_inflate theme) in
  utils_assert_vector background_inflate 2 ;;;
  let* x0 := lift (getitem background_inflate 0) in
  let* c0 := lift (ge_zero x0) in
  let* c :=
    if c0 : bool then
      let* x1 := lift (getitem background_inflate 1) in lift (ge_zero x1)
    else ret false in
  assert_ c
    "both background inflate components must be equal or greater than zero" ;;;
  let attributes :=
    Dict.set "background_inflate" background_inflate attributes in

  let* border_color := pop "border_color" (Theme.widget_border_color theme) in
  utils_assert_color border_color ;;;
  let attributes := Dict.set "border_color" border_color attributes in

  let* border_inflate :=
    pop "border_inflate" (Theme.widget_border_inflate theme) in
  utils_assert_vector border_inflate 2 ;;;
  let* y0 := lift (getitem border_inflate 0) in
  let* c :=
    if isinstance_int y0 then lift (ge_zero y0) else ret false in
  assert_ c "" ;;;
  let* y1 := lift (getitem border_inflate 1) in
  let* c :=
    if isinstance_int y1 then lift (ge_zero y1) else ret false in
  assert_ c "" ;;;
  let attributes := Dict.set "border_inflate" border_inflate attributes in

  let* border_width := pop "border_width" (Theme.widget_border_width theme) in
  let* c :=
    if isinstance_int border_width then lift (ge_zero border_width)
    else ret false in
  assert_ c "" ;;;
  let attributes := Dict.set "border_width" border_width attributes in

  let attributes :=
    Dict.set "font_antialias" (Theme.widget_font_antialias theme) attributes in

  let* font_background_color :=
    pop "font_background_color" (Theme.widget_font_background_color theme) in
  let* font_background_color :=
    if is_None font_background_color
       && truthy (Theme.widget_font_background_color_from_menu theme)
       && negb background_is_color
    then
      if isinstance_tuple (Theme.background_color theme) then
        utils_assert_color (Theme.background_color theme) ;;;
        ret (Theme.background_color theme)
      else ret font_background_color
    else ret font_background_color in
  let attributes :=
    Dict.set "font_background_color" font_background_color attributes in

  let* font_color := pop "font_color" (Theme.widget_font_color theme) in
  utils_assert_color font_color ;;;
  let attributes := Dict.set "font_color" font_color attributes in

  let* font_name := pop "font_name" (Theme.widget_font theme) in
  assert_ (isinstance_str_Path font_name) "" ;;;
  let attributes := Dict.set "font_name" (VStr (str_of font_name)) attributes in

  let* font_size := pop "font_size" (Theme.widget_font_size theme) in
  assert_ (isinstance_int font_size) "" ;;;
  let* c := lift (gt_zero font_size) in
  assert_ c "font size must be greater than zero" ;;;
  let attributes := Dict.set "font_size" font_size attributes in

  let* margin := pop "margin" (Theme.widget_margin theme) in
  assert_ (isinstance_tuple margin) "" ;;;
  let* n := lift (len margin) in
  assert_ (n =? 2)%nat "margin must be a tuple or list of 2 numbers" ;;;
  let attributes := Dict.set "margin" margin attributes in

  let* padding := pop "padding" (Theme.widget_padding theme) in
  assert_ (isinstance_int_float_tuple padding) "" ;;;
  let attributes := Dict.set "padding" padding attributes in

  let* readonly_color := pop "readonly_color" (Theme.readonly_color theme) in
  utils_assert_color readonly_color ;;;
  let attributes := Dict.set "readonly_color" readonly_color attributes in

  let* readonly_selected_color :=
    pop "readonly_selected_color" (Theme.readonly_selected_color theme) in
  utils_assert_color readonly_selected_color ;;;
  let attributes :=
    Dict.set "readonly_selected_color" readonly_selected_color attributes in

  let* selection_color :=
    pop "selection_color" (Theme.selection_color theme) in
  utils_assert_color selection_color ;;;
  let attributes := Dict.set "selection_color" selection_color attributes in

  let* selection_effect :=
    pop "selection_effect" (Theme.widget_selection_effect theme) in
  let selection_effect :=
    if is_None selection_effect then VNoneSelection else selection_effect in
  assert_ (isinstance_Selection selection_effect) "" ;;;
  let attributes := Dict.set "selection_effect" selection_effect attributes in

  let* shadow := pop "shadow" (Theme.widget_shadow theme) in
  assert_ (isinstance_bool shadow) "" ;;;
  let attributes := Dict.set "shadow" shadow attributes in

  let* shadow_color := pop "shadow_color" (Theme.widget_shadow_color theme) in
  utils_assert_color shadow_color ;;;
  let attributes := Dict.set "shadow_color" shadow_color attributes in

  let* shadow_position :=
    pop "shadow_position" (Theme.widget_shadow_position theme) in
  assert_ (isinstance_str shadow_position) "" ;;;
  let attributes := Dict.set "shadow_position" shadow_position attributes in

  let* shadow_offset :=
    pop "shadow_offset" (Theme.widget_shadow_offset theme) in
  assert_ (isinstance_int_float shadow_offset) "" ;;;
  let attributes := Dict.set "shadow_offset" shadow_offset attributes in

  ret attributes.

(** [_check_kwargs]: the loop raises at the first key it meets. *)
Definition _check_kwargs (kwargs : Dict.t) : result unit :=
  match Dict.keys kwargs with
  | [] => Ok tt
  | invalid_keyword :: _ =>
      Raise (ValueError ("widget addition optional parameter kwargs."
                           ++ invalid_keyword ++ " is not valid"))
  end.

End Resolver.

(** The keys the resolver pops, in the order of the source. *)
Definition consumed_keys : list string :=
  [ "align"; "background_color"; "background_inflate"; "border_color";
    "border_inflate"; "border_width"; "font_background_color"; "font_color";
    "font_name"; "font_size"; "margin"; "padding"; "readonly_color";
    "readonly_selected_color"; "selection_color"; "selection_effect";
    "shadow"; "shadow_color"; "shadow_position"; "shadow_offset" ].

(** The theme attribute that is the default of each popped key. *)
Definition theme_default (theme : Theme.t) (k : string) : option value :=
  if String.eqb k "align" then Some (Theme.widget_alignment theme)
  else if String.eqb k "background_color" then Some (Theme.widget_background_color theme)
  else if String.eqb k "background_inflate" then Some (Theme.widget_background_inflate theme)
  else if String.eqb k "border_color" then Some (Theme.widget_border_color theme)
  else if String.eqb k "border_inflate" then Some (Theme.widget_border_inflate theme)
  else if String.eqb k "border_width" then Some (Theme.widget_border_width theme)
  else if String.eqb k "font_background_color" then Some (Theme.widget_font_background_color theme)
  else if String.eqb k "font_color" then Some (Theme.widget_font_color theme)
  else if String.eqb k "font_name" then Some (Theme.widget_font theme)
  else if String.eqb k "font_size" then Some (Theme.widget_font_size theme)
  else if String.eqb k "margin" then Some (Theme.widget_margin theme)
  else if String.eqb k "padding" then Some (Theme.widget_padding theme)
  else if String.eqb k "readonly_color" then Some (Theme.readonly_color theme)
  else if String.eqb k "readonly_selected_color" then Some (Theme.readonly_selected_color theme)
  else if String.eqb k "selection_color" then Some (Theme.selection_color theme)
  else if String.eqb k "selection_effect" then Some (Theme.widget_selection_effect theme)
  else if String.eqb k "shadow" then Some (Theme.widget_shadow theme)
  else if String.eqb k "shadow_color" then Some (Theme.widget_shadow_color theme)
  else if String.eqb k "shadow_position" then Some (Theme.widget_shadow_position theme)
  else if String.eqb k "shadow_offset" then Some (Theme.widget_shadow_offset theme)
  else None.

(** A sample theme (the values of the library's default theme) and
    reference versions of the two assertions of [pygame_menu.utils]. *)
Definition rgb (r g b : Z) : value := VTuple [VInt r; VInt g; VInt b].

Definition sample_theme : Theme.t := {|
  Theme.background_color := VTuple [VInt 220; VInt 220; VInt 220];
  Theme.cursor_color := rgb 0 0 0;
  Theme.cursor_selection_color := VTuple [VInt 30; VInt 30; VInt 30; VInt 120];
  Theme.cursor_switch_ms := VInt 500;
  Theme.readonly_color := rgb 120 120 120;
  Theme.readonly_selected_color := rgb 190 190 190;
  Theme.selection_color := rgb 255 255 255;
  Theme.widget_alignment := VStr "align-center";
  Theme.widget_background_color := VNone;
  Theme.widget_background_inflate := VTuple [VInt 0; VInt 0];
  Theme.widget_border_color := rgb 0 0 0;
  Theme.widget_border_inflate := VTuple [VInt 0; VInt 0];
  Theme.widget_border_width := VInt 0;
  Theme.widget_font := VStr "opensans";
  Theme.widget_font_antialias := VBool true;
  Theme.widget_font_background_color := VNone;
  Theme.widget_font_background_color_from_menu := VBool false;
  Theme.widget_font_color := rgb 70 70 70;
  Theme.widget_font_size := VInt 30;
  Theme.widget_margin := VTuple [VInt 0; VInt 0];
  Theme.widget_padding := VTuple [VInt 4; VInt 8];
  Theme.widget_selection_effect := VSelection 1;
  Theme.widget_shadow := VBool false;
  Theme.widget_shadow_color := rgb 0 0 0;
  Theme.widget_shadow_offset := VInt 2;
  Theme.widget_shadow_position := VStr "position-northwest"
|}.

Definition is_channel (v : value) : bool :=
  match v with
  | VInt n => (0 <=? n)%Z && (n <=? 255)%Z
  | VBool _ => true
  | _ => false
  end.

(** Modelled from the spec: [pygame_menu.utils.assert_color] is not in this
    module; "colors must be well-formed color values": a tuple or list of
    three or four integer channels in 0..255. *)
Definition assert_color_ref (v : value) : bool :=
  match v with
  | VTuple l | VList l =>
      ((length l =? 3)%nat || (length l =? 4)%nat) && forallb is_channel l
  | _ => false
  end.

(** Modelled from the spec: [pygame_menu.utils.assert_vector] is not in
    this module; a tuple or list of [n] numbers. *)
Definition assert_vector_ref (v : value) (n : nat) : bool :=
  match v with
  | VTuple l | VList l => (length l =? n)%nat && forallb isinstance_int_float l
  | _ => false
  end.

(** ** What the resolver accepts and what it returns, stated on the
    caller's mapping and the theme *)

(** The caller's value for a key, else the default. *)
Definition given (kwargs : Dict.t) (k : string) (dflt : value) : value :=
  match Dict.get k kwargs with
  | Some v => v
  | None => dflt
  end.

Definition nonneg_num (v : value) : bool :=
  match ge_zero v with Ok b => b | Raise _ => false end.

Definition positive_num (v : value) : bool :=
  match gt_zero v with Ok b => b | Raise _ => false end.

Definition nonneg_int (v : value) : bool := isinstance_int v && nonneg_num v.

Definition component (P : value -> bool) (v : value) (i : nat) : bool :=
  match getitem v i with Ok x => P x | Raise _ => false end.

Definition has_len (v : value) (n : nat) : bool :=
  match len v with Ok m => (m =? n)%nat | Raise _ => false end.

(** The background is a flat colour: neither [None] nor an image. *)
Definition flat_background (v : value) : bool :=
  negb (is_None v) && negb (isinstance_BaseImage v).

Section ResolverSpec.

Variable assert_color : value -> bool.

Variable assert_vector : value -> nat -> bool.

Variable theme : Theme.t.

Variable kwargs : Dict.t.

Local Abbreviation arg := (given kwargs).

(** The font background is copied from the menu's background. *)
Definition derives_font_background : bool :=
  is_None (arg "font_background_color" (Theme.widget_font_background_color theme))
  && truthy (Theme.widget_font_background_color_from_menu theme)
  && negb (flat_background
             (arg "background_color" (Theme.widget_background_color theme)))
  && isinstance_tuple (Theme.background_color theme).

Definition resolved_font_background : value :=
  if derives_font_background then Theme.background_color theme
  else arg "font_background_color" (Theme.widget_font_background_color theme).

Definition resolved_selection_effect : value :=
  let v := arg "selection_effect" (Theme.widget_selection_effect theme) in
  if is_None v then VNoneSelection else v.

(** Every check of the resolver, in the order it makes them. *)
Definition accepted : bool :=
  isinstance_str (arg "align" (Theme.widget_alignment theme))
  && (let v := arg "background_color" (Theme.widget_background_color theme) in
      is_None v || isinstance_BaseImage v || assert_color v)
  && (let v := arg "background_inflate" (Theme.widget_background_inflate theme) in
      assert_vector v 2 && component nonneg_num v 0 && component nonneg_num v 1)
  && assert_color (arg "border_color" (Theme.widget_border_color theme))
  && (let v := arg "border_inflate" (Theme.widget_border_inflate theme) in
      assert_vector v 2 && component nonneg_int v 0 && component nonneg_int v 1)
  && nonneg_int (arg "border_width" (Theme.widget_border_width theme))
  && (negb derives_font_background || assert_color (Theme.background_color theme))
  && assert_color (arg "font_color" (Theme.widget_font_color theme))
  && isinstance_str_Path (arg "font_name" (Theme.widget_font theme))
  && (let v := arg "font_size" (Theme.widget_font_size theme) in
      isinstance_int v && positive_num v)
  && (let v := arg "margin" (Theme.widget_margin theme) in
      isinstance_tuple v && has_len v 2)
  && isinstance_int_float_tuple (arg "padding" (Theme.widget_padding theme))
  && assert_color (arg "readonly_color" (Theme.readonly_color theme))
  && assert_color (arg "readonly_selected_color" (Theme.readonly_selected_color theme))
  && assert_color (arg "selection_color" (Theme.selection_color theme))
  && isinstance_Selection resolved_selection_effect
  && isinstance_bool (arg "shadow" (Theme.widget_shadow theme))
  && assert_color (arg "shadow_color" (Theme.widget_shadow_color theme))
  && isinstance_str (arg "shadow_position" (Theme.widget_shadow_position theme))
  && isinstance_int_float (arg "shadow_offset" (Theme.widget_shadow_offset theme)).

(** The bundle of a successful resolution. *)
Definition bundle : Dict.t :=
  [ ("align", arg "align" (Theme.widget_alignment theme));
    ("background_color", arg "background_color" (Theme.widget_background_color theme));
    ("background_inflate", arg "background_inflate" (Theme.widget_background_inflate theme));
    ("border_color", arg "border_color" (Theme.widget_border_color theme));
    ("border_inflate", arg "border_inflate" (Theme.widget_border_inflate theme));
    ("border_width", arg "border_width" (Theme.widget_border_width theme));
    ("font_antialias", Theme.widget_font_antialias theme);
    ("font_background_color", resolved_font_background);
    ("font_color", arg "font_color" (Theme.widget_font_color theme));
    ("font_name", VStr (str_of (arg "font_name" (Theme.widget_font theme))));
    ("font_size", arg "font_size" (Theme.widget_font_size theme));
    ("margin", arg "margin" (Theme.widget_margin theme));
    ("padding", arg "padding" (Theme.widget_padding theme));
    ("readonly_color", arg "readonly_color" (Theme.readonly_color theme));
    ("readonly_selected_color", arg "readonly_selected_color" (Theme.readonly_selected_color theme));
    ("selection_color", arg "selection_color" (Theme.selection_color theme));
    ("selection_effect", resolved_selection_effect);
    ("shadow", arg "shadow" (Theme.widget_shadow theme));
    ("shadow_color", arg "shadow_color" (Theme.widget_shadow_color theme));
    ("shadow_position", arg "shadow_position" (Theme.widget_shadow_position theme));
    ("shadow_offset", arg "shadow_offset" (Theme.widget_shadow_offset theme)) ].

End ResolverSpec.

(** [run_spec A X r]: the run [r] ends in [X] when the checks [A] pass and
    in an exception when they do not. *)
Definition run_spec {S T} (A : bool) (X : S * result T) (r : S * result T) : Prop :=
  (A = true /\ r = X) \/ (A = false /\ exists d e, r = (d, Raise e)).

(** ** Widgets, menus and the world *)

Definition addr := nat.

Inductive WidgetKind := KButton | KImage | KLabel | KTextInput.

Record Widget := {
  kind : WidgetKind;
  _id : string;
  _title : string;
  is_selectable : bool;
  _menu : option addr;          (* get_menu() *)
  selected : bool;
  to_menu : bool;
  _onselect : value;
  _default_value : value;
  _style : option Dict.t        (* the bundle the binder applied *)
}.

Definition with_menu (w : Widget) (m : addr) : Widget :=
  {| kind := kind w; _id := _id w; _title := _title w;
     is_selectable := is_selectable w; _menu := Some m;
     selected := selected w; to_menu := to_menu w; _onselect := _onselect w;
     _default_value := _default_value w; _style := _style w |}.

Definition with_selectable (w : Widget) (b : bool) : Widget :=
  {| kind := kind w; _id := _id w; _title := _title w;
     is_selectable := b; _menu := _menu w;
     selected := selected w; to_menu := to_menu w; _onselect := _onselect w;
     _default_value := _default_value w; _style := _style w |}.

Definition with_to_menu (w : Widget) (b : bool) : Widget :=
  {| kind := kind w; _id := _id w; _title := _title w;
     is_selectable := is_selectable w; _menu := _menu w;
     selected := selected w; to_menu := b; _onselect := _onselect w;
     _default_value := _default_value w; _style := _style w |}.

Definition with_onselect (w : Widget) (f : value) : Widget :=
  {| kind := kind w; _id := _id w; _title := _title w;
     is_selectable := is_selectable w; _menu := _menu w;
     selected := selected w; to_menu := to_menu w; _onselect := f;
     _default_value := _default_value w; _style := _style w |}.

Definition with_default_value (w : Widget) (v : value) : Widget :=
  {| kind := kind w; _id := _id w; _title := _title w;
     is_selectable := is_selectable w; _menu := _menu w;
     selected := selected w; to_menu := to_menu w; _onselect := _onselect w;
     _default_value := v; _style := _style w |}.

Definition with_style (w : Widget) (a : Dict.t) : Widget :=
  {| kind := kind w; _id := _id w; _title := _title w;
     is_selectable := is_selectable w; _menu := _menu w;
     selected := selected w; to_menu := to_menu w; _onselect := _onselect w;
     _default_value := _default_value w; _style := Some a |}.

(** [widget.select()] *)
Definition select (w : Widget) : Widget :=
  {| kind := kind w; _id := _id w; _title := _title w;
     is_selectable := is_selectable w; _menu := _menu w;
     selected := true; to_menu := to_menu w; _onselect := _onselect w;
     _default_value := _default_value w; _style := _style w |}.

Record Menu := {
  _theme : Theme.t;
  get_title : string;
  _widgets : list Widget;
  _index : Z;
  _submenus : list addr;
  added_widgets : Z;                (* _stats.added_widgets *)
  _widgets_surface : option nat
}.

Definition set_widgets (m : Menu) (ws : list Widget) : Menu :=
  {| _theme := _theme m; get_title := get_title m; _widgets := ws;
     _index := _index m; _submenus := _submenus m;
     added_widgets := added_widgets m;
     _widgets_surface := _widgets_surface m |}.

Definition set_index (m : Menu) (i : Z) : Menu :=
  {| _theme := _theme m; get_title := get_title m; _widgets := _widgets m;
     _index := i; _submenus := _submenus m;
     added_widgets := added_widgets m;
     _widgets_surface := _widgets_surface m |}.

Definition set_submenus (m : Menu) (l : list addr) : Menu :=
  {| _theme := _theme m; get_title := get_title m; _widgets := _widgets m;
     _index := _index m; _submenus := l;
     added_widgets := added_widgets m;
     _widgets_surface := _widgets_surface m |}.

Definition set_added_widgets (m : Menu) (n : Z) : Menu :=
  {| _theme := _theme m; get_title := get_title m; _widgets := _widgets m;
     _index := _index m; _submenus := _submenus m;
     added_widgets := n;
     _widgets_surface := _widgets_surface m |}.

Definition set_widgets_surface (m : Menu) (s : option nat) : Menu :=
  {| _theme := _theme m; get_title := get_title m; _widgets := _widgets m;
     _index := _index m; _submenus := _submenus m;
     added_widgets := added_widgets m;
     _widgets_surface := s |}.

Definition empty_menu (t : Theme.t) (title : string) : Menu :=
  {| _theme := t; get_title := title; _widgets := []; _index := (-1)%Z;
     _submenus := []; added_widgets := 0%Z; _widgets_surface := None |}.

#[global] Instance Menu_inhabited : Inhabited Menu :=
  populate (empty_menu sample_theme "").

(** The menus by address, and how many UUIDs have been drawn. *)
Record World := {
  menus : gmap addr Menu;
  uuids_drawn : nat
}.

Definition menu_at (w : World) (a : addr) : Menu := menus w !!! a.

Definition get_menu_obj (a : addr) : M World Menu :=
  fun w => (w, Ok (menu_at w a)).

Definition put_menu (a : addr) (m : Menu) : M World unit :=
  fun w => ({| menus := <[a := m]> (menus w); uuids_drawn := uuids_drawn w |},
            Ok tt).

(** Run code over a local dictionary; hand back the dictionary as the code
    left it. *)
Definition on_dict {A} (c : M Dict.t A) (d : Dict.t) : M World (A * Dict.t) :=
  fun w =>
    match c d with
    | (d', Ok a) => (w, Ok (a, d'))
    | (_, Raise e) => (w, Raise e)
    end.

(** Modelled from the spec: [Menu._check_id_duplicated] is not in this
    module; "widget IDs are unique within one container", a duplicate is an
    error. *)
Definition _check_id_duplicated (m : Menu) (widget_id : string) : result unit :=
  if existsb (fun w => String.eqb (_id w) widget_id) (_widgets m)
  then Raise (IndexError ("widget id " ++ widget_id
                          ++ " already exists on the current menu"))
  else Ok tt.

(** Modelled from the spec: [Menu.in_submenu] is not in this module; the
    target "(transitively) contains the container as a submenu".  [depth]
    bounds the recursion, as the interpreter's recursion limit does. *)
Fixpoint in_submenu (depth : nat) (ms : gmap addr Menu) (self menu : addr)
    (recursive : bool) : result bool :=
  match depth with
  | O => Raise RecursionError
  | S depth' =>
      let subs := _submenus (ms !!! self) in
      if existsb (Nat.eqb menu) subs then Ok true
      else if recursive then
        (fix each (l : list addr) : result bool :=
           match l with
           | [] => Ok false
           | sm :: l' =>
               match in_submenu depth' ms sm menu recursive with
               | Ok true => Ok true
               | Ok false => each l'
               | Raise e => Raise e
               end
           end) subs
      else Ok false
  end.

(** The first newline splits a string; [split_lines] is [str.split] on the
    newline character. *)
Definition newline : Ascii.ascii := Ascii.ascii_of_nat 10.

Fixpoint split_lines (s : string) : list string :=
  match s with
  | EmptyString => [EmptyString]
  | String c s' =>
      if Ascii.eqb c newline then EmptyString :: split_lines s'
      else match split_lines s' with
           | [] => [String c EmptyString]
           | l :: ls => String c l :: ls
           end
  end.

Fixpoint has_newline (s : string) : bool :=
  match s with
  | EmptyString => false
  | String c s' => Ascii.eqb c newline || has_newline s'
  end.

(** [v != ''] *)
Definition ne_empty_str (v : value) : bool :=
  match v with
  | VStr s => negb (String.eqb s "")
  | _ => true
  end.

(** [1 <= v] for an [int]. *)
Definition one_le (v : value) : bool :=
  match v with
  | VInt n => (1 <=? n)%Z
  | VBool b => b
  | _ => false
  end.

(** What a button is asked to do. *)
Inductive Action :=
| AMenu (target : addr)
| ABack | AClose | AExit | ANoAction | AReset
| APygameQuit | APygameWindowClose
| APyNone
| ACallable (f : nat)
| AOther (v : value).

(** What [label] returns: a widget, or a list of what the calls for the
    lines returned. *)
Inductive LabelResult :=
| One (w : Widget)
| Many (l : list LabelResult).

(** [d[k]] *)
Definition subscript (d : Dict.t) (k : string) : result value :=
  match Dict.get k d with
  | Some v => Ok v
  | None => Raise (KeyError k)
  end.

Fixpoint subscripts (d : Dict.t) (ks : list string) : result unit :=
  match ks with
  | [] => Ok tt
  | k :: ks' =>
      match subscript d k with
      | Ok _ => subscripts d ks'
      | Raise e => Raise e
      end
  end.

(** The keys [_configure_widget] reads, in the order it reads them. *)
Definition configured_keys : list string :=
  [ "align"; "background_color"; "background_inflate"; "border_width";
    "border_color"; "border_inflate"; "font_antialias";
    "font_background_color"; "font_color"; "font_name"; "font_size";
    "readonly_color"; "readonly_selected_color"; "selection_color";
    "margin"; "padding"; "selection_effect"; "shadow_color"; "shadow";
    "shadow_offset"; "shadow_position" ].

(** The keys [image] discards before resolution. *)
Definition image_discarded_keys : list string :=
  [ "font_background_color"; "font_color"; "font_name"; "font_size";
    "shadow"; "shadow_color"; "shadow_position"; "shadow_offset" ].

Definition dquote : string := String (Ascii.ascii_of_nat 34) EmptyString.

Definition recursive_menu_msg (title : string) : string :=
  "Menu " ++ dquote ++ title ++ dquote
  ++ " is already on submenu structure, recursive menus lead "
  ++ "to unexpected behaviours. For returning to previous menu use "
  ++ "pygame_menu.events.BACK event defining an optional back_count "
  ++ "number of menus to return from, default is 1".

(** Whether a widget class accepts user selection when it is built. *)
Definition default_selectable (k : WidgetKind) : bool :=
  match k with
  | KButton | KTextInput => true
  | KImage | KLabel => false
  end.

(** [f(k1=v1, ..., **kwargs)]: a key of [kwargs] that repeats a keyword of
    the call is a [TypeError], raised after the arguments have been
    evaluated and before [f] runs. *)
Definition keywords (named kwargs : Dict.t) : result Dict.t :=
  if existsb (fun k => Dict.mem k named) (Dict.keys kwargs)
  then Raise TypeError
  else Ok (named ++ kwargs)%list.

Section Manager.

(** [pygame_menu.utils.assert_color] and [assert_vector]. *)
Variable assert_color : value -> bool.

Variable assert_vector : value -> nat -> bool.

(** [uuid4()]: the identifier of the n-th draw. *)
Variable uuid4 : nat -> string.

(** Whether the constructor of a widget class accepts its title, its ID and
    its other arguments. *)
Variable init_ok : WidgetKind -> string -> string -> Dict.t -> bool.

(** Whether the setters the binder calls accept the bundle. *)
Variable style_ok : Dict.t -> bool.

(** Whether [Widget.set_selection_callback] accepts the callback. *)
Variable selection_callback_ok : value -> bool.

(** Whether [TextInput.set_default_value] accepts the value. *)
Variable default_value_ok : value -> bool.

(** [textwrap.wrap]: the lines, or the exception it raises. *)
Variable wrap : string -> Z -> result (list string).

(** The wrap threshold [label] computes from the menu's inner width and
    the rendered width of the probe label. *)
Variable probe_max_char : Menu -> Widget -> string -> result Z.

Definition fresh_uuid : M World string :=
  fun w => ({| menus := menus w; uuids_drawn := S (uuids_drawn w) |},
            Ok (uuid4 (uuids_drawn w))).

(** Modelled from the spec: the widget classes are not in this module; a
    widget "has identity (an ID, unique within its owning container), a
    selectable flag, an owning-container back-reference", unset until the
    widget is bound.  A widget built with an empty ID draws a UUID. *)
Definition new_widget (k : WidgetKind) (title id : string) (extra : Dict.t)
  : M World Widget :=
  assert_ (init_ok k title id extra) "" ;;;
  let* wid := (if String.eqb id "" then fresh_uuid else ret id) in
  ret {| kind := k; _id := wid; _title := title;
         is_selectable := default_selectable k; _menu := None;
         selected := false; to_menu := false; _onselect := VNone;
         _default_value := VNone; _style := None |}.

(** The list holds the widget object itself, so the widget selected after
    the append is the one in the list; [_render] recomputes surfaces only
    and changes none of the fields kept here. *)
Definition _append_widget (self : addr) (widget : Widget) : M World Widget :=
  assert_ (match _menu widget with
           | Some a => Nat.eqb a self
           | None => false
           end) "widget cannot have a different instance of menu" ;;;
  let* menu := get_menu_obj self in
  let selects := (_index menu <? 0)%Z && is_selectable widget in
  let widget := if selects then select widget else widget in
  let menu := set_widgets menu (_widgets menu ++ [widget])%list in
  let menu :=
    if selects
    then set_index menu (Z.of_nat (length (_widgets menu)) - 1)%Z
    else menu in
  let menu := set_added_widgets menu (added_widgets menu + 1)%Z in
  let menu := set_widgets_surface menu None in
  put_menu self menu ;;;
  ret widget.

(** The setters read the bundle key by key and validate what they are
    given; the widget keeps the bundle. *)
Definition _configure_widget (self : addr) (widget : Widget) (kwargs : Dict.t)
  : M World Widget :=
  assert_ (match _menu widget with None => true | Some _ => false end)
    "widget cannot have an instance of menu" ;;;
  let widget := with_menu widget self in
  let* menu := get_menu_obj self in
  lift (_check_id_duplicated menu (_id widget)) ;;;
  lift (subscripts kwargs configured_keys) ;;;
  let* margin := lift (subscript kwargs "margin") in
  let* _ := lift (getitem margin 0) in
  let* _ := lift (getitem margin 1) in
  assert_ (style_ok kwargs) "" ;;;
  ret (with_style widget kwargs).

Definition button (depth : nat) (self : addr) (title : string)
    (action : Action) (args : list value) (kwargs : Dict.t) : M World Widget :=
  let* menu := get_menu_obj self in
  let* pre :=
    on_dict
      (let* total_back := pop "back_count" (VInt 1) in
       assert_ (isinstance_int total_back && one_le total_back) "" ;;;
       let* button_id := pop "button_id" (VStr "") in
       assert_ (isinstance_str button_id) "id must be a string" ;;;
       let* accept_kwargs := pop "accept_kwargs" (VBool false) in
       assert_ (isinstance_bool accept_kwargs) "" ;;;
       let* onselect := pop "onselect" VNone in
       let* attributes :=
         _filter_widget_attributes assert_color assert_vector (_theme menu) in
       ret (total_back, button_id, accept_kwargs, onselect, attributes))
      kwargs in
  let kwargs := pre.2 in
  let total_back := pre.1.1.1.1.1 in
  let button_id := str_of pre.1.1.1.1.2 in
  let accept_kwargs := truthy pre.1.1.1.2 in
  let onselect := pre.1.1.2 in
  let attributes := pre.1.2 in
  let action :=
    match action with
    | APygameQuit | APygameWindowClose => AExit
    | APyNone => ANoAction
    | a => a
    end in
  let* widget :=
    match action with
    | AMenu target =>
        let* recursive :=
          (if Nat.eqb target self then ret true
           else fun w => (w, in_submenu depth (menus w) target self true)) in
        if recursive : bool then
          let* m := get_menu_obj target in
          raise (ValueError (recursive_menu_msg (get_title m)))
        else
          let* menu := get_menu_obj self in
          put_menu self (set_submenus menu (_submenus menu ++ [target])%list) ;;;
          let* widget :=
            new_widget KButton title button_id
              [("args", VTuple [VObject target])] in
          ret (with_to_menu widget true)
    | ABack =>
        new_widget KButton title button_id [("args", VTuple [total_back])]
    | AClose | AExit | ANoAction | AReset =>
        new_widget KButton title button_id []
    | ACallable _ =>
        if negb accept_kwargs
        then new_widget KButton title button_id [("args", VTuple args)]
        else new_widget KButton title button_id
               (("args", VTuple args) :: kwargs)
    | _ =>
        raise (ValueError
          "action must be a Menu, a MenuAction (event), a function (callable), or None")
    end in
  (if negb accept_kwargs then lift (_check_kwargs kwargs) else ret tt) ;;;
  let* widget := _configure_widget self widget attributes in
  assert_ (selection_callback_ok onselect) "" ;;;
  let widget := with_onselect widget onselect in
  _append_widget self widget.

Definition image (self : addr) (image_id : string) (onselect : value)
    (selectable : bool) (params : Dict.t) (kwargs : Dict.t) : M World Widget :=
  let kwargs := Dict.remove_all image_discarded_keys kwargs in
  let* menu := get_menu_obj self in
  let* r :=
    on_dict (_filter_widget_attributes assert_color assert_vector (_theme menu))
      kwargs in
  let attributes := r.1 in
  let kwargs := r.2 in
  let* widget :=
    new_widget KImage "" image_id (params ++ [("onselect", onselect)])%list in
  let widget := with_onselect widget onselect in
  let widget := with_selectable widget selectable in
  lift (_check_kwargs kwargs) ;;;
  let* widget := _configure_widget self widget attributes in
  _append_widget self widget.

Fixpoint label (depth : nat) (self : addr) (title : string) (label_id : string)
    (max_char : Z) (onselect : value) (selectable : bool) (kwargs : Dict.t)
    {struct depth} : M World LabelResult :=
  match depth with
  | O => raise RecursionError
  | S depth' =>
      assert_ (-1 <=? max_char)%Z "" ;;;
      let* label_id :=
        (if (String.length label_id =? 0)%nat then fresh_uuid
         else ret label_id) in
      if has_newline title then
        let* widgets :=
          (fix each (ts : list string) (widgets : list LabelResult)
             : M World (list LabelResult) :=
             match ts with
             | [] => ret widgets
             | t :: ts' =>
                 let* wig :=
                   label depth' self t
                     (label_id ++ "+" ++ pretty (length widgets + 1)%nat)
                     max_char onselect selectable kwargs in
                 each ts'
                   (match wig with
                    | Many l => (widgets ++ l)%list
                    | One _ => (widgets ++ [wig])%list
                    end)
             end) (split_lines title) [] in
        ret (Many widgets)
      else
        let* menu := get_menu_obj self in
        let* max_char :=
          (if (max_char <? 0)%Z then
             let* r :=
               on_dict (_filter_widget_attributes assert_color assert_vector
                          (_theme menu)) kwargs in
             let dummy_attrs := r.1 in
             let* dummy := new_widget KLabel title "" [] in
             let* dummy := _configure_widget self dummy dummy_attrs in
             lift (probe_max_char menu dummy title)
           else ret max_char) in
        if (Z.of_nat (String.length title) <=? max_char)%Z
           || (max_char =? 0)%Z
        then
          let* r :=
            on_dict (_filter_widget_attributes assert_color assert_vector
                       (_theme menu)) kwargs in
          let attributes := r.1 in
          let kwargs := r.2 in
          let* widget :=
            new_widget KLabel title label_id [("onselect", onselect)] in
          let widget := with_onselect widget onselect in
          let widget := with_selectable widget selectable in
          lift (_check_kwargs kwargs) ;;;
          let* widget := _configure_widget self widget attributes in
          let* widget := _append_widget self widget in
          ret (One widget)
        else
          let* menu := get_menu_obj self in
          lift (_check_id_duplicated menu label_id) ;;;
          let* lines := lift (wrap title max_char) in
          let* widget :=
            (fix each (ls : list string) (widget : list LabelResult)
               : M World (list LabelResult) :=
               match ls with
               | [] => ret widget
               | line :: ls' =>
                   let* r :=
                     label depth' self line
                       (label_id ++ "+" ++ pretty (length widget + 1)%nat)
                       max_char onselect selectable kwargs in
                   each ls' (widget ++ [r])%list
               end) lines [] in
          ret (Many widget)
  end.

(** [params] holds the parameters that [text_input] hands to the
    constructor as they are, from [copy_paste_enable] to [valid_chars]; the
    constructor is called with these, with the keywords written out below
    and with [**kwargs], what is left of the mapping. *)
Definition text_input (self : addr) (title : string) (default : value)
    (onselect : value) (password : bool) (textinput_id : string)
    (params : Dict.t) (kwargs : Dict.t) : M World Widget :=
  assert_ (isinstance_str default || isinstance_int_float default) "" ;;;
  let* menu := get_menu_obj self in
  let* r :=
    on_dict
      (let* attributes :=
         _filter_widget_attributes assert_color assert_vector (_theme menu) in
       let* input_underline_vmargin := pop "input_underline_vmargin" (VInt 0) in
       ret (attributes, input_underline_vmargin))
      kwargs in
  let attributes := r.1.1 in
  let input_underline_vmargin := r.1.2 in
  let kwargs := r.2 in
  if password && ne_empty_str default then
    raise (ValueError "default value must be empty if the input is a password")
  else
    let* args :=
      lift (keywords
              (params
               ++ [("cursor_color", Theme.cursor_color (_theme menu));
                   ("cursor_selection_color",
                    Theme.cursor_selection_color (_theme menu));
                   ("cursor_switch_ms", Theme.cursor_switch_ms (_theme menu));
                   ("input_underline_vmargin", input_underline_vmargin);
                   ("onselect", onselect);
                   ("password", VBool password);
                   ("textinput_id", VStr textinput_id);
                   ("title", VStr title)])%list
              kwargs) in
    let* widget := new_widget KTextInput title textinput_id args in
    let widget := with_onselect widget onselect in
    let* widget := _configure_widget self widget attributes in
    assert_ (default_value_ok default) "" ;;;
    let widget := with_default_value widget default in
    _append_widget self widget.

End Manager.

(** ** Defaults and overrides *)

(** The keys whose value the resolver does not carry as it is. *)
Definition transformed_keys : list string :=
  [ "font_background_color"; "font_name"; "selection_effect" ].

(** What the bundle carries for key [k] when the caller's value (or the
    default) is [v]. *)
Definition carried (theme : Theme.t) (kwargs : Dict.t) (k : string) (v : value)
  : value :=
  if String.eqb k "font_name" then VStr (str_of v)
  else if String.eqb k "selection_effect" then
    (if is_None v then VNoneSelection else v)
  else if String.eqb k "font_background_color" then
    (if derives_font_background theme kwargs then Theme.background_color theme
     else v)
  else v.

(** A theme that asks for the font background of the menu. *)
Definition from_menu_theme : Theme.t := {|
  Theme.background_color := VTuple [VInt 220; VInt 220; VInt 220];
  Theme.cursor_color := rgb 0 0 0;
  Theme.cursor_selection_color := VTuple [VInt 30; VInt 30; VInt 30; VInt 120];
  Theme.cursor_switch_ms := VInt 500;
  Theme.readonly_color := rgb 120 120 120;
  Theme.readonly_selected_color := rgb 190 190 190;
  Theme.selection_color := rgb 255 255 255;
  Theme.widget_alignment := VStr "align-center";
  Theme.widget_background_color := VNone;
  Theme.widget_background_inflate := VTuple [VInt 0; VInt 0];
  Theme.widget_border_color := rgb 0 0 0;
  Theme.widget_border_inflate := VTuple [VInt 0; VInt 0];
  Theme.widget_border_width := VInt 0;
  Theme.widget_font := VStr "opensans";
  Theme.widget_font_antialias := VBool true;
  Theme.widget_font_background_color := VNone;
  Theme.widget_font_background_color_from_menu := VBool true;
  Theme.widget_font_color := rgb 70 70 70;
  Theme.widget_font_size := VInt 30;
  Theme.widget_margin := VTuple [VInt 0; VInt 0];
  Theme.widget_padding := VTuple [VInt 4; VInt 8];
  Theme.widget_selection_effect := VSelection 1;
  Theme.widget_shadow := VBool false;
  Theme.widget_shadow_color := rgb 0 0 0;
  Theme.widget_shadow_offset := VInt 2;
  Theme.widget_shadow_position := VStr "position-northwest"
|}.

(** The same theme with a font background of its own. *)
Definition own_font_background_theme : Theme.t := {|
  Theme.background_color := VTuple [VInt 220; VInt 220; VInt 220];
  Theme.cursor_color := rgb 0 0 0;
  Theme.cursor_selection_color := VTuple [VInt 30; VInt 30; VInt 30; VInt 120];
  Theme.cursor_switch_ms := VInt 500;
  Theme.readonly_color := rgb 120 120 120;
  Theme.readonly_selected_color := rgb 190 190 190;
  Theme.selection_color := rgb 255 255 255;
  Theme.widget_alignment := VStr "align-center";
  Theme.widget_background_color := VNone;
  Theme.widget_background_inflate := VTuple [VInt 0; VInt 0];
  Theme.widget_border_color := rgb 0 0 0;
  Theme.widget_border_inflate := VTuple [VInt 0; VInt 0];
  Theme.widget_border_width := VInt 0;
  Theme.widget_font := VStr "opensans";
  Theme.widget_font_antialias := VBool true;
  Theme.widget_font_background_color := rgb 10 10 10;
  Theme.widget_font_background_color_from_menu := VBool true;
  Theme.widget_font_color := rgb 70 70 70;
  Theme.widget_font_size := VInt 30;
  Theme.widget_margin := VTuple [VInt 0; VInt 0];
  Theme.widget_padding := VTuple [VInt 4; VInt 8];
  Theme.widget_selection_effect := VSelection 1;
  Theme.widget_shadow := VBool false;
  Theme.widget_shadow_color := rgb 0 0 0;
  Theme.widget_shadow_offset := VInt 2;
  Theme.widget_shadow_position := VStr "position-northwest"
|}.


(** The rule stated for margin and padding: a scalar, or a tuple of two or
    four numbers, none of them negative. *)
Definition stated_box_rule (v : value) : bool :=
  match v with
  | VTuple l =>
      ((length l =? 2)%nat || (length l =? 4)%nat) && forallb nonneg_num l
  | _ => isinstance_int_float v && nonneg_num v
  end.

(** ** Registration *)

(** Successive registrations, as a caller adding widgets one after the
    other makes them. *)
Fixpoint append_all (self : addr) (ws : list Widget) : M World unit :=
  match ws with
  | [] => ret tt
  | x :: ws' => _append_widget self x ;;; append_all self ws'
  end.

(** The position of the first selectable widget of a list. *)
Fixpoint first_selectable (ws : list Widget) : option nat :=
  match ws with
  | [] => None
  | x :: ws' =>
      if is_selectable x then Some 0%nat
      else option_map S (first_selectable ws')
  end.

(** The list with its first selectable widget selected. *)
Fixpoint select_first (ws : list Widget) : list Widget :=
  match ws with
  | [] => []
  | x :: ws' =>
      if is_selectable x then select x :: ws' else x :: select_first ws'
  end.

(** What [_append_widget] leaves in the menu. *)
Definition appended (m : Menu) (widget : Widget) : Menu :=
  let selects := (_index m <? 0)%Z && is_selectable widget in
  {| _theme := _theme m; get_title := get_title m;
     _widgets :=
       (_widgets m ++ [if selects then select widget else widget])%list;
     _index := if selects then Z.of_nat (length (_widgets m)) else _index m;
     _submenus := _submenus m;
     added_widgets := (added_widgets m + 1)%Z;
     _widgets_surface := None |}.

(** A world of two menus with the sample theme, nothing registered. *)
Definition demo_world : World :=
  {| menus := <[0%nat := empty_menu sample_theme "main"]>
                (<[1%nat := empty_menu sample_theme "sub"]> ∅);
     uuids_drawn := 0 |}.

Definition demo_widget (k : WidgetKind) (id : string) (selectable : bool)
  : Widget :=
  {| kind := k; _id := id; _title := id; is_selectable := selectable;
     _menu := Some 0%nat; selected := false; to_menu := false;
     _onselect := VNone; _default_value := VNone; _style := None |}.

(** ** Steps that leave the container alone *)

(** The registration state of every menu is the same in both worlds. *)
Definition same_registration (w w' : World) : Prop :=
  forall a,
    _widgets (menu_at w' a) = _widgets (menu_at w a)
    /\ _index (menu_at w' a) = _index (menu_at w a)
    /\ added_widgets (menu_at w' a) = added_widgets (menu_at w a).

(** No menu has changed at all. *)
Definition same_menus (w w' : World) : Prop := menus w' = menus w.

(** [keeps R c]: whatever the outcome of [c], the worlds before and after
    are related by [R]; [atomic R c]: they are when [c] raises. *)
Definition keeps {A} (R : World -> World -> Prop) (c : M World A) : Prop :=
  forall w w' r, c w = (w', r) -> R w w'.

Definition atomic {A} (R : World -> World -> Prop) (c : M World A) : Prop :=
  forall w w' e, c w = (w', Raise e) -> R w w'.

(** ** Running the factories *)

(** The widget a constructor returns. *)
Definition built (k : WidgetKind) (title wid : string) : Widget :=
  {| kind := k; _id := wid; _title := title;
     is_selectable := default_selectable k; _menu := None;
     selected := false; to_menu := false; _onselect := VNone;
     _default_value := VNone; _style := None |}.

(** The world after one more UUID has been drawn. *)
Definition drawn (w : World) : World :=
  {| menus := menus w; uuids_drawn := S (uuids_drawn w) |}.

(** The world after [widget] has been registered in [self]. *)
Definition registered (self : addr) (widget : Widget) (w : World) : World :=
  {| menus := <[self := appended (menu_at w self) widget]> (menus w);
     uuids_drawn := uuids_drawn w |}.

(** The widget as the registration leaves it. *)
Definition as_registered (m : Menu) (widget : Widget) : Widget :=
  if (_index m <? 0)%Z && is_selectable widget then select widget else widget.

(** The label widget of one line, bound and styled. *)
Definition label_widget (theme : Theme.t) (kwargs : Dict.t) (self : addr)
    (title lid : string) (onselect : value) (selectable : bool) : Widget :=
  with_style
    (with_menu
       (with_selectable (with_onselect (built KLabel title lid) onselect)
          selectable) self)
    (bundle theme kwargs).

(** ** Sample collaborators, for the instances below *)

Definition demo_uuid4 (n : nat) : string := "uuid-" ++ pretty n.

Definition demo_init_ok (k : WidgetKind) (title id : string) (extra : Dict.t)
  : bool := true.

Definition demo_style_ok (a : Dict.t) : bool := true.

Definition demo_default_value_ok (v : value) : bool := true.

Definition demo_selection_callback_ok (f : value) : bool := true.

Definition demo_wrap (s : string) (n : Z) : result (list string) := Ok [s].

Definition demo_probe_max_char (m : Menu) (dummy : Widget) (title : string)
  : result Z := Ok 0%Z.

Definition demo_label :=
  label assert_color_ref assert_vector_ref demo_uuid4 demo_init_ok
    demo_style_ok demo_wrap demo_probe_max_char.

(** ** Text inputs *)

(** The ID of a widget built with ID [id], and the world after building
    it: an empty ID draws a UUID. *)
Definition id_or_uuid (uuid4 : nat -> string) (id : string) (w : World)
  : string :=
  if String.eqb id "" then uuid4 (uuids_drawn w) else id.

Definition after_id (id : string) (w : World) : World :=
  if String.eqb id "" then drawn w else w.

(** The text input widget, bound and styled, with its default value. *)
Definition text_input_widget (theme : Theme.t) (kwargs : Dict.t) (self : addr)
    (title wid : string) (onselect default : value) : Widget :=
  with_default_value
    (with_style
       (with_menu (with_onselect (built KTextInput title wid) onselect) self)
       (bundle theme kwargs))
    default.

(** The keywords [text_input] writes in the call of the constructor. *)
Definition text_input_named (theme : Theme.t) (params : Dict.t)
    (title textinput_id : string) (onselect : value) (password : bool)
    (kwargs : Dict.t) : Dict.t :=
  let rest := Dict.remove_all consumed_keys kwargs in
  (params
   ++ [("cursor_color", Theme.cursor_color theme);
       ("cursor_selection_color", Theme.cursor_selection_color theme);
       ("cursor_switch_ms", Theme.cursor_switch_ms theme);
       ("input_underline_vmargin",
        given rest "input_underline_vmargin" (VInt 0));
       ("onselect", onselect);
       ("password", VBool password);
       ("textinput_id", VStr textinput_id);
       ("title", VStr title)])%list.

(** What is left of the mapping when [text_input] calls the constructor. *)
Definition text_input_rest (kwargs : Dict.t) : Dict.t :=
  Dict.remove "input_underline_vmargin" (Dict.remove_all consumed_keys kwargs).

(** The keyword arguments the constructor of the text input receives. *)
Definition text_input_extra (theme : Theme.t) (params : Dict.t)
    (title textinput_id : string) (onselect : value) (password : bool)
    (kwargs : Dict.t) : Dict.t :=
  (text_input_named theme params title textinput_id onselect password kwargs
   ++ text_input_rest kwargs)%list.

(** ** Submenu structure *)

(** [contains_menu ms a menu]: [menu] is a submenu of [a], directly or
    through submenus. *)
Inductive contains_menu (ms : gmap addr Menu) : addr -> addr -> Prop :=
| contains_direct a menu :
    menu ∈ _submenus (ms !!! a) -> contains_menu ms a menu
| contains_indirect a sm menu :
    sm ∈ _submenus (ms !!! a) -> contains_menu ms sm menu ->
    contains_menu ms a menu.

(** ** Buttons *)

(** The keys [button] pops before resolution. *)
Definition button_option_keys : list string :=
  [ "back_count"; "button_id"; "accept_kwargs"; "onselect" ].

(** The checks [button] makes on its own options. *)
Definition button_options_ok (kwargs : Dict.t) : bool :=
  (isinstance_int (given kwargs "back_count" (VInt 1))
   && one_le (given kwargs "back_count" (VInt 1)))
  && isinstance_str (given kwargs "button_id" (VStr ""))
  && isinstance_bool (given kwargs "accept_kwargs" (VBool false)).

(** The world after [target] has been recorded as a submenu of [self]. *)
Definition with_submenu (self target : addr) (w : World) : World :=
  {| menus :=
       <[self := set_submenus (menu_at w self)
                   (_submenus (menu_at w self) ++ [target])%list]> (menus w);
     uuids_drawn := uuids_drawn w |}.

(** The button widget, bound and styled. *)
Definition button_widget (theme : Theme.t) (options : Dict.t) (self : addr)
    (title wid : string) (onselect : value) (opens_menu : bool) : Widget :=
  with_onselect
    (with_style
       (with_menu
          (if opens_menu then with_to_menu (built KButton title wid) true
           else built KButton title wid) self)
       (bundle theme options))
    onselect.

(** ** Leftover keys *)

(** The error [_check_kwargs] raises for the key [k]. *)
Definition kwarg_error (k : string) : exn :=
  ValueError ("widget addition optional parameter kwargs." ++ k
              ++ " is not valid").



(** The actions for which [button] only builds the widget. *)
Definition plain_action (a : Action) : bool :=
  match a with
  | AMenu _ | AOther _ => false
  | _ => true
  end.

(** ** Instances and counterexamples on sample worlds *)

Definition demo_button :=
  button assert_color_ref assert_vector_ref demo_uuid4 demo_init_ok
    demo_style_ok demo_selection_callback_ok.

Definition demo_image :=
  image assert_color_ref assert_vector_ref demo_uuid4 demo_init_ok
    demo_style_ok.

Definition demo_text_input :=
  text_input assert_color_ref assert_vector_ref demo_uuid4 demo_init_ok
    demo_style_ok demo_default_value_ok.

(** Three menus: [main] at 0, [sub] at 1 with [main] as its submenu, and
    [other] at 2. *)
Definition nested_world : World :=
  {| menus :=
       <[0%nat := empty_menu sample_theme "main"]>
         (<[1%nat := set_submenus (empty_menu sample_theme "sub") [0%nat]]>
            (<[2%nat := empty_menu sample_theme "other"]> ∅));
     uuids_drawn := 0 |}.

Definition nested_rank (a : addr) : nat :=
  match a with
  | 1%nat => 1%nat
  | _ => 0%nat
  end.

(** The sample world with the ID [X+2] taken in the main menu. *)
Definition taken_world : World :=
  {| menus :=
       <[0%nat := set_widgets (empty_menu sample_theme "main")
                    [demo_widget KLabel "X+2" false]]>
         (<[1%nat := empty_menu sample_theme "sub"]> ∅);
     uuids_drawn := 0 |}.


(** * The other factories *)

(** The widget classes whose constructors the other factories call. *)
Inductive WidgetClass :=
| ColorInput | Selector | ToggleSwitch | VMargin | NoneWidget.

(** [0 <= v <= 1] for an [int]. *)
Definition in_zero_one (v : value) : bool :=
  match v with
  | VInt n => (0 <=? n)%Z && (n <=? 1)%Z
  | VBool _ => true
  | _ => false
  end.

(** The mapping as it is now. *)
Definition the_dict : M Dict.t Dict.t := fun d => (d, Ok d).

Section OtherFactories.

Variable assert_color : value -> bool.

Variable assert_vector : value -> nat -> bool.

(** The constructors of these classes are not in this module: what a
    constructor returns or raises for its keyword arguments, and the world
    it leaves (a constructor may draw a UUID). *)
Variable construct : WidgetClass -> Dict.t -> M World Widget.

Variable style_ok : Dict.t -> bool.

(** Whether [set_default_value] of the widget accepts the value. *)
Variable set_default_value_ok : Widget -> value -> bool.

(** [int(v)] for a [v] that is not an [int]: a float, a string or any
    other object. *)
Variable int_other : value -> result Z.

(** [int(v)] *)
Definition int_ (v : value) : result value :=
  match v with
  | VInt n => Ok (VInt n)
  | VBool b => Ok (VInt (Z.b2z b))
  | _ =>
      match int_other v with
      | Ok n => Ok (VInt n)
      | Raise e => Raise e
      end
  end.

Definition color_input (self : addr)
    (title color_type color_id default hex_format input_separator
       input_underline onchange onreturn onselect : value)
    (kwargs : Dict.t) : M World Widget :=
  assert_ (isinstance_str default || isinstance_tuple default) "" ;;;
  let* menu := get_menu_obj self in
  let* r :=
    on_dict
      (let* attributes :=
         _filter_widget_attributes assert_color assert_vector (_theme menu) in
       let* dynamic_width := pop "dynamic_width" (VBool true) in
       let* input_underline_vmargin := pop "input_underline_vmargin" (VInt 0) in
       let* prev_margin := pop "previsualization_margin" (VInt 10) in
       let* prev_width := pop "previsualization_width" (VInt 3) in
       let* kwargs := the_dict in
       let* args :=
         lift (keywords
                 [("color_type", color_type);
                  ("colorinput_id", color_id);
                  ("cursor_color", Theme.cursor_color (_theme menu));
                  ("cursor_switch_ms", Theme.cursor_switch_ms (_theme menu));
                  ("dynamic_width", dynamic_width);
                  ("hex_format", hex_format);
                  ("input_separator", input_separator);
                  ("input_underline", input_underline);
                  ("input_underline_vmargin", input_underline_vmargin);
                  ("onchange", onchange);
                  ("onreturn", onreturn);
                  ("onselect", onselect);
                  ("prev_margin", prev_margin);
                  ("prev_width_factor", prev_width);
                  ("title", title)]
                 kwargs) in
       ret (attributes, args))
      kwargs in
  let attributes := r.1.1 in
  let args := r.1.2 in
  let* widget := construct ColorInput args in
  let* widget := _configure_widget style_ok self widget attributes in
  assert_ (set_default_value_ok widget default) "" ;;;
  let widget := with_default_value widget default in
  _append_widget self widget.

Definition selector (self : addr)
    (title items default onchange onreturn onselect selector_id : value)
    (kwargs : Dict.t) : M World Widget :=
  let* menu := get_menu_obj self in
  let* r :=
    on_dict
      (let* attributes :=
         _filter_widget_attributes assert_color assert_vector (_theme menu) in
       let* kwargs := the_dict in
       let* args :=
         lift (keywords
                 [("default", default);
                  ("elements", items);
                  ("onchange", onchange);
                  ("onreturn", onreturn);
                  ("onselect", onselect);
                  ("selector_id", selector_id);
                  ("title", title)]
                 kwargs) in
       ret (attributes, args))
      kwargs in
  let attributes := r.1.1 in
  let args := r.1.2 in
  let* widget := construct Selector args in
  let* widget := _configure_widget style_ok self widget attributes in
  _append_widget self widget.

Definition toggle_switch (self : addr)
    (title default onchange toggleswitch_id state_text state_values : value)
    (kwargs : Dict.t) : M World Widget :=
  (if isinstance_int default
   then assert_ (in_zero_one default) "default value can be 0 or 1"
   else raise (ValueError
                 "invalid value type, default can be 0, False, 1, or True")) ;;;
  let* menu := get_menu_obj self in
  let* r :=
    on_dict
      (let* attributes :=
         _filter_widget_attributes assert_color assert_vector (_theme menu) in
       let* infinite := pop "infinite" (VBool false) in
       let* slider_color := pop "slider_color" (rgb 255 255 255) in
       let* slider_thickness := pop "slider_thickness" (VInt 20) in
       let* state_color :=
         pop "state_color" (VTuple [rgb 178 178 178; rgb 117 185 54]) in
       let* state_text_font_color :=
         pop "state_text_font_color"
           (VTuple [rgb 255 255 255; rgb 255 255 255]) in
       let* state_text_font_size := pop "state_text_font_size" VNone in
       let* switch_border_color := pop "switch_border_color" (rgb 40 40 40) in
       let* switch_border_width := pop "switch_border_width" (VInt 1) in
       let* switch_height := pop "switch_height" (VFloat 1.25%float) in
       let* switch_margin :=
         pop "switch_margin" (VTuple [VInt 25; VInt 0]) in
       let* width := pop "width" (VInt 150) in
       let* state_width := lift (int_ width) in
       let* kwargs := the_dict in
       let* args :=
         lift (keywords
                 [("default_state", default);
                  ("infinite", infinite);
                  ("onchange", onchange);
                  ("slider_color", slider_color);
                  ("slider_thickness", slider_thickness);
                  ("state_color", state_color);
                  ("state_text", state_text);
                  ("state_text_font_color", state_text_font_color);
                  ("state_text_font_size", state_text_font_size);
                  ("state_values", state_values);
                  ("switch_border_color", switch_border_color);
                  ("switch_border_width", switch_border_width);
                  ("switch_height", switch_height);
                  ("switch_margin", switch_margin);
                  ("title", title);
                  ("state_width", state_width);
                  ("toggleswitch_id", toggleswitch_id)]
                 kwargs) in
       ret (attributes, args))
      kwargs in
  let attributes := r.1.1 in
  let args := r.1.2 in
  let* widget := construct ToggleSwitch args in
  let* widget := _configure_widget style_ok self widget attributes in
  assert_ (set_default_value_ok widget default) "" ;;;
  let widget := with_default_value widget default in
  _append_widget self widget.

Definition vertical_margin (self : addr) (margin margin_id : value)
  : M World Widget :=
  assert_ (isinstance_int_float margin) "" ;;;
  let* c := lift (gt_zero margin) in
  assert_ c
    "zero margin is not valid, prefer adding a NoneWidget menu.add.none_widget()" ;;;
  let* menu := get_menu_obj self in
  let* r :=
    on_dict (_filter_widget_attributes assert_color assert_vector (_theme menu))
      [("margin", VTuple [VInt 0; margin])] in
  let attributes := r.1 in
  let* widget := construct VMargin [("widget_id", margin_id)] in
  let* widget := _configure_widget style_ok self widget attributes in
  _append_widget self widget.

Definition none_widget (self : addr) (widget_id : value) : M World Widget :=
  let* menu := get_menu_obj self in
  let* r :=
    on_dict (_filter_widget_attributes assert_color assert_vector (_theme menu))
      [] in
  let attributes := r.1 in
  let* widget := construct NoneWidget [("widget_id", widget_id)] in
  let* widget := _configure_widget style_ok self widget attributes in
  _append_widget self widget.

End OtherFactories.

(** * A widget the caller built

    [generic_widget] is handed a widget that the caller built and still
    holds: what the call does to that object the caller sees, also when the
    call raises.  The widget is kept beside the world. *)

Module Held.

Definition t : Type := World * Widget.

Definition on_world {A} (c : M World A) : M t A :=
  fun s => let r := c s.1 in ((r.1, s.2), r.2).

Definition get_widget : M t Widget := fun s => (s, Ok s.2).

Definition set_widget (x : Widget) : M t unit := fun s => ((s.1, x), Ok tt).

Section Held.

Variable assert_color : value -> bool.

Variable assert_vector : value -> nat -> bool.

Variable style_ok : Dict.t -> bool.

(** Whether [set_controls] of the widget accepts the flags of the menu. *)
Variable controls_ok : Widget -> bool.

(** [_configure_widget] on the held widget: [set_menu] has bound the widget
    when a later statement raises. *)
Definition _configure_widget (self : addr) (kwargs : Dict.t) : M t unit :=
  let* widget := get_widget in
  assert_ (match _menu widget with None => true | Some _ => false end)
    "widget cannot have an instance of menu" ;;;
  set_widget (with_menu widget self) ;;;
  let* menu := on_world (get_menu_obj self) in
  let* widget := get_widget in
  lift (_check_id_duplicated menu (_id widget)) ;;;
  lift (subscripts kwargs configured_keys) ;;;
  let* margin := lift (subscript kwargs "margin") in
  let* _ := lift (getitem margin 0) in
  let* _ := lift (getitem margin 1) in
  assert_ (style_ok kwargs) "" ;;;
  let* widget := get_widget in
  set_widget (with_style widget kwargs).

(** The warning for a button that opens a menu has no effect on the call.
    [_append_widget] touches the widget only when it succeeds, so it is run
    on the widget's value and the held widget updated from its result. *)
Definition generic_widget (self : addr) (configure_defaults : bool)
  : M t unit :=
  let* widget := get_widget in
  if match _menu widget with None => false | Some _ => true end then
    raise (ValueError "widget to be added is already appended to another Menu")
  else
    (if configure_defaults then
       let* menu := on_world (get_menu_obj self) in
       let* r :=
         on_world
           (on_dict (_filter_widget_attributes assert_color assert_vector
                       (_theme menu)) []) in
       _configure_widget self r.1
     else ret tt) ;;;
    let* widget := get_widget in
    set_widget (with_menu widget self) ;;;
    let* menu := on_world (get_menu_obj self) in
    let* widget := get_widget in
    lift (_check_id_duplicated menu (_id widget)) ;;;
    assert_ (controls_ok widget) "" ;;;
    let* widget := on_world (_append_widget self widget) in
    set_widget widget.

End Held.

End Held.

(** * What is stated about the rest of the manager *)

(** The bindings of the keys outside [ks] are the same in both mappings. *)
Definition same_outside (ks : list string) (d d' : Dict.t) : Prop :=
  forall k, k ∉ ks -> Dict.get k d' = Dict.get k d.

Definition keeps_dict {A} (ks : list string) (c : M Dict.t A) : Prop :=
  forall d d' r, c d = (d', r) -> same_outside ks d d'.

(** The selection index of a menu is negative or points at a selectable,
    selected widget of the list. *)
Definition selection_valid (m : Menu) : Prop :=
  (_index m < 0)%Z
  \/ exists x, _widgets m !! Z.to_nat (_index m) = Some x
               /\ is_selectable x = true /\ selected x = true.

(** [added self w w' r]: between [w] and [w'] the widget [r], bound to
    [self] and with an ID no widget of [self] had, has been put at the end
    of the list of [self]; the counter of [self] has grown by one and the
    lists of the other menus are the same. *)
Definition added (self : addr) (w w' : World) (r : Widget) : Prop :=
  _menu r = Some self
  /\ _widgets (menu_at w' self) = (_widgets (menu_at w self) ++ [r])%list
  /\ added_widgets (menu_at w' self) = (added_widgets (menu_at w self) + 1)%Z
  /\ (forall x, x ∈ _widgets (menu_at w self) -> _id x <> _id r)
  /\ (forall b, b <> self -> _widgets (menu_at w' b) = _widgets (menu_at w b)).

Definition on_ok {A} (Q : World -> World -> A -> Prop) (c : M World A) : Prop :=
  forall w w' r, c w = (w', Ok r) -> Q w w' r.

(** The keys [color_input] and [toggle_switch] take out of the mapping:
    those of the resolver and their own options. *)
Definition color_input_keys : list string :=
  (consumed_keys
   ++ [ "dynamic_width"; "input_underline_vmargin"; "previsualization_margin";
        "previsualization_width" ])%list.

Definition toggle_switch_keys : list string :=
  (consumed_keys
   ++ [ "infinite"; "slider_color"; "slider_thickness"; "state_color";
        "state_text_font_color"; "state_text_font_size";
        "switch_border_color"; "switch_border_width"; "switch_height";
        "switch_margin"; "width" ])%list.

(** The keyword arguments each factory writes in its constructor call. *)
Definition color_input_named (theme : Theme.t)
    (title color_type color_id hex_format input_separator input_underline
       onchange onreturn onselect : value) (kwargs : Dict.t) : Dict.t :=
  [ ("color_type", color_type);
    ("colorinput_id", color_id);
    ("cursor_color", Theme.cursor_color theme);
    ("cursor_switch_ms", Theme.cursor_switch_ms theme);
    ("dynamic_width", given kwargs "dynamic_width" (VBool true));
    ("hex_format", hex_format);
    ("input_separator", input_separator);
    ("input_underline", input_underline);
    ("input_underline_vmargin", given kwargs "input_underline_vmargin" (VInt 0));
    ("onchange", onchange);
    ("onreturn", onreturn);
    ("onselect", onselect);
    ("prev_margin", given kwargs "previsualization_margin" (VInt 10));
    ("prev_width_factor", given kwargs "previsualization_width" (VInt 3));
    ("title", title) ].

Definition selector_named
    (title items default onchange onreturn onselect selector_id : value)
  : Dict.t :=
  [ ("default", default);
    ("elements", items);
    ("onchange", onchange);
    ("onreturn", onreturn);
    ("onselect", onselect);
    ("selector_id", selector_id);
    ("title", title) ].

Definition toggle_switch_named
    (title default onchange toggleswitch_id state_text state_values
       state_width : value) (kwargs : Dict.t) : Dict.t :=
  [ ("default_state", default);
    ("infinite", given kwargs "infinite" (VBool false));
    ("onchange", onchange);
    ("slider_color", given kwargs "slider_color" (rgb 255 255 255));
    ("slider_thickness", given kwargs "slider_thickness" (VInt 20));
    ("state_color",
     given kwargs "state_color" (VTuple [rgb 178 178 178; rgb 117 185 54]));
    ("state_text", state_text);
    ("state_text_font_color",
     given kwargs "state_text_font_color"
       (VTuple [rgb 255 255 255; rgb 255 255 255]));
    ("state_text_font_size", given kwargs "state_text_font_size" VNone);
    ("state_values", state_values);
    ("switch_border_color", given kwargs "switch_border_color" (rgb 40 40 40));
    ("switch_border_width", given kwargs "switch_border_width" (VInt 1));
    ("switch_height", given kwargs "switch_height" (VFloat 1.25%float));
    ("switch_margin",
     given kwargs "switch_margin" (VTuple [VInt 25; VInt 0]));
    ("title", title);
    ("state_width", state_width);
    ("toggleswitch_id", toggleswitch_id) ].

(** What a factory does once the widget is built: bind it, set what the
    factory sets, register it. *)
Definition finish (style_ok : Dict.t -> bool) (self : addr)
    (attributes : Dict.t)
    (default : option ((Widget -> value -> bool) * value)) (widget : Widget)
  : M World Widget :=
  let* widget := _configure_widget style_ok self widget attributes in
  match default with
  | Some (set_default_value_ok, v) =>
      assert_ (set_default_value_ok widget v) "" ;;;
      _append_widget self (with_default_value widget v)
  | None => _append_widget self widget
  end.

Definition bound (x : Widget) : bool :=
  match _menu x with None => false | Some _ => true end.

(** A sample constructor: an unselectable widget with the ID it is given
    under [id_key], and nothing else done.  (The [kind] of a widget tells
    the classes of the first four factories apart and plays no part
    here.) *)
Definition demo_construct (id_key : WidgetClass -> string) (c : WidgetClass)
    (args : Dict.t) : M World Widget :=
  ret {| kind := KImage; _id := str_of (given args (id_key c) (VStr ""));
         _title := str_of (given args "title" (VStr ""));
         is_selectable := false; _menu := None; selected := false;
         to_menu := false; _onselect := VNone; _default_value := VNone;
         _style := None |}.

Definition id_keyword (c : WidgetClass) : string :=
  match c with
  | ColorInput => "colorinput_id"
  | Selector => "selector_id"
  | ToggleSwitch => "toggleswitch_id"
  | VMargin | NoneWidget => "widget_id"
  end.

Definition demo_set_default_value_ok (x : Widget) (v : value) : bool := true.

Definition demo_int_other (v : value) : result Z := Raise TypeError.

Definition demo_vertical_margin :=
  vertical_margin assert_color_ref assert_vector_ref
    (demo_construct id_keyword) demo_style_ok.

Definition demo_none_widget :=
  none_widget assert_color_ref assert_vector_ref
    (demo_construct id_keyword) demo_style_ok.

Definition demo_selector :=
  selector assert_color_ref assert_vector_ref
    (demo_construct id_keyword) demo_style_ok.

Definition demo_color_input :=
  color_input assert_color_ref assert_vector_ref
    (demo_construct id_keyword) demo_style_ok demo_set_default_value_ok.

Definition demo_toggle_switch :=
  toggle_switch assert_color_ref assert_vector_ref
    (demo_construct id_keyword) demo_style_ok demo_set_default_value_ok
    demo_int_other.

(** What a call that returned [r] has registered: [r] itself, bound to the
    menu, at the end of the menu's list, with the counter one higher and
    the lists of the other menus as they were. *)
Definition appended_to (self : addr) (w w' : World) (r : Widget) : Prop :=
  _menu r = Some self
  /\ _widgets (menu_at w' self) = (_widgets (menu_at w self) ++ [r])%list
  /\ added_widgets (menu_at w' self) = (added_widgets (menu_at w self) + 1)%Z
  /\ forall b, b <> self -> _widgets (menu_at w' b) = _widgets (menu_at w b).

Definition demo_controls_ok (x : Widget) : bool := true.

Definition demo_generic_widget :=
  Held.generic_widget assert_color_ref assert_vector_ref demo_style_ok
    demo_controls_ok.

Definition already_added : exn :=
  ValueError "widget to be added is already appended to another Menu".

(** The arguments the constructor of a button receives besides title and
    ID, for an event, [None] or a callable. *)
Definition button_args (action : Action) (total_back : value)
    (args : list value) (accept_kwargs : bool) (rest : Dict.t) : Dict.t :=
  match action with
  | ABack => [("args", VTuple [total_back])]
  | ACallable _ =>
      if accept_kwargs then ("args", VTuple args) :: rest
      else [("args", VTuple args)]
  | _ => []
  end.

Definition invalid_action : exn :=
  ValueError
    "action must be a Menu, a MenuAction (event), a function (callable), or None".

(** The ID of the widget of line [i] (from 0) of a label with ID [X]. *)
Definition line_id (X : string) (i : nat) : string :=
  X ++ "+" ++ pretty (i + 1)%nat.

(** A line that [label] registers as it is, when asked to wrap at
    [max_char]. *)
Definition fits (max_char : Z) (l : string) : Prop :=
  has_newline l = false /\ (Z.of_nat (String.length l) <= max_char)%Z.

Definition demo_kwargs : Dict.t := [("font_size", VInt 20); ("foo", VInt 1)].

Definition demo_resolve :=
  _filter_widget_attributes assert_color_ref assert_vector_ref sample_theme.

(** The widget the sample constructor returns for an ID and a title. *)
Definition demo_built (id title : string) : Widget :=
  {| kind := KImage; _id := id; _title := title; is_selectable := false;
     _menu := None; selected := false; to_menu := false; _onselect := VNone;
     _default_value := VNone; _style := None |}.

(** A widget nobody has bound yet. *)
Definition loose_widget (id : string) : Widget :=
  {| kind := KLabel; _id := id; _title := id; is_selectable := false;
     _menu := None; selected := false; to_menu := false; _onselect := VNone;
     _default_value := VNone; _style := None |}.

Definition three_lines : string :=
  "one" ++ String newline ("two" ++ String newline "three").

Definition demo_wrap_words (s : string) (n : Z) : result (list string) :=
  Ok ["ab"; "cd"].

Definition demo_label_wrapping :=
  label assert_color_ref assert_vector_ref demo_uuid4 demo_init_ok
    demo_style_ok demo_wrap_words demo_probe_max_char.

Definition demo_probe_wide (m : Menu) (dummy : Widget) (title : string)
  : result Z := Ok 80%Z.

Definition demo_label_probing :=
  label assert_color_ref assert_vector_ref demo_uuid4 demo_init_ok
    demo_style_ok demo_wrap demo_probe_wide.

(** ** Labels with no ID of the caller's *)







(** Validity of the selection index in every menu carries over from [w]
    to [w']. *)
Definition keeps_selection (w w' : World) : Prop :=
  (forall a, selection_valid (menu_at w a)) ->
  forall a, selection_valid (menu_at w' a).

(** * Facts *)

(** ** Facts about dictionaries *)

Module DictFacts.

Import Dict.


Lemma get_remove_ne k k' d : k <> k' -> get k' (remove k d) = get k' d.
Proof.
  intros Hne. induction d as [|[k0 v] d IH]; simpl; [done|].
  destruct (String.eqb k0 k) eqn:E; simpl.
  - apply String.eqb_eq in E. subst k0.
    destruct (String.eqb k k') eqn:E'; [|done].
    apply String.eqb_eq in E'. done.
  - by rewrite IH.
Qed.

Lemma get_remove_None k k' d : get k' d = None -> get k' (remove k d) = None.
Proof.
  induction d as [|[k0 v] d IH]; simpl; [done|].
  destruct (String.eqb k0 k') eqn:E; [done|]. intros H.
  destruct (String.eqb k0 k); simpl; [auto|]. rewrite E. auto.
Qed.


Lemma get_remove_all_notin k ks d :
  k ∉ ks -> get k (remove_all ks d) = get k d.
Proof.
  revert d. induction ks as [|k0 ks IH]; intros d Hin; [done|].
  simpl. apply not_elem_of_cons in Hin as [Hne Hin].
  rewrite IH by done. apply get_remove_ne. congruence.
Qed.

Lemma get_set_eq k v d : get k (set k v d) = Some v.
Proof.
  induction d as [|[k' v'] d IH]; simpl.
  - by rewrite String.eqb_refl.
  - destruct (String.eqb k' k) eqn:E; simpl.
    + by rewrite String.eqb_refl.
    + by rewrite E.
Qed.

Lemma get_set_ne k k' v d : k <> k' -> get k' (set k v d) = get k' d.
Proof.
  intros Hne. induction d as [|[k0 v0] d IH]; simpl.
  - destruct (String.eqb k k') eqn:E; [|done].
    apply String.eqb_eq in E. done.
  - destruct (String.eqb k0 k) eqn:E; simpl.
    + apply String.eqb_eq in E. subst k0.
      destruct (String.eqb k k') eqn:E'; [|done].
      apply String.eqb_eq in E'. done.
    + by rewrite IH.
Qed.

Lemma keys_remove_subseteq k d : keys (remove k d) ⊆ keys d.
Proof.
  induction d as [|[k' v] d IH]; simpl; [done|].
  destruct (String.eqb k' k); simpl.
  - intros x Hx. right. auto.
  - intros x Hx. apply elem_of_cons in Hx as [->|Hx]; [left|right; auto].
Qed.

Lemma get_None_notin k d : get k d = None <-> k ∉ keys d.
Proof.
  induction d as [|[k' v] d IH]; simpl.
  - split; [intros _ H; inversion H|done].
  - destruct (String.eqb k' k) eqn:E.
    + apply String.eqb_eq in E. subst. split; [done|].
      intros H. exfalso. apply H. left.
    + apply String.eqb_neq in E. rewrite IH. split.
      * intros H Hin. apply elem_of_cons in Hin as [->|Hin]; done.
      * intros H Hin. apply H. by right.
Qed.

End DictFacts.

(** ** Running the monad, one statement at a time *)

Lemma bind_ret {S A B} (a : A) (k : A -> M S B) s : bind (ret a) k s = k a s.
Proof. reflexivity. Qed.

Lemma bind_raise {S A B} e (k : A -> M S B) s :
  bind (raise e) k s = (s, Raise e).
Proof. reflexivity. Qed.

Lemma bind_lift {S A B} (r : result A) (k : A -> M S B) s :
  bind (lift r) k s = match r with Ok a => k a s | Raise e => (s, Raise e) end.
Proof. by destruct r. Qed.

Lemma bind_assert {S B} (b : bool) msg (k : unit -> M S B) s :
  bind (assert_ b msg) k s =
    if b then k tt s else (s, Raise (AssertionError msg)).
Proof. by destruct b. Qed.

Lemma bind_pop {B} key dflt (k : value -> M Dict.t B) d :
  bind (pop key dflt) k d = k (given d key dflt) (Dict.remove key d).
Proof. reflexivity. Qed.

Lemma bind_bind {S A B C} (m : M S A) (f : A -> M S B) (g : B -> M S C) s :
  bind (bind m f) g s = bind m (fun a => bind (f a) g) s.
Proof. unfold bind. destruct (m s) as [s' [a|e]]; reflexivity. Qed.

Lemma given_remove_ne k k' dflt d :
  k <> k' -> given (Dict.remove k d) k' dflt = given d k' dflt.
Proof. intros H. unfold given. by rewrite DictFacts.get_remove_ne. Qed.

(** A pop after the keys [ks] have been popped. *)
Lemma bind_pop_all {B} ks key dflt (k : value -> M Dict.t B) d :
  forallb (fun k0 => negb (String.eqb k0 key)) ks = true ->
  bind (pop key dflt) k (Dict.remove_all ks d) =
    k (given d key dflt) (Dict.remove_all (ks ++ [key]) d).
Proof.
  intros Hks. rewrite bind_pop. f_equal.
  - revert d. induction ks as [|k0 ks IH]; intros d; [done|].
    simpl in Hks. apply andb_prop in Hks as [Hk0 Hks]. simpl.
    rewrite IH by done. apply given_remove_ne.
    apply negb_true_iff, String.eqb_neq in Hk0. done.
  - clear. revert d. induction ks as [|k0 ks IH]; intros d; [done|].
    simpl. apply IH.
Qed.

Section ResolverFacts.

Variable assert_color : value -> bool.

Variable assert_vector : value -> nat -> bool.

(** The block that validates the background and records whether it is a
    flat colour. *)
Lemma bind_background_block {B} v (K : bool -> M Dict.t B) s :
  bind (if negb (is_None v) then
          if isinstance_BaseImage v then ret false
          else (utils_assert_color assert_color v ;;; ret true)
        else ret false) K s
  = if is_None v || isinstance_BaseImage v || assert_color v
    then K (flat_background v) s
    else (s, Raise (AssertionError "")).
Proof.
  unfold flat_background, utils_assert_color.
  destruct (is_None v), (isinstance_BaseImage v); try reflexivity.
  cbn [negb orb andb]. rewrite bind_bind, bind_assert.
  by destruct (assert_color v).
Qed.

(** The block of the font background rule. *)
Lemma bind_font_background_block {B} theme f (flat : bool)
    (K : value -> M Dict.t B) s :
  let derives :=
    is_None f && truthy (Theme.widget_font_background_color_from_menu theme)
    && negb flat && isinstance_tuple (Theme.background_color theme) in
  bind (if is_None f
           && truthy (Theme.widget_font_background_color_from_menu theme)
           && negb flat
        then
          if isinstance_tuple (Theme.background_color theme) then
            utils_assert_color assert_color (Theme.background_color theme) ;;;
            ret (Theme.background_color theme)
          else ret f
        else ret f) K s
  = if negb derives || assert_color (Theme.background_color theme)
    then K (if derives then Theme.background_color theme else f) s
    else (s, Raise (AssertionError "")).
Proof.
  unfold utils_assert_color. cbv zeta.
  destruct (is_None f && truthy _ && negb flat); [|reflexivity].
  destruct (isinstance_tuple _); [|reflexivity].
  cbn [negb orb andb]. rewrite bind_bind, bind_assert.
  by destruct (assert_color _).
Qed.

(** One step of the resolver: run the statement at the head, splitting on
    the test it makes. *)
Ltac run_head :=
  lazymatch goal with
  | |- run_spec _ _ (bind (pop _ _) _ (Dict.remove_all ?ks _)) =>
      rewrite (bind_pop_all ks) by reflexivity; cbv beta; cbn [app]
  | |- run_spec _ _ (bind (assert_ _ _) _ _) => rewrite bind_assert
  | |- run_spec _ _ (bind (utils_assert_color _ _) _ _) =>
      unfold utils_assert_color at 1; rewrite bind_assert
  | |- run_spec _ _ (bind (utils_assert_vector _ _ _) _ _) =>
      unfold utils_assert_vector at 1; rewrite bind_assert
  | |- run_spec _ _ (bind (lift _) _ _) => rewrite bind_lift
  | |- run_spec _ _ (bind (ret _) _ _) => rewrite bind_ret; cbv beta
  | |- run_spec _ _ (bind (bind _ _) _ _) => rewrite bind_bind
  | |- run_spec _ _ (bind (if negb (is_None _) then _ else _) _ _) =>
      rewrite bind_background_block
  | |- run_spec _ _ (bind (if is_None _ && _ && _ then _ else _) _ _) =>
      rewrite bind_font_background_block; cbv zeta
  | |- run_spec _ _ (bind (if ?c then _ else _) _ _) =>
      destruct c eqn:?; cbn [negb andb orb]
  | |- run_spec _ _ (match ?r with Ok _ => _ | Raise _ => _ end) =>
      destruct r eqn:?; cbn [negb andb orb]
  | |- run_spec _ _ (if ?c then _ else _) =>
      destruct c eqn:?; cbn [negb andb orb]
  | |- run_spec _ _ (_, Raise _) =>
      right; split; [reflexivity | eexists _, _; reflexivity]
  | |- run_spec _ _ (ret _ _) =>
      left; split; reflexivity
  end.

Lemma filter_run theme kwargs :
  run_spec (accepted assert_color assert_vector theme kwargs)
    (Dict.remove_all consumed_keys kwargs, Ok (bundle theme kwargs))
    (_filter_widget_attributes assert_color assert_vector theme kwargs).
Proof.
  unfold accepted, bundle, resolved_font_background, derives_font_background,
    resolved_selection_effect, component, nonneg_int,
    nonneg_num, positive_num, has_len, _filter_widget_attributes.
  cbv zeta.
  lazymatch goal with
  | |- run_spec ?A ?X (bind ?m ?k kwargs) =>
      change (run_spec A X (bind m k (Dict.remove_all [] kwargs)))
  end.
  repeat run_head.
Qed.

End ResolverFacts.

(** ** Facts about the resolver *)

Section ResolverTheorems.

Variable assert_color : value -> bool.

Variable assert_vector : value -> nat -> bool.

Local Abbreviation resolve := (_filter_widget_attributes assert_color assert_vector).

Local Abbreviation accepts := (accepted assert_color assert_vector).

Lemma filter_ok theme kwargs :
  accepts theme kwargs = true ->
  resolve theme kwargs
  = (Dict.remove_all consumed_keys kwargs, Ok (bundle theme kwargs)).
Proof.
  intros HA. destruct (filter_run assert_color assert_vector theme kwargs)
    as [[_ HR]|[HA' _]]; [done | congruence].
Qed.

Lemma filter_raises theme kwargs :
  accepts theme kwargs = false ->
  exists d e, resolve theme kwargs = (d, Raise e).
Proof.
  intros HA. destruct (filter_run assert_color assert_vector theme kwargs)
    as [[HA' _]|[_ HR]]; [congruence | done].
Qed.

Lemma filter_Ok_inv theme kwargs d a :
  resolve theme kwargs = (d, Ok a) ->
  accepts theme kwargs = true
  /\ d = Dict.remove_all consumed_keys kwargs
  /\ a = bundle theme kwargs.
Proof.
  intros H. destruct (filter_run assert_color assert_vector theme kwargs)
    as [[HA HR]|[_ (d' & e & HR)]]; rewrite HR in H; [|discriminate].
  by injection H as <- <-.
Qed.

Lemma filter_is_ok theme kwargs :
  is_ok (resolve theme kwargs).2 = accepts theme kwargs.
Proof.
  destruct (filter_run assert_color assert_vector theme kwargs)
    as [[HA HR]|[HA (d' & e & HR)]]; by rewrite HR, HA.
Qed.

End ResolverTheorems.

Section ResolverClaims.

Variable assert_color : value -> bool.

Variable assert_vector : value -> nat -> bool.

Local Abbreviation resolve := (_filter_widget_attributes assert_color assert_vector).

Local Abbreviation accepts := (accepted assert_color assert_vector).

(** C1 (as amended): when resolution succeeds, every key the resolver
    consumes has a theme default; omitting the key puts what is carried for
    the default in the bundle, supplying it puts what is carried for the
    supplied value; and what is carried is the value itself, except for
    [font_name] (its string), [selection_effect] ([None] becomes
    [NoneSelection]) and [font_background_color] (the menu's background
    under the special rule). *)
Theorem resolver_defaults_and_overrides theme kwargs d a k :
  k ∈ consumed_keys ->
  resolve theme kwargs = (d, Ok a) ->
  exists dflt,
    theme_default theme k = Some dflt
    /\ (Dict.get k kwargs = None ->
        Dict.get k a = Some (carried theme kwargs k dflt))
    /\ (forall v, Dict.get k kwargs = Some v ->
        Dict.get k a = Some (carried theme kwargs k v))
    /\ (k ∉ transformed_keys -> forall v, carried theme kwargs k v = v).
Proof.
  intros Hk HR. apply filter_Ok_inv in HR as (_ & _ & ->).
  unfold consumed_keys in Hk.
  repeat (apply elem_of_cons in Hk as [->|Hk]); try (by inversion Hk).
  all: eexists; split; [reflexivity|].
  all: split; [intros HN | split; [intros v HS | intros Hn v]].
  all: try (unfold bundle, resolved_font_background,
              resolved_selection_effect, carried, given;
            cbn [Dict.get String.eqb Ascii.eqb Bool.eqb];
            rewrite ?HN, ?HS; reflexivity).
  all: try reflexivity.
  all: exfalso; apply Hn; unfold transformed_keys; repeat constructor.
Qed.

(** C7 (as amended): the bundle's font background is the menu theme's
    background exactly when the resolved font background (the caller's
    value, else the theme's widget default) is [None], the theme's flag is
    set, the widget's background is not a flat colour and the menu theme's
    background is a tuple; otherwise it is the caller's value, else the
    theme's widget default. *)
Theorem font_background_rule theme kwargs d a :
  resolve theme kwargs = (d, Ok a) ->
  let resolved :=
    given kwargs "font_background_color"
      (Theme.widget_font_background_color theme) in
  let derives :=
    is_None resolved
    && truthy (Theme.widget_font_background_color_from_menu theme)
    && negb (flat_background
               (given kwargs "background_color"
                  (Theme.widget_background_color theme)))
    && isinstance_tuple (Theme.background_color theme) in
  Dict.get "font_background_color" a
  = Some (if derives then Theme.background_color theme else resolved).
Proof.
  intros HR. apply filter_Ok_inv in HR as (_ & _ & ->). reflexivity.
Qed.

(** C6 (as amended): the resolver accepts a mapping exactly when every
    check of [accepted] passes.  [font_background_color] is not among the
    keys it validates: whatever the caller gives for it, other than
    [None], the verdict is the same. *)
Theorem resolver_validation theme kwargs :
  is_ok (resolve theme kwargs).2 = accepts theme kwargs
  /\ (forall v v',
        is_None v = false -> is_None v' = false ->
        accepts theme (("font_background_color", v) :: kwargs)
        = accepts theme (("font_background_color", v') :: kwargs)).
Proof.
  split; [apply filter_is_ok|].
  intros v v' Hv Hv'.
  unfold accepted, derives_font_background, resolved_selection_effect, given.
  cbn [Dict.get String.eqb Ascii.eqb Bool.eqb].
  rewrite Hv, Hv'. reflexivity.
Qed.


End ResolverClaims.

(** C1, counterexample: with the default theme's [None] font background
    and the from-menu flag set, omitting [font_background_color] puts the
    menu's background in the bundle, not the theme's default for the key;
    and supplying [None] for it does not carry the supplied value. *)
Lemma resolver_defaults_counterexample :
  theme_default from_menu_theme "font_background_color" = Some VNone
  /\ (exists d a,
        _filter_widget_attributes assert_color_ref assert_vector_ref
          from_menu_theme [] = (d, Ok a)
        /\ Dict.get "font_background_color" a = Some (rgb 220 220 220))
  /\ (exists d a,
        _filter_widget_attributes assert_color_ref assert_vector_ref
          from_menu_theme [("font_background_color", VNone)] = (d, Ok a)
        /\ Dict.get "font_background_color" a = Some (rgb 220 220 220))
  /\ rgb 220 220 220 <> VNone.
Proof.
  split; [reflexivity|]. split; [|split]; [| |discriminate].
  - eexists _, _. split; [vm_compute; reflexivity | reflexivity].
  - eexists _, _. split; [vm_compute; reflexivity | reflexivity].
Qed.

(** C7, counterexample: the caller gives no font background, the flag is
    set and the widget has no background, yet the bundle carries the
    theme's own widget font background, not the menu's background; and a
    caller who gives [None] gets the menu's background, not the value
    given. *)
Lemma font_background_rule_counterexample :
  Dict.get "font_background_color" ([] : Dict.t) = None
  /\ truthy (Theme.widget_font_background_color_from_menu
               own_font_background_theme) = true
  /\ flat_background (Theme.widget_background_color own_font_background_theme)
     = false
  /\ (exists d a,
        _filter_widget_attributes assert_color_ref assert_vector_ref
          own_font_background_theme [] = (d, Ok a)
        /\ Dict.get "font_background_color" a = Some (rgb 10 10 10)
        /\ Theme.background_color own_font_background_theme
           = rgb 220 220 220)
  /\ (exists d a,
        _filter_widget_attributes assert_color_ref assert_vector_ref
          from_menu_theme [("font_background_color", VNone)] = (d, Ok a)
        /\ Dict.get "font_background_color" a = Some (rgb 220 220 220)
        /\ Theme.widget_font_background_color from_menu_theme = VNone).
Proof.
  repeat split; try reflexivity.
  - eexists _, _. split; [vm_compute; reflexivity | split; reflexivity].
  - eexists _, _. split; [vm_compute; reflexivity | split; reflexivity].
Qed.

(** C6, counterexample: a negative margin passes the resolver, a scalar
    margin does not, and a padding of three numbers passes. *)
Lemma resolver_validation_counterexample :
  (stated_box_rule (VTuple [VInt (-1); VInt (-3)]) = false
   /\ is_ok (_filter_widget_attributes assert_color_ref assert_vector_ref
               sample_theme [("margin", VTuple [VInt (-1); VInt (-3)])]).2
      = true)
  /\ (stated_box_rule (VInt 5) = true
      /\ is_ok (_filter_widget_attributes assert_color_ref assert_vector_ref
                  sample_theme [("margin", VInt 5)]).2
         = false)
  /\ (stated_box_rule (VTuple [VInt 1; VInt 2; VInt 3]) = false
      /\ is_ok (_filter_widget_attributes assert_color_ref assert_vector_ref
                  sample_theme [("padding", VTuple [VInt 1; VInt 2; VInt 3])]).2
         = true).
Proof. repeat split; vm_compute; reflexivity. Qed.

(** C6, an instance of the amended claim: a font background that is no
    color passes the resolver, as a color does. *)
Lemma resolver_validation_witness :
  is_ok (_filter_widget_attributes assert_color_ref assert_vector_ref
           sample_theme [("font_background_color", VStr "no color")]).2
  = true
  /\ accepted assert_color_ref assert_vector_ref sample_theme
       [("font_background_color", VStr "no color")]
     = accepted assert_color_ref assert_vector_ref sample_theme
         [("font_background_color", rgb 10 20 30)].
Proof.
  destruct (resolver_validation assert_color_ref assert_vector_ref
              sample_theme [("font_background_color", VStr "no color")])
    as [Hiff _].
  destruct (resolver_validation assert_color_ref assert_vector_ref
              sample_theme []) as [_ Hsame].
  split; [rewrite Hiff; reflexivity | apply Hsame; reflexivity].
Defined.

(** C1, an instance of the amended claim: the default theme, a caller who
    supplies only [font_size]. *)
Lemma resolver_defaults_and_overrides_witness :
  exists dflt,
    theme_default sample_theme "font_size" = Some dflt
    /\ (Dict.get "font_size" [("font_size", VInt 12)] = None ->
        Dict.get "font_size"
          (bundle sample_theme [("font_size", VInt 12)])
        = Some (carried sample_theme [("font_size", VInt 12)] "font_size" dflt))
    /\ (forall v, Dict.get "font_size" [("font_size", VInt 12)] = Some v ->
        Dict.get "font_size"
          (bundle sample_theme [("font_size", VInt 12)])
        = Some (carried sample_theme [("font_size", VInt 12)] "font_size" v))
    /\ ("font_size" ∉ transformed_keys ->
        forall v, carried sample_theme [("font_size", VInt 12)] "font_size" v = v).
Proof.
  apply (resolver_defaults_and_overrides assert_color_ref assert_vector_ref
           sample_theme [("font_size", VInt 12)]
           (Dict.remove_all consumed_keys [("font_size", VInt 12)])).
  - unfold consumed_keys. repeat constructor.
  - vm_compute. reflexivity.
Defined.

(** C7, an instance of the amended claim. *)
Lemma font_background_rule_witness :
  Dict.get "font_background_color" (bundle from_menu_theme [])
  = Some (rgb 220 220 220).
Proof.
  apply (font_background_rule assert_color_ref assert_vector_ref
           from_menu_theme [] (Dict.remove_all consumed_keys [])).
  vm_compute. reflexivity.
Defined.

Lemma bind_ok {S A B} (m : M S A) (k : A -> M S B) s s' a :
  m s = (s', Ok a) -> bind m k s = k a s'.
Proof. intros H. unfold bind. by rewrite H. Qed.

Lemma bind_err {S A B} (m : M S A) (k : A -> M S B) s s' e :
  m s = (s', Raise e) -> bind m k s = (s', Raise e).
Proof. intros H. unfold bind. by rewrite H. Qed.

Lemma menu_at_put w a m :
  menu_at {| menus := <[a := m]> (menus w); uuids_drawn := uuids_drawn w |} a
  = m.
Proof. unfold menu_at. simpl. apply lookup_total_insert_eq. Qed.

Lemma menu_at_put_ne w a b m :
  a <> b ->
  menu_at {| menus := <[a := m]> (menus w); uuids_drawn := uuids_drawn w |} b
  = menu_at w b.
Proof. intros H. unfold menu_at. simpl. by apply lookup_total_insert_ne. Qed.

Lemma append_run self widget w :
  _menu widget = Some self ->
  _append_widget self widget w
  = ({| menus := <[self := appended (menu_at w self) widget]> (menus w);
        uuids_drawn := uuids_drawn w |},
     Ok (if (_index (menu_at w self) <? 0)%Z && is_selectable widget
         then select widget else widget)).
Proof.
  intros Hm. unfold _append_widget. rewrite Hm, Nat.eqb_refl.
  rewrite bind_assert. unfold get_menu_obj. unfold bind at 1.
  cbv zeta. unfold put_menu, bind, ret, appended. cbn [fst snd].
  destruct ((_index (menu_at w self) <? 0)%Z && is_selectable widget) eqn:E;
    cbn [_widgets set_widgets set_index set_added_widgets
         set_widgets_surface _index added_widgets _theme get_title _submenus
         _widgets_surface]; [|reflexivity].
  do 3 f_equal. unfold set_widgets_surface, set_added_widgets, set_index,
    set_widgets. simpl. f_equal. rewrite length_app. simpl. lia.
Qed.

Lemma append_raises self widget w w' e :
  _append_widget self widget w = (w', Raise e) -> w' = w.
Proof.
  unfold _append_widget. rewrite bind_assert.
  destruct (match _menu widget with Some a => a =? self | None => false end)%nat.
  - unfold get_menu_obj, put_menu, bind, ret. discriminate.
  - by intros [= <- _].
Qed.

Lemma fold_appended_index_set ws m :
  (0 <= _index m)%Z ->
  _index (fold_left appended ws m) = _index m
  /\ _widgets (fold_left appended ws m) = (_widgets m ++ ws)%list.
Proof.
  revert m. induction ws as [|x ws IH]; intros m Hm; simpl.
  - by rewrite app_nil_r.
  - assert (Hneg : (_index m <? 0)%Z = false) by (apply Z.ltb_ge; lia).
    destruct (IH (appended m x)) as [Hi Hw].
    + unfold appended. simpl. by rewrite Hneg.
    + rewrite Hi, Hw. unfold appended. simpl. rewrite Hneg. simpl.
      by rewrite <- app_assoc.
Qed.

Lemma fold_appended_index_unset ws m :
  (_index m < 0)%Z ->
  _widgets (fold_left appended ws m) = (_widgets m ++ select_first ws)%list
  /\ match first_selectable ws with
     | Some i =>
         _index (fold_left appended ws m)
         = Z.of_nat (length (_widgets m) + i)
         /\ exists x, ws !! i = Some x /\ is_selectable x = true
                      /\ _widgets (fold_left appended ws m)
                           !! (length (_widgets m) + i)%nat
                         = Some (select x)
     | None => _index (fold_left appended ws m) = _index m
     end.
Proof.
  revert m. induction ws as [|x ws IH]; intros m Hm; simpl.
  - by rewrite app_nil_r.
  - assert (Hneg : (_index m <? 0)%Z = true) by (apply Z.ltb_lt; lia).
    destruct (is_selectable x) eqn:Hx.
    + destruct (fold_appended_index_set ws (appended m x)) as [Hi Hw].
      { unfold appended. simpl. rewrite Hneg, Hx. simpl. lia. }
      rewrite Hi, Hw. unfold appended. simpl. rewrite Hneg, Hx. simpl.
      rewrite <- app_assoc. simpl. split; [done|]. split; [f_equal; lia|].
      exists x. split; [done|]. split; [done|].
      rewrite Nat.add_0_r. by rewrite list_lookup_middle.
    + destruct (IH (appended m x)) as [Hw Hi].
      { unfold appended. simpl. by rewrite Hneg, Hx. }
      assert (Hws : _widgets (appended m x) = (_widgets m ++ [x])%list).
      { unfold appended. simpl. by rewrite Hneg, Hx. }
      assert (Hidx : _index (appended m x) = _index m).
      { unfold appended. simpl. by rewrite Hneg, Hx. }
      rewrite Hw, Hws, <- app_assoc. simpl. split; [done|].
      destruct (first_selectable ws) as [i|]; simpl.
      * destruct Hi as (Hi & y & Hy & Hsel & Hlk).
        rewrite Hws, length_app in Hi, Hlk. simpl in Hi, Hlk.
        split; [rewrite Hi; f_equal; lia|].
        exists y. split; [done|]. split; [done|].
        rewrite Hw, Hws, <- app_assoc in Hlk. simpl in Hlk.
        by replace (length (_widgets m) + S i)%nat
          with (length (_widgets m) + 1 + i)%nat by lia.
      * by rewrite Hi.
Qed.

Lemma append_all_run self ws w :
  Forall (fun x => _menu x = Some self) ws ->
  exists w',
    append_all self ws w = (w', Ok tt)
    /\ menu_at w' self = fold_left appended ws (menu_at w self)
    /\ uuids_drawn w' = uuids_drawn w
    /\ forall b, b <> self -> menu_at w' b = menu_at w b.
Proof.
  intros H. revert w. induction H as [|x ws Hx _ IH]; intros w; simpl.
  - by exists w.
  - erewrite bind_ok by (by apply append_run).
    edestruct IH as (w' & -> & Hm & Hu & Ho). exists w'.
    split; [done|]. rewrite Hm, menu_at_put. split; [done|].
    split; [done|]. intros b Hb. rewrite Ho by done.
    by apply menu_at_put_ne.
Qed.

(** C3: on a container with no selection, successive registrations select
    the first selectable widget and set the selection index to its
    position; on a container with a selection, registrations leave the
    selection index as it is. *)
Theorem registration_selects_first_selectable self ws w :
  Forall (fun x => _menu x = Some self) ws ->
  exists w',
    append_all self ws w = (w', Ok tt)
    /\ ((_index (menu_at w self) < 0)%Z ->
        _widgets (menu_at w' self)
        = (_widgets (menu_at w self) ++ select_first ws)%list
        /\ match first_selectable ws with
           | Some i =>
               _index (menu_at w' self)
               = Z.of_nat (length (_widgets (menu_at w self)) + i)
               /\ exists x, ws !! i = Some x /\ is_selectable x = true
                    /\ _widgets (menu_at w' self)
                         !! (length (_widgets (menu_at w self)) + i)%nat
                       = Some (select x)
           | None => _index (menu_at w' self) = _index (menu_at w self)
           end)
    /\ ((0 <= _index (menu_at w self))%Z ->
        _index (menu_at w' self) = _index (menu_at w self)
        /\ _widgets (menu_at w' self)
           = (_widgets (menu_at w self) ++ ws)%list).
Proof.
  intros H. destruct (append_all_run self ws w H) as (w' & Hr & Hm & _).
  exists w'. split; [done|]. rewrite Hm. split; intros Hi.
  - by apply fold_appended_index_unset.
  - by apply fold_appended_index_set.
Qed.

(** C3, an instance: a label, then two buttons, on an empty menu. *)
Lemma registration_selects_first_selectable_witness :
  let ws := [ demo_widget KLabel "l" false; demo_widget KButton "b1" true;
              demo_widget KButton "b2" true ] in
  exists w',
    append_all 0%nat ws demo_world = (w', Ok tt)
    /\ ((_index (menu_at demo_world 0%nat) < 0)%Z ->
        _widgets (menu_at w' 0%nat)
        = (_widgets (menu_at demo_world 0%nat) ++ select_first ws)%list
        /\ match first_selectable ws with
           | Some i =>
               _index (menu_at w' 0%nat)
               = Z.of_nat (length (_widgets (menu_at demo_world 0%nat)) + i)
               /\ exists x, ws !! i = Some x /\ is_selectable x = true
                    /\ _widgets (menu_at w' 0%nat)
                         !! (length (_widgets (menu_at demo_world 0%nat)) + i)%nat
                       = Some (select x)
           | None => _index (menu_at w' 0%nat)
                     = _index (menu_at demo_world 0%nat)
           end)
    /\ ((0 <= _index (menu_at demo_world 0%nat))%Z ->
        _index (menu_at w' 0%nat) = _index (menu_at demo_world 0%nat)
        /\ _widgets (menu_at w' 0%nat)
           = (_widgets (menu_at demo_world 0%nat) ++ ws)%list).
Proof.
  intros ws.
  apply (registration_selects_first_selectable 0%nat ws demo_world).
  repeat constructor.
Defined.

Section Keeps.

Variable R : World -> World -> Prop.

Hypothesis R_refl : forall w, R w w.

Hypothesis R_trans : forall w1 w2 w3, R w1 w2 -> R w2 w3 -> R w1 w3.

Lemma keeps_atomic {A} (c : M World A) : keeps R c -> atomic R c.
Proof. intros H w w' e Hc. eapply H, Hc. Qed.

Lemma keeps_ret {A} (a : A) : keeps R (ret a).
Proof. intros w w' r [= <- _]. apply R_refl. Qed.

Lemma keeps_raise {A} e : keeps R (raise e : M World A).
Proof. intros w w' r [= <- _]. apply R_refl. Qed.

Lemma keeps_lift {A} (x : result A) : keeps R (lift x).
Proof. intros w w' r [= <- _]. apply R_refl. Qed.

Lemma keeps_assert b msg : keeps R (assert_ b msg).
Proof. destruct b; [apply keeps_ret | apply keeps_raise]. Qed.

Lemma keeps_get_menu_obj a : keeps R (get_menu_obj a).
Proof. intros w w' r [= <- _]. apply R_refl. Qed.

Lemma keeps_on_dict {A} (c : M Dict.t A) d : keeps R (on_dict c d).
Proof.
  intros w w' r. unfold on_dict. destruct (c d) as [d' [a|e]];
    intros [= <- _]; apply R_refl.
Qed.

Lemma keeps_bind {A B} (c : M World A) (k : A -> M World B) :
  keeps R c -> (forall a, keeps R (k a)) -> keeps R (bind c k).
Proof.
  intros Hc Hk w w' r. unfold bind. destruct (c w) as [w1 [a|e]] eqn:E.
  - intros Hka. eapply R_trans; [eapply Hc, E | eapply Hk, Hka].
  - intros [= <- _]. eapply Hc, E.
Qed.

Lemma atomic_bind {A B} (c : M World A) (k : A -> M World B) :
  keeps R c -> (forall a, atomic R (k a)) -> atomic R (bind c k).
Proof.
  intros Hc Hk w w' e. unfold bind. destruct (c w) as [w1 [a|e1]] eqn:E.
  - intros Hka. eapply R_trans; [eapply Hc, E | eapply Hk, Hka].
  - intros [= <- _]. eapply Hc, E.
Qed.

Lemma atomic_append self widget : atomic R (_append_widget self widget).
Proof. intros w w' e H. apply append_raises in H as ->. apply R_refl. Qed.

Lemma atomic_append_ret {B} self widget (f : Widget -> B) :
  atomic R (bind (_append_widget self widget) (fun x => ret (f x))).
Proof.
  intros w w' e. unfold bind.
  destruct (_append_widget self widget w) as [w1 [a|e1]] eqn:E;
    [discriminate|].
  intros [= <- _]. apply append_raises in E as ->. apply R_refl.
Qed.

End Keeps.

Lemma same_registration_refl w : same_registration w w.
Proof. by intros a. Qed.

Lemma same_registration_trans w1 w2 w3 :
  same_registration w1 w2 -> same_registration w2 w3 ->
  same_registration w1 w3.
Proof.
  intros H1 H2 a. destruct (H1 a) as (? & ? & ?), (H2 a) as (? & ? & ?).
  repeat split; congruence.
Qed.

Lemma same_menus_refl w : same_menus w w.
Proof. reflexivity. Qed.

Lemma same_menus_trans w1 w2 w3 :
  same_menus w1 w2 -> same_menus w2 w3 -> same_menus w1 w3.
Proof. unfold same_menus. congruence. Qed.

Lemma same_menus_registration w w' :
  same_menus w w' -> same_registration w w'.
Proof. intros H a. unfold menu_at. by rewrite H. Qed.

(** Recording a submenu changes no registration. *)
Lemma keeps_add_submenu {B} self target (k : unit -> M World B) :
  (forall u, keeps same_registration (k u)) ->
  keeps same_registration
    (bind (get_menu_obj self)
       (fun menu =>
          bind (put_menu self
                  (set_submenus menu (_submenus menu ++ [target])%list)) k)).
Proof.
  intros Hk w w' r. unfold bind at 1 2, get_menu_obj, put_menu.
  intros H. eapply same_registration_trans; [|eapply Hk, H].
  intros a. destruct (decide (self = a)) as [<-|Hne].
  - by rewrite menu_at_put.
  - by rewrite menu_at_put_ne.
Qed.

Lemma keeps_same_menus_registration {A} (c : M World A) :
  keeps same_menus c -> keeps same_registration c.
Proof. intros H w w' r Hc. eapply same_menus_registration, H, Hc. Qed.

Lemma atomic_same_menus_registration {A} (c : M World A) :
  atomic same_menus c -> atomic same_registration c.
Proof. intros H w w' r Hc. eapply same_menus_registration, H, Hc. Qed.

Ltac rel_side :=
  first [ exact same_menus_refl | exact same_menus_trans
        | exact same_registration_refl | exact same_registration_trans ].

Section ManagerFacts.

Variable assert_color : value -> bool.

Variable assert_vector : value -> nat -> bool.

Variable uuid4 : nat -> string.

Variable init_ok : WidgetKind -> string -> string -> Dict.t -> bool.

Variable style_ok : Dict.t -> bool.

Variable default_value_ok : value -> bool.

Variable wrap : string -> Z -> result (list string).

Variable probe_max_char : Menu -> Widget -> string -> result Z.

Local Abbreviation resolve := (_filter_widget_attributes assert_color assert_vector).

Local Abbreviation accepts := (accepted assert_color assert_vector).

Lemma keeps_fresh_uuid : keeps same_menus (fresh_uuid uuid4).
Proof. by intros w w' r [= <- _]. Qed.

Lemma keeps_new_widget k title id extra :
  keeps same_menus (new_widget uuid4 init_ok k title id extra).
Proof.
  unfold new_widget. apply keeps_bind; [rel_side| |intros _].
  - apply keeps_assert; rel_side.
  - apply keeps_bind; [rel_side| |intros wid; apply keeps_ret; rel_side].
    destruct (String.eqb id "");
      [apply keeps_fresh_uuid | apply keeps_ret; rel_side].
Qed.

Lemma configure_same_world self widget attrs w w' r :
  _configure_widget style_ok self widget attrs w = (w', r) -> w' = w.
Proof.
  unfold _configure_widget. rewrite bind_assert.
  destruct (match _menu widget with None => true | Some _ => false end);
    [|by intros [= <- _]].
  unfold get_menu_obj. unfold bind at 1. rewrite bind_lift.
  destruct (_check_id_duplicated _ _); [|by intros [= <- _]].
  rewrite bind_lift.
  destruct (subscripts attrs configured_keys); [|by intros [= <- _]].
  rewrite bind_lift.
  destruct (subscript attrs "margin") as [margin|]; [|by intros [= <- _]].
  rewrite bind_lift. destruct (getitem margin 0); [|by intros [= <- _]].
  rewrite bind_lift. destruct (getitem margin 1); [|by intros [= <- _]].
  rewrite bind_assert. destruct (style_ok attrs); by intros [= <- _].
Qed.

Lemma keeps_configure self widget attrs :
  keeps same_menus (_configure_widget style_ok self widget attrs).
Proof. intros w w' r H. by apply configure_same_world in H as ->. Qed.

End ManagerFacts.

(** Walk a factory statement by statement. *)
Ltac keeps_tac :=
  repeat
    lazymatch goal with
    | |- forall _, _ => intro
    | |- keeps _ (ret _) => apply keeps_ret; rel_side
    | |- keeps _ (raise _) => apply keeps_raise; rel_side
    | |- keeps _ (lift _) => apply keeps_lift; rel_side
    | |- keeps _ (assert_ _ _) => apply keeps_assert; rel_side
    | |- keeps _ (get_menu_obj _) => apply keeps_get_menu_obj; rel_side
    | |- keeps _ (on_dict _ _) => apply keeps_on_dict; rel_side
    | |- keeps same_menus (fresh_uuid _) => apply keeps_fresh_uuid
    | |- keeps same_menus (new_widget _ _ _ _ _ _) => apply keeps_new_widget
    | |- keeps same_menus (_configure_widget _ _ _ _) => apply keeps_configure
    | |- keeps same_registration (fresh_uuid _) =>
        apply keeps_same_menus_registration
    | |- keeps same_registration (new_widget _ _ _ _ _ _) =>
        apply keeps_same_menus_registration
    | |- keeps same_registration (_configure_widget _ _ _ _) =>
        apply keeps_same_menus_registration
    | |- keeps same_registration
           (bind (get_menu_obj _) (fun m => bind (put_menu _ _) _)) =>
        apply keeps_add_submenu
    | |- keeps _ (bind _ _) => apply keeps_bind; [rel_side| |]
    | |- keeps _ (if ?c then _ else _) => destruct c
    | |- keeps _ (match ?x with _ => _ end) => destruct x
    | |- atomic _ (_append_widget _ _) => apply atomic_append; rel_side
    | |- atomic _ (bind (_append_widget _ _) (fun x => ret _)) =>
        apply atomic_append_ret; rel_side
    | |- atomic _ (bind _ _) => apply atomic_bind; [rel_side| |]
    | |- atomic _ (if ?c then _ else _) => destruct c
    | |- atomic _ (match ?x with _ => _ end) => destruct x
    | |- atomic _ _ => apply keeps_atomic
    | |- keeps _ _ =>
        let H := fresh in
        intros ? ? ? H; injection H as <- _;
        first [apply same_menus_refl | apply same_registration_refl]
    end.

Section FactoryAtomicity.

Variable assert_color : value -> bool.

Variable assert_vector : value -> nat -> bool.

Variable uuid4 : nat -> string.

Variable init_ok : WidgetKind -> string -> string -> Dict.t -> bool.

Variable style_ok : Dict.t -> bool.

Variable selection_callback_ok : value -> bool.

Variable default_value_ok : value -> bool.

Variable wrap : string -> Z -> result (list string).

Variable probe_max_char : Menu -> Widget -> string -> result Z.


Lemma text_input_atomic self title default onselect password textinput_id
    params kwargs :
  atomic same_menus
    (text_input assert_color assert_vector uuid4 init_ok style_ok
       default_value_ok self title default onselect password textinput_id
       params kwargs).
Proof. unfold text_input. cbv zeta. keeps_tac. Qed.


End FactoryAtomicity.

Lemma accepted_margin ac av theme kwargs :
  accepted ac av theme kwargs = true ->
  exists x y,
    given kwargs "margin" (Theme.widget_margin theme) = VTuple [x; y].
Proof.
  unfold accepted. cbv zeta. intros H.
  repeat (apply andb_prop in H as [H ?]).
  assert (Hl : has_len (given kwargs "margin" (Theme.widget_margin theme)) 2
               = true).
  { match goal with
    | Hm : _ && has_len _ 2 = true |- _ => by apply andb_prop in Hm as [_ ?]
    end. }
  assert (Ht : isinstance_tuple
                 (given kwargs "margin" (Theme.widget_margin theme)) = true).
  { match goal with
    | Hm : _ && has_len _ 2 = true |- _ => by apply andb_prop in Hm as [? _]
    end. }
  destruct (given kwargs "margin" (Theme.widget_margin theme));
    try discriminate.
  unfold has_len in Hl. simpl in Hl.
  destruct l as [|x [|y [|z l]]]; try discriminate. by exists x, y.
Qed.

Lemma widgets_appended m x :
  _widgets (appended m x) = (_widgets m ++ [as_registered m x])%list.
Proof. reflexivity. Qed.

Lemma menu_at_registered self x w :
  menu_at (registered self x w) self = appended (menu_at w self) x.
Proof. apply menu_at_put. Qed.

Lemma menu_at_registered_ne self b x w :
  self <> b -> menu_at (registered self x w) b = menu_at w b.
Proof. apply menu_at_put_ne. Qed.

Section FactoryRuns.

Variable assert_color : value -> bool.

Variable assert_vector : value -> nat -> bool.

Variable uuid4 : nat -> string.

Variable init_ok : WidgetKind -> string -> string -> Dict.t -> bool.

Variable style_ok : Dict.t -> bool.

Variable default_value_ok : value -> bool.

Variable wrap : string -> Z -> result (list string).

Variable probe_max_char : Menu -> Widget -> string -> result Z.

Local Abbreviation resolve := (_filter_widget_attributes assert_color assert_vector).

Local Abbreviation accepts := (accepted assert_color assert_vector).

Lemma bind_get_menu_obj {B} a (k : Menu -> M World B) w :
  bind (get_menu_obj a) k w = k (menu_at w a) w.
Proof. reflexivity. Qed.

Lemma bind_on_dict_resolve {B} theme kwargs
    (k : Dict.t * Dict.t -> M World B) w :
  accepts theme kwargs = true ->
  bind (on_dict (resolve theme) kwargs) k w
  = k (bundle theme kwargs, Dict.remove_all consumed_keys kwargs) w.
Proof.
  intros HA. unfold bind, on_dict. by rewrite (filter_ok _ _ _ _ HA).
Qed.

Lemma bind_on_dict_resolve_fails {B} theme kwargs
    (k : Dict.t * Dict.t -> M World B) w :
  accepts theme kwargs = false ->
  exists e, bind (on_dict (resolve theme) kwargs) k w = (w, Raise e).
Proof.
  intros HA. destruct (filter_raises _ _ _ _ HA) as (d & e & HR).
  exists e. unfold bind, on_dict. by rewrite HR.
Qed.

Lemma bind_new_widget {B} k title id extra (K : Widget -> M World B) w :
  init_ok k title id extra = true ->
  id <> "" ->
  bind (new_widget uuid4 init_ok k title id extra) K w
  = K (built k title id) w.
Proof.
  intros Hi Hid. unfold new_widget. rewrite bind_bind, bind_assert, Hi.
  apply String.eqb_neq in Hid. rewrite Hid. by rewrite bind_bind.
Qed.

Lemma bind_new_widget_fresh {B} k title extra (K : Widget -> M World B) w :
  init_ok k title "" extra = true ->
  bind (new_widget uuid4 init_ok k title "" extra) K w
  = K (built k title (uuid4 (uuids_drawn w))) (drawn w).
Proof.
  intros Hi. unfold new_widget. rewrite bind_bind, bind_assert, Hi.
  by rewrite bind_bind.
Qed.

Lemma bind_configure {B} self widget theme kwargs
    (K : Widget -> M World B) w :
  _menu widget = None ->
  _check_id_duplicated (menu_at w self) (_id widget) = Ok tt ->
  accepts theme kwargs = true ->
  style_ok (bundle theme kwargs) = true ->
  bind (_configure_widget style_ok self widget (bundle theme kwargs)) K w
  = K (with_style (with_menu widget self) (bundle theme kwargs)) w.
Proof.
  intros Hm Hid HA Hs. unfold _configure_widget.
  rewrite !bind_bind, bind_assert, Hm. cbv zeta.
  rewrite !bind_bind, bind_get_menu_obj, bind_bind, bind_lift.
  change (_id (with_menu widget self)) with (_id widget). rewrite Hid.
  rewrite bind_bind, bind_lift.
  change (subscripts (bundle theme kwargs) configured_keys) with (Ok tt).
  cbv iota. rewrite bind_bind, bind_lift.
  change (subscript (bundle theme kwargs) "margin")
    with (Ok (given kwargs "margin" (Theme.widget_margin theme))).
  cbv iota. destruct (accepted_margin _ _ _ _ HA) as (x & y & ->).
  rewrite bind_bind, bind_lift. cbn [getitem lookup list_lookup].
  rewrite bind_bind, bind_lift. cbn [getitem lookup list_lookup].
  rewrite bind_bind, bind_assert, Hs. reflexivity.
Qed.

Lemma bind_append {B} self widget (K : Widget -> M World B) w :
  _menu widget = Some self ->
  bind (_append_widget self widget) K w
  = K (as_registered (menu_at w self) widget) (registered self widget w).
Proof. intros Hm. erewrite bind_ok; [reflexivity|]. by apply append_run. Qed.

End FactoryRuns.

Section LabelRuns.

Variable assert_color : value -> bool.

Variable assert_vector : value -> nat -> bool.

Variable uuid4 : nat -> string.

Variable init_ok : WidgetKind -> string -> string -> Dict.t -> bool.

Variable style_ok : Dict.t -> bool.

Variable wrap : string -> Z -> result (list string).

Variable probe_max_char : Menu -> Widget -> string -> result Z.

Local Abbreviation accepts := (accepted assert_color assert_vector).

Local Abbreviation label' :=
  (label assert_color assert_vector uuid4 init_ok style_ok wrap probe_max_char).

(** A title of one line that needs no wrapping gives one registered
    label. *)
Lemma label_single_run d self title label_id max_char onselect selectable
    kwargs w :
  let lid :=
    if (String.length label_id =? 0)%nat then uuid4 (uuids_drawn w)
    else label_id in
  let w1 := if (String.length label_id =? 0)%nat then drawn w else w in
  let theme := _theme (menu_at w self) in
  let widget := label_widget theme kwargs self title lid onselect selectable in
  has_newline title = false ->
  (0 <= max_char)%Z ->
  (Z.of_nat (String.length title) <=? max_char)%Z || (max_char =? 0)%Z = true ->
  lid <> "" ->
  accepts theme kwargs = true ->
  Dict.remove_all consumed_keys kwargs = [] ->
  init_ok KLabel title lid [("onselect", onselect)] = true ->
  _check_id_duplicated (menu_at w self) lid = Ok tt ->
  style_ok (bundle theme kwargs) = true ->
  label' (S d) self title label_id max_char onselect selectable kwargs w
  = (registered self widget w1,
     Ok (One (as_registered (menu_at w self) widget))).
Proof.
  intros lid w1 theme widget Hnl Hmc Hfit Hlid HA Hleft Hinit Hdup Hstyle.
  cbn [label]. rewrite bind_assert.
  replace (-1 <=? max_char)%Z with true by (symmetry; apply Z.leb_le; lia).
  assert (Hstep : forall B (K : string -> M World B),
             bind (if (String.length label_id =? 0)%nat
                   then fresh_uuid uuid4 else ret label_id) K w = K lid w1).
  { intros B K. subst lid w1.
    by destruct (String.length label_id =? 0)%nat. }
  rewrite Hstep. rewrite Hnl.
  assert (Hm1 : menu_at w1 self = menu_at w self).
  { subst w1. by destruct (String.length label_id =? 0)%nat. }
  rewrite bind_get_menu_obj, Hm1.
  replace (max_char <? 0)%Z with false by (symmetry; apply Z.ltb_ge; lia).
  rewrite bind_ret, Hfit.
  rewrite (bind_on_dict_resolve assert_color assert_vector) by done.
  cbn [fst snd]. rewrite (bind_new_widget uuid4 init_ok) by done.
  rewrite Hleft. rewrite bind_lift. cbn [_check_kwargs Dict.keys map].
  rewrite (bind_configure assert_color assert_vector style_ok);
    [| reflexivity | by rewrite Hm1 | done | done].
  rewrite bind_append by reflexivity. rewrite Hm1. reflexivity.
Qed.

End LabelRuns.

Lemma has_newline_app a b :
  has_newline (a ++ b) = has_newline a || has_newline b.
Proof.
  induction a as [|c a IH]; simpl; [done|]. rewrite IH.
  by destruct (Ascii.eqb c newline).
Qed.

Lemma split_lines_single l : has_newline l = false -> split_lines l = [l].
Proof.
  induction l as [|c l IH]; simpl; [done|].
  destruct (Ascii.eqb c newline); [done|]. simpl. intros H.
  by rewrite IH.
Qed.

Lemma split_lines_join l1 l2 :
  has_newline l1 = false ->
  split_lines (l1 ++ String newline l2) = l1 :: split_lines l2.
Proof.
  induction l1 as [|c l IH]; simpl.
  - done.
  - destruct (Ascii.eqb c newline); [done|]. simpl. intros H.
    by rewrite IH.
Qed.

Lemma append_inj_l (x a b : string) : x ++ a = x ++ b -> a = b.
Proof. induction x as [|c x IH]; simpl; [done|]. intros [= H]. auto. Qed.

Section LabelLines.

Variable assert_color : value -> bool.

Variable assert_vector : value -> nat -> bool.

Variable uuid4 : nat -> string.

Variable init_ok : WidgetKind -> string -> string -> Dict.t -> bool.

Variable style_ok : Dict.t -> bool.

Variable wrap : string -> Z -> result (list string).

Variable probe_max_char : Menu -> Widget -> string -> result Z.

Local Abbreviation accepts := (accepted assert_color assert_vector).

Local Abbreviation label' :=
  (label assert_color assert_vector uuid4 init_ok style_ok wrap probe_max_char).

(** The same with an ID of the caller's. *)
Lemma label_line_run d self title label_id onselect selectable kwargs w :
  let theme := _theme (menu_at w self) in
  let widget :=
    label_widget theme kwargs self title label_id onselect selectable in
  has_newline title = false ->
  label_id <> "" ->
  accepts theme kwargs = true ->
  Dict.remove_all consumed_keys kwargs = [] ->
  init_ok KLabel title label_id [("onselect", onselect)] = true ->
  _check_id_duplicated (menu_at w self) label_id = Ok tt ->
  style_ok (bundle theme kwargs) = true ->
  label' (S d) self title label_id 0 onselect selectable kwargs w
  = (registered self widget w,
     Ok (One (as_registered (menu_at w self) widget))).
Proof.
  intros theme widget Hnl Hid HA Hleft Hinit Hdup Hstyle.
  pose proof (label_single_run assert_color assert_vector uuid4 init_ok
                style_ok wrap probe_max_char d self title label_id 0
                onselect selectable kwargs w) as H.
  cbv zeta in H. destruct label_id as [|c s]; [done|].
  cbn [String.length Nat.eqb] in H. apply H; try done.
  apply orb_true_r.
Qed.

Lemma label_two_lines_run d self l1 l2 X onselect selectable kwargs w :
  let theme := _theme (menu_at w self) in
  let m := menu_at w self in
  let a := label_widget theme kwargs self l1 (X ++ "+1") onselect selectable in
  let b := label_widget theme kwargs self l2 (X ++ "+2") onselect selectable in
  has_newline l1 = false ->
  has_newline l2 = false ->
  X <> "" ->
  accepts theme kwargs = true ->
  Dict.remove_all consumed_keys kwargs = [] ->
  init_ok KLabel l1 (X ++ "+1") [("onselect", onselect)] = true ->
  init_ok KLabel l2 (X ++ "+2") [("onselect", onselect)] = true ->
  _check_id_duplicated m (X ++ "+1") = Ok tt ->
  _check_id_duplicated m (X ++ "+2") = Ok tt ->
  style_ok (bundle theme kwargs) = true ->
  label' (S (S d)) self (l1 ++ String newline l2) X 0 onselect selectable
    kwargs w
  = (registered self b (registered self a w),
     Ok (Many [One (as_registered m a);
               One (as_registered (appended m a) b)])).
Proof.
  intros theme m a b Hl1 Hl2 HX HA Hleft Hi1 Hi2 Hd1 Hd2 Hstyle.
  remember (S d) as d1 eqn:Hd. cbn [label].
  rewrite bind_assert. change (-1 <=? 0)%Z with true. cbv iota.
  assert (HXl : (String.length X =? 0)%nat = false).
  { destruct X; [done|reflexivity]. }
  rewrite HXl, bind_ret.
  rewrite has_newline_app. cbn [has_newline].
  change (Ascii.eqb newline newline) with true.
  rewrite orb_true_r. cbn [orb].
  rewrite split_lines_join, split_lines_single by done.
  change (X ++ "+" ++ pretty (length (@nil LabelResult) + 1)%nat)
    with (X ++ "+1").
  assert (Hne : forall t, X ++ t <> "") by (by destruct X).
  subst d1. rewrite !bind_bind.
  erewrite bind_ok by (apply label_line_run; done).
  cbn [app length]. change (X ++ "+" ++ pretty (1 + 1)%nat) with (X ++ "+2").
  rewrite !bind_bind.
  assert (Hm : menu_at (registered self a w) self = appended m a)
    by apply menu_at_put.
  assert (Ht : _theme (appended m a) = theme) by reflexivity.
  pose proof (label_line_run d self l2 (X ++ "+2") onselect selectable kwargs
                (registered self a w)) as H.
  cbv zeta in H. rewrite Hm, Ht in H.
  assert (Hd2' : _check_id_duplicated (appended m a) (X ++ "+2") = Ok tt);
    [|by rewrite (bind_ok _ _ _ _ _ (H Hl2 (Hne _) HA Hleft Hi2 Hd2' Hstyle))].
  unfold _check_id_duplicated, appended. cbn [_widgets].
  unfold _check_id_duplicated in Hd2. rewrite existsb_app.
  destruct (existsb _ (_widgets m)); [done|]. cbn [orb existsb].
  replace (_id (if (_index m <? 0)%Z && is_selectable a then select a else a))
    with (X ++ "+1") by (by destruct ((_index m <? 0)%Z && is_selectable a)).
  destruct (String.eqb (X ++ "+1") (X ++ "+2")) eqn:E; [|done].
  apply String.eqb_eq, append_inj_l in E. discriminate.
Qed.

(** C8: a title of two lines, [l1] and [l2], with base ID [X], gives two
    labels in order, the first with ID [X+1] and text [l1], the second with
    ID [X+2] and text [l2], registered in that order. *)
Theorem label_splits_lines d self l1 l2 X onselect selectable kwargs w :
  let theme := _theme (menu_at w self) in
  let m := menu_at w self in
  has_newline l1 = false ->
  has_newline l2 = false ->
  X <> "" ->
  accepts theme kwargs = true ->
  Dict.remove_all consumed_keys kwargs = [] ->
  init_ok KLabel l1 (X ++ "+1") [("onselect", onselect)] = true ->
  init_ok KLabel l2 (X ++ "+2") [("onselect", onselect)] = true ->
  _check_id_duplicated m (X ++ "+1") = Ok tt ->
  _check_id_duplicated m (X ++ "+2") = Ok tt ->
  style_ok (bundle theme kwargs) = true ->
  exists a b w',
    label' (S (S d)) self (l1 ++ String newline l2) X 0 onselect selectable
      kwargs w
    = (w', Ok (Many [One a; One b]))
    /\ kind a = KLabel /\ _id a = X ++ "+1" /\ _title a = l1
    /\ kind b = KLabel /\ _id b = X ++ "+2" /\ _title b = l2
    /\ _widgets (menu_at w' self) = (_widgets m ++ [a; b])%list.
Proof.
  intros theme m Hl1 Hl2 HX HA Hleft Hi1 Hi2 Hd1 Hd2 Hstyle.
  eexists _, _, _. split.
  - by apply label_two_lines_run.
  - unfold as_registered.
    repeat split;
      try (by destruct ((_index _ <? 0)%Z && is_selectable _)).
    rewrite menu_at_registered, widgets_appended, menu_at_registered,
      widgets_appended, <- app_assoc. reflexivity.
Qed.

End LabelLines.

(** C8, an instance: the title of the lines [a] and [b] with base ID [X]
    on an empty menu. *)
Lemma label_splits_lines_witness :
  exists a b w',
    demo_label 2 0%nat ("a" ++ String newline "b") "X" 0%Z VNone false []
      demo_world
    = (w', Ok (Many [One a; One b]))
    /\ kind a = KLabel /\ _id a = "X" ++ "+1" /\ _title a = "a"
    /\ kind b = KLabel /\ _id b = "X" ++ "+2" /\ _title b = "b"
    /\ _widgets (menu_at w' 0%nat)
       = (_widgets (menu_at demo_world 0%nat) ++ [a; b])%list.
Proof.
  apply (label_splits_lines assert_color_ref assert_vector_ref demo_uuid4
           demo_init_ok demo_style_ok demo_wrap demo_probe_max_char
           0 0%nat "a" "b" "X" VNone false [] demo_world);
    solve [reflexivity | discriminate].
Defined.

Section TextInput.

Variable assert_color : value -> bool.

Variable assert_vector : value -> nat -> bool.

Variable uuid4 : nat -> string.

Variable init_ok : WidgetKind -> string -> string -> Dict.t -> bool.

Variable style_ok : Dict.t -> bool.

Variable default_value_ok : value -> bool.

Local Abbreviation resolve := (_filter_widget_attributes assert_color assert_vector).

Local Abbreviation accepts := (accepted assert_color assert_vector).

Local Abbreviation text_input' :=
  (text_input assert_color assert_vector uuid4 init_ok style_ok
     default_value_ok).

Lemma bind_new_widget_any {B} k title id extra (K : Widget -> M World B) w :
  init_ok k title id extra = true ->
  bind (new_widget uuid4 init_ok k title id extra) K w
  = K (built k title (id_or_uuid uuid4 id w)) (after_id id w).
Proof.
  intros Hi. unfold new_widget, id_or_uuid, after_id.
  rewrite bind_bind, bind_assert, Hi, bind_bind.
  by destruct (String.eqb id "").
Qed.

Lemma menu_at_after_id id w a : menu_at (after_id id w) a = menu_at w a.
Proof. unfold after_id. by destruct (String.eqb id ""). Qed.

Lemma text_input_options_run theme kwargs :
  accepts theme kwargs = true ->
  bind (resolve theme)
    (fun attributes =>
       bind (pop "input_underline_vmargin" (VInt 0))
         (fun input_underline_vmargin =>
            ret (attributes, input_underline_vmargin))) kwargs
  = (Dict.remove "input_underline_vmargin"
       (Dict.remove_all consumed_keys kwargs),
     Ok (bundle theme kwargs,
         given (Dict.remove_all consumed_keys kwargs)
           "input_underline_vmargin" (VInt 0))).
Proof. intros HA. unfold bind at 1. by rewrite (filter_ok _ _ _ _ HA). Qed.

Lemma keywords_is_ok named kwargs :
  is_ok (keywords named kwargs) = true ->
  keywords named kwargs = Ok (named ++ kwargs)%list.
Proof. unfold keywords. by destruct (existsb _ _). Qed.

(** C9: a password input with a non-empty default raises and leaves every
    menu as it was (a [ValueError] once the default has an accepted type
    and the attributes resolve); a password input with the empty default
    is built and registered, when the attributes resolve, no key left in
    the mapping repeats a keyword of the constructor call, the constructor
    and the setters accept their arguments and the ID is not in use. *)
Theorem text_input_password_default self title default onselect textinput_id
    params kwargs w :
  let theme := _theme (menu_at w self) in
  let m := menu_at w self in
  let lid := id_or_uuid uuid4 textinput_id w in
  let named :=
    text_input_named theme params title textinput_id onselect true kwargs in
  let widget :=
    text_input_widget theme kwargs self title lid onselect (VStr "") in
  (ne_empty_str default = true ->
   (exists w' e,
      text_input' self title default onselect true textinput_id params kwargs w
      = (w', Raise e)
      /\ menus w' = menus w)
   /\ (isinstance_str default || isinstance_int_float default = true ->
       accepts theme kwargs = true ->
       text_input' self title default onselect true textinput_id params kwargs w
       = (w, Raise (ValueError
                      "default value must be empty if the input is a password"))))
  /\ (default = VStr "" ->
      accepts theme kwargs = true ->
      is_ok (keywords named (text_input_rest kwargs)) = true ->
      init_ok KTextInput title textinput_id
        (text_input_extra theme params title textinput_id onselect true kwargs)
      = true ->
      _check_id_duplicated m lid = Ok tt ->
      style_ok (bundle theme kwargs) = true ->
      default_value_ok (VStr "") = true ->
      text_input' self title default onselect true textinput_id params kwargs w
      = (registered self widget (after_id textinput_id w),
         Ok (as_registered m widget))
      /\ kind (as_registered m widget) = KTextInput
      /\ _widgets (menu_at (registered self widget (after_id textinput_id w))
                     self)
         = (_widgets m ++ [as_registered m widget])%list).
Proof.
  intros theme m lid named widget. split.
  - intros Hne.
    assert (Hval : isinstance_str default || isinstance_int_float default
                   = true ->
                   accepts theme kwargs = true ->
                   text_input' self title default onselect true textinput_id
                     params kwargs w
                   = (w, Raise (ValueError
                        "default value must be empty if the input is a password"))).
    { intros Hty HA. unfold text_input.
      rewrite bind_assert, Hty, bind_get_menu_obj. cbv beta.
      unfold bind at 1, on_dict.
      rewrite text_input_options_run by exact HA.
      cbv zeta. cbn [andb]. by rewrite Hne. }
    split; [|exact Hval].
    destruct (text_input' self title default onselect true textinput_id
                params kwargs w) as [w' [x|e]] eqn:E.
    + exfalso. revert E. unfold text_input. rewrite bind_assert.
      destruct (isinstance_str default || isinstance_int_float default);
        [|discriminate].
      rewrite bind_get_menu_obj. unfold bind at 1.
      destruct (on_dict _ kwargs w) as [w1 [r|e]]; [|discriminate].
      cbv zeta. cbn [andb]. rewrite Hne. discriminate.
    + exists w', e. split; [done|].
      eapply (text_input_atomic assert_color assert_vector uuid4 init_ok
                style_ok default_value_ok), E.
  - intros -> HA Hkw Hinit Hdup Hstyle Hdef. split; [|split].
    + unfold text_input. rewrite bind_assert. cbn [isinstance_str orb].
      rewrite bind_get_menu_obj. cbv beta.
      unfold bind at 1, on_dict.
      rewrite text_input_options_run by exact HA.
      cbv zeta. cbn [andb ne_empty_str String.eqb negb fst snd].
      rewrite bind_lift.
      change (keywords _ _) with (keywords named (text_input_rest kwargs)).
      rewrite (keywords_is_ok _ _ Hkw). cbv iota.
      rewrite bind_new_widget_any by exact Hinit.
      rewrite (bind_configure assert_color assert_vector style_ok);
        [| reflexivity | by rewrite menu_at_after_id | done | done].
      rewrite bind_assert, Hdef.
      rewrite append_run by reflexivity.
      unfold registered, as_registered. rewrite menu_at_after_id.
      reflexivity.
    + unfold as_registered.
      by destruct ((_index m <? 0)%Z && is_selectable widget).
    + rewrite menu_at_registered, widgets_appended, menu_at_after_id.
      reflexivity.
Qed.

End TextInput.

Lemma existsb_eqb_elem_of (x : nat) l :
  existsb (Nat.eqb x) l = true <-> x ∈ l.
Proof.
  rewrite existsb_exists. split.
  - intros (y & Hy & E). apply Nat.eqb_eq in E as ->.
    by apply list_elem_of_In.
  - intros H. exists x. split; [by apply list_elem_of_In|].
    apply Nat.eqb_refl.
Qed.

Lemma in_submenu_spec depth ms a menu b :
  in_submenu depth ms a menu true = Ok b ->
  (b = true <-> contains_menu ms a menu).
Proof.
  revert a b. induction depth as [|depth IH]; intros a b; [discriminate|].
  simpl. destruct (existsb (Nat.eqb menu) (_submenus (ms !!! a))) eqn:E.
  - intros [= <-]. split; [intros _|done].
    apply contains_direct. by apply existsb_eqb_elem_of.
  - assert (Hnot : menu ∉ _submenus (ms !!! a)).
    { intros H. apply existsb_eqb_elem_of in H. congruence. }
    enough (Hloop : forall l b,
      (fix each (l : list addr) : result bool :=
         match l with
         | [] => Ok false
         | sm :: l' =>
             match in_submenu depth ms sm menu true with
             | Ok true => Ok true
             | Ok false => each l'
             | Raise e => Raise e
             end
         end) l = Ok b ->
      (b = true <-> exists sm, sm ∈ l /\ contains_menu ms sm menu)).
    { intros H. apply Hloop in H. rewrite H. split.
      - intros (sm & Hsm & Hc). by eapply contains_indirect.
      - intros Hc. inversion Hc; subst; [done|]. eauto. }
    clear b. induction l as [|sm l IHl]; intros b.
    + intros [= <-]. split; [done|]. intros (sm & Hsm & _).
      by inversion Hsm.
    + destruct (in_submenu depth ms sm menu true) as [[|]|e] eqn:Es;
        [| |discriminate].
      * intros [= <-]. split; [intros _|done]. exists sm.
        split; [left|]. by apply (IH sm true).
      * intros H. apply IHl in H. rewrite H. split.
        -- intros (x & Hx & Hc). exists x. split; [by right|done].
        -- intros (x & Hx & Hc). apply elem_of_cons in Hx as [->|Hx].
           ++ apply (IH sm false Es) in Hc. discriminate.
           ++ eauto.
Qed.

Lemma in_submenu_terminates (rank : addr -> nat) depth ms a menu :
  (forall x sm, sm ∈ _submenus (ms !!! x) -> rank sm < rank x) ->
  rank a < depth ->
  exists b, in_submenu depth ms a menu true = Ok b.
Proof.
  intros Hrank. revert a. induction depth as [|depth IH]; intros a Ha; [lia|].
  simpl. destruct (existsb (Nat.eqb menu) (_submenus (ms !!! a)));
    [by eexists|].
  assert (Hl : forall sm, sm ∈ _submenus (ms !!! a) -> rank sm < depth).
  { intros sm Hsm. specialize (Hrank a sm Hsm). lia. }
  revert Hl. generalize (_submenus (ms !!! a)).
  induction l as [|sm l IHl]; intros Hl; [by eexists|].
  destruct (IH sm) as [[|] ->]; [apply Hl; left | by eexists |].
  apply IHl. intros x Hx. apply Hl. by right.
Qed.

Section Button.

Variable assert_color : value -> bool.

Variable assert_vector : value -> nat -> bool.

Variable uuid4 : nat -> string.

Variable init_ok : WidgetKind -> string -> string -> Dict.t -> bool.

Variable style_ok : Dict.t -> bool.

Variable selection_callback_ok : value -> bool.

Local Abbreviation resolve := (_filter_widget_attributes assert_color assert_vector).

Local Abbreviation accepts := (accepted assert_color assert_vector).

Local Abbreviation button' :=
  (button assert_color assert_vector uuid4 init_ok style_ok
     selection_callback_ok).

Lemma button_options_run theme kwargs :
  button_options_ok kwargs = true ->
  accepts theme (Dict.remove_all button_option_keys kwargs) = true ->
  bind (pop "back_count" (VInt 1))
    (fun total_back =>
       bind (assert_ (isinstance_int total_back && one_le total_back) "")
         (fun _ =>
            bind (pop "button_id" (VStr ""))
              (fun button_id =>
                 bind (assert_ (isinstance_str button_id) "id must be a string")
                   (fun _ =>
                      bind (pop "accept_kwargs" (VBool false))
                        (fun accept_kwargs =>
                           bind (assert_ (isinstance_bool accept_kwargs) "")
                             (fun _ =>
                                bind (pop "onselect" VNone)
                                  (fun onselect =>
                                     bind (resolve theme)
                                       (fun attributes =>
                                          ret (total_back, button_id,
                                               accept_kwargs, onselect,
                                               attributes))))))))) kwargs
  = (Dict.remove_all consumed_keys
       (Dict.remove_all button_option_keys kwargs),
     Ok (given kwargs "back_count" (VInt 1),
         given kwargs "button_id" (VStr ""),
         given kwargs "accept_kwargs" (VBool false),
         given kwargs "onselect" VNone,
         bundle theme (Dict.remove_all button_option_keys kwargs))).
Proof.
  unfold button_options_ok. intros Ho HA.
  apply andb_prop in Ho as [Ho Hak]. apply andb_prop in Ho as [Hbc Hid].
  change kwargs with (Dict.remove_all [] kwargs) at 1.
  rewrite (bind_pop_all []) by reflexivity. cbv beta. cbn [app].
  rewrite bind_assert, Hbc.
  rewrite (bind_pop_all ["back_count"]) by reflexivity. cbv beta. cbn [app].
  rewrite bind_assert, Hid.
  rewrite (bind_pop_all ["back_count"; "button_id"]) by reflexivity.
  cbv beta. cbn [app]. rewrite bind_assert, Hak.
  rewrite (bind_pop_all ["back_count"; "button_id"; "accept_kwargs"])
    by reflexivity.
  cbv beta. cbn [app]. unfold bind.
  fold button_option_keys. by rewrite (filter_ok _ _ _ _ HA).
Qed.

(** What is left of [button] once its options have been read: the widget
    is built for the action, leftovers are checked, the widget is bound and
    registered. *)
Lemma button_after_options depth self title action args kwargs w :
  let theme := _theme (menu_at w self) in
  let options := Dict.remove_all button_option_keys kwargs in
  button_options_ok kwargs = true ->
  accepts theme options = true ->
  button' depth self title action args kwargs w
  = bind
      (match
         match action with
         | APygameQuit | APygameWindowClose => AExit
         | APyNone => ANoAction
         | a => a
         end
       with
       | AMenu target =>
           bind (if Nat.eqb target self then ret true
                 else fun w => (w, in_submenu depth (menus w) target self true))
             (fun recursive : bool =>
                if recursive then
                  bind (get_menu_obj target)
                    (fun m => raise (ValueError (recursive_menu_msg (get_title m))))
                else
                  bind (get_menu_obj self)
                    (fun menu =>
                       bind (put_menu self
                               (set_submenus menu
                                  (_submenus menu ++ [target])%list))
                         (fun _ =>
                            bind (new_widget uuid4 init_ok KButton title
                                    (str_of (given kwargs "button_id" (VStr "")))
                                    [("args", VTuple [VObject target])])
                              (fun widget => ret (with_to_menu widget true)))))
       | ABack =>
           new_widget uuid4 init_ok KButton title
             (str_of (given kwargs "button_id" (VStr "")))
             [("args", VTuple [given kwargs "back_count" (VInt 1)])]
       | AClose | AExit | ANoAction | AReset =>
           new_widget uuid4 init_ok KButton title
             (str_of (given kwargs "button_id" (VStr ""))) []
       | ACallable _ =>
           if negb (truthy (given kwargs "accept_kwargs" (VBool false)))
           then new_widget uuid4 init_ok KButton title
                  (str_of (given kwargs "button_id" (VStr "")))
                  [("args", VTuple args)]
           else new_widget uuid4 init_ok KButton title
                  (str_of (given kwargs "button_id" (VStr "")))
                  (("args", VTuple args)
                   :: Dict.remove_all consumed_keys options)
       | _ =>
           raise (ValueError
             "action must be a Menu, a MenuAction (event), a function (callable), or None")
       end)
      (fun widget =>
         bind (if negb (truthy (given kwargs "accept_kwargs" (VBool false)))
               then lift (_check_kwargs (Dict.remove_all consumed_keys options))
               else ret tt)
           (fun _ =>
              bind (_configure_widget style_ok self widget
                      (bundle theme options))
                (fun widget =>
                   bind (assert_ (selection_callback_ok
                                    (given kwargs "onselect" VNone)) "")
                     (fun _ =>
                        _append_widget self
                          (with_onselect widget
                             (given kwargs "onselect" VNone)))))) w.
Proof.
  intros theme options Ho HA. unfold button.
  rewrite bind_get_menu_obj. cbv beta. unfold bind at 1, on_dict.
  rewrite button_options_run by done. reflexivity.
Qed.

(** The last steps of [button] on a widget that is built, when no
    leftover key stands in the way. *)
Lemma button_tail_run self widget theme options ak onselect w :
  _menu widget = None ->
  (ak = true \/ Dict.remove_all consumed_keys options = []) ->
  _check_id_duplicated (menu_at w self) (_id widget) = Ok tt ->
  accepts theme options = true ->
  style_ok (bundle theme options) = true ->
  selection_callback_ok onselect = true ->
  let final :=
    with_onselect (with_style (with_menu widget self) (bundle theme options))
      onselect in
  bind (if negb ak
        then lift (_check_kwargs (Dict.remove_all consumed_keys options))
        else ret tt)
    (fun _ =>
       bind (_configure_widget style_ok self widget (bundle theme options))
         (fun widget =>
            bind (assert_ (selection_callback_ok onselect) "")
              (fun _ => _append_widget self (with_onselect widget onselect)))) w
  = (registered self final w, Ok (as_registered (menu_at w self) final)).
Proof.
  intros Hm Hleft Hdup HA Hstyle Hsel final.
  assert (Hcheck : (if negb ak
                    then lift (_check_kwargs
                                 (Dict.remove_all consumed_keys options))
                    else ret tt) w = (w, Ok tt)).
  { destruct ak; [reflexivity|]. destruct Hleft as [?| ->]; [done|].
    reflexivity. }
  rewrite (bind_ok _ _ _ _ _ Hcheck).
  rewrite (bind_configure assert_color assert_vector style_ok) by done.
  rewrite bind_assert, Hsel. by rewrite append_run by reflexivity.
Qed.

(** C5: a button whose target is a menu raises exactly when the target is
    the container itself or (transitively) contains the container as a
    submenu; otherwise the target is recorded as a submenu of the
    container and the button is registered.  The call is otherwise well
    formed: options and attributes are accepted, no leftover key is
    refused, the constructor and the setters accept their arguments, the
    ID is not in use, and the submenu structure is a tree that the depth
    allowed for the check covers. *)
Theorem button_submenu_cycle (rank : addr -> nat) depth self title target args
    kwargs w :
  let m := menu_at w self in
  let theme := _theme m in
  let options := Dict.remove_all button_option_keys kwargs in
  let bid := str_of (given kwargs "button_id" (VStr "")) in
  let lid := id_or_uuid uuid4 bid w in
  let widget :=
    button_widget theme options self title lid
      (given kwargs "onselect" VNone) true in
  let cyclic := target = self \/ contains_menu (menus w) target self in
  button_options_ok kwargs = true ->
  accepts theme options = true ->
  (truthy (given kwargs "accept_kwargs" (VBool false)) = true
   \/ Dict.remove_all consumed_keys options = []) ->
  (forall x sm, sm ∈ _submenus (menus w !!! x) -> rank sm < rank x) ->
  rank target < depth ->
  init_ok KButton title bid [("args", VTuple [VObject target])] = true ->
  _check_id_duplicated m lid = Ok tt ->
  style_ok (bundle theme options) = true ->
  selection_callback_ok (given kwargs "onselect" VNone) = true ->
  (cyclic ->
   button' depth self title (AMenu target) args kwargs w
   = (w, Raise (ValueError (recursive_menu_msg
                              (get_title (menu_at w target))))))
  /\ (~ cyclic ->
      exists w',
        button' depth self title (AMenu target) args kwargs w
        = (w', Ok (as_registered m widget))
        /\ kind (as_registered m widget) = KButton
        /\ to_menu (as_registered m widget) = true
        /\ _submenus (menu_at w' self) = (_submenus m ++ [target])%list
        /\ _widgets (menu_at w' self)
           = (_widgets m ++ [as_registered m widget])%list)
  /\ (raises (button' depth self title (AMenu target) args kwargs w).2
      <-> cyclic).
Proof.
  intros m theme options bid lid widget cyclic Ho HA Hleft Hrank Hdepth
    Hinit Hdup Hstyle Hsel.
  assert (Hraise : cyclic ->
    bind (if Nat.eqb target self then ret true
          else fun w => (w, in_submenu depth (menus w) target self true))
      (fun recursive : bool =>
         if recursive then
           bind (get_menu_obj target)
             (fun m => raise (ValueError (recursive_menu_msg (get_title m))))
         else
           bind (get_menu_obj self)
             (fun menu =>
                bind (put_menu self
                        (set_submenus menu (_submenus menu ++ [target])%list))
                  (fun _ =>
                     bind (new_widget uuid4 init_ok KButton title bid
                             [("args", VTuple [VObject target])])
                       (fun widget => ret (with_to_menu widget true))))) w
    = (w, Raise (ValueError (recursive_menu_msg
                               (get_title (menu_at w target)))))).
  { intros Hc. destruct (Nat.eqb target self) eqn:E; [reflexivity|].
    unfold bind at 1.
    destruct (in_submenu_terminates rank depth (menus w) target self Hrank
                Hdepth) as [b Hb].
    rewrite Hb. apply in_submenu_spec in Hb.
    destruct Hc as [-> |Hc]; [by rewrite Nat.eqb_refl in E|].
    apply Hb in Hc as ->. reflexivity. }
  assert (Hbuild : ~ cyclic ->
    bind (if Nat.eqb target self then ret true
          else fun w => (w, in_submenu depth (menus w) target self true))
      (fun recursive : bool =>
         if recursive then
           bind (get_menu_obj target)
             (fun m => raise (ValueError (recursive_menu_msg (get_title m))))
         else
           bind (get_menu_obj self)
             (fun menu =>
                bind (put_menu self
                        (set_submenus menu (_submenus menu ++ [target])%list))
                  (fun _ =>
                     bind (new_widget uuid4 init_ok KButton title bid
                             [("args", VTuple [VObject target])])
                       (fun widget => ret (with_to_menu widget true))))) w
    = (after_id bid (with_submenu self target w),
       Ok (with_to_menu (built KButton title lid) true))).
  { intros Hc. destruct (Nat.eqb target self) eqn:E.
    { exfalso. apply Hc. left. by apply Nat.eqb_eq. }
    unfold bind at 1.
    destruct (in_submenu_terminates rank depth (menus w) target self Hrank
                Hdepth) as [b Hb].
    rewrite Hb. apply in_submenu_spec in Hb. destruct b.
    { exfalso. apply Hc. right. by apply Hb. }
    rewrite bind_get_menu_obj. cbv beta. unfold bind at 1, put_menu.
    fold m. fold (with_submenu self target w).
    by rewrite (bind_new_widget_any uuid4 init_ok) by done. }
  assert (Hdec : cyclic \/ ~ cyclic).
  { destruct (Nat.eqb target self) eqn:E.
    { left. left. by apply Nat.eqb_eq. }
    destruct (in_submenu_terminates rank depth (menus w) target self Hrank
                Hdepth) as [b Hb].
    apply in_submenu_spec in Hb. destruct b.
    - left. right. by apply Hb.
    - right. intros [-> |Hc]; [by rewrite Nat.eqb_refl in E|].
      apply Hb in Hc. discriminate. }
  assert (Hm1 : menu_at (after_id bid (with_submenu self target w)) self
                = set_submenus m (_submenus m ++ [target])%list).
  { rewrite menu_at_after_id. apply menu_at_put. }
  assert (Hok : ~ cyclic ->
    exists w',
      bind
        (bind (if Nat.eqb target self then ret true
               else fun w => (w, in_submenu depth (menus w) target self true))
           (fun recursive : bool =>
              if recursive then
                bind (get_menu_obj target)
                  (fun m => raise (ValueError (recursive_menu_msg (get_title m))))
              else
                bind (get_menu_obj self)
                  (fun menu =>
                     bind (put_menu self
                             (set_submenus menu
                                (_submenus menu ++ [target])%list))
                       (fun _ =>
                          bind (new_widget uuid4 init_ok KButton title bid
                                  [("args", VTuple [VObject target])])
                            (fun widget => ret (with_to_menu widget true))))))
        (fun widget =>
           bind (if negb (truthy (given kwargs "accept_kwargs" (VBool false)))
                 then lift (_check_kwargs
                              (Dict.remove_all consumed_keys options))
                 else ret tt)
             (fun _ =>
                bind (_configure_widget style_ok self widget
                        (bundle theme options))
                  (fun widget =>
                     bind (assert_ (selection_callback_ok
                                      (given kwargs "onselect" VNone)) "")
                       (fun _ =>
                          _append_widget self
                            (with_onselect widget
                               (given kwargs "onselect" VNone)))))) w
      = (w', Ok (as_registered m widget))
      /\ kind (as_registered m widget) = KButton
      /\ to_menu (as_registered m widget) = true
      /\ _submenus (menu_at w' self) = (_submenus m ++ [target])%list
      /\ _widgets (menu_at w' self)
         = (_widgets m ++ [as_registered m widget])%list).
  { intros Hc. eexists. split.
    - rewrite (bind_ok _ _ _ _ _ (Hbuild Hc)).
      rewrite button_tail_run; [| reflexivity | done | by rewrite Hm1
                                | done | done | done].
      rewrite Hm1. reflexivity.
    - unfold as_registered.
      split; [by destruct ((_index m <? 0)%Z && is_selectable widget)|].
      split; [by destruct ((_index m <? 0)%Z && is_selectable widget)|].
      rewrite menu_at_registered, Hm1. split; reflexivity. }
  assert (Hcyc : cyclic ->
    button' depth self title (AMenu target) args kwargs w
    = (w, Raise (ValueError (recursive_menu_msg
                               (get_title (menu_at w target)))))).
  { intros Hc. rewrite button_after_options by done. cbv iota.
    exact (bind_err _ _ _ _ _ (Hraise Hc)). }
  assert (Hreg : ~ cyclic ->
    exists w',
      button' depth self title (AMenu target) args kwargs w
      = (w', Ok (as_registered m widget))
      /\ kind (as_registered m widget) = KButton
      /\ to_menu (as_registered m widget) = true
      /\ _submenus (menu_at w' self) = (_submenus m ++ [target])%list
      /\ _widgets (menu_at w' self)
         = (_widgets m ++ [as_registered m widget])%list).
  { intros Hc. destruct (Hok Hc) as (w' & Hw & Hrest). exists w'.
    split; [|exact Hrest]. rewrite button_after_options by done. cbv iota.
    exact Hw. }
  split; [exact Hcyc|]. split; [exact Hreg|].
  destruct Hdec as [Hc|Hc].
  - rewrite (Hcyc Hc). split; [done|]. intros _. by eexists.
  - destruct (Hreg Hc) as (w' & -> & _). split; [|done].
    intros [e He]. discriminate.
Qed.

End Button.





Lemma check_kwargs_first k v rest :
  _check_kwargs ((k, v) :: rest) = Raise (kwarg_error k).
Proof. reflexivity. Qed.

Section Leftovers.

Variable assert_color : value -> bool.

Variable assert_vector : value -> nat -> bool.

Variable uuid4 : nat -> string.

Variable init_ok : WidgetKind -> string -> string -> Dict.t -> bool.

Variable style_ok : Dict.t -> bool.

Variable selection_callback_ok : value -> bool.

Variable wrap : string -> Z -> result (list string).

Variable probe_max_char : Menu -> Widget -> string -> result Z.

Local Abbreviation resolve := (_filter_widget_attributes assert_color assert_vector).

Local Abbreviation accepts := (accepted assert_color assert_vector).

Local Abbreviation button' :=
  (button assert_color assert_vector uuid4 init_ok style_ok
     selection_callback_ok).

Local Abbreviation image' :=
  (image assert_color assert_vector uuid4 init_ok style_ok).

Local Abbreviation label' :=
  (label assert_color assert_vector uuid4 init_ok style_ok wrap probe_max_char).




End Leftovers.

(** ** A failed call and the container *)

Section FailedCalls.

Variable assert_color : value -> bool.

Variable assert_vector : value -> nat -> bool.

Variable uuid4 : nat -> string.

Variable init_ok : WidgetKind -> string -> string -> Dict.t -> bool.

Variable style_ok : Dict.t -> bool.

Variable selection_callback_ok : value -> bool.

Variable default_value_ok : value -> bool.

Variable wrap : string -> Z -> result (list string).

Variable probe_max_char : Menu -> Widget -> string -> result Z.

Local Abbreviation button' :=
  (button assert_color assert_vector uuid4 init_ok style_ok
     selection_callback_ok).

Local Abbreviation image' :=
  (image assert_color assert_vector uuid4 init_ok style_ok).

Local Abbreviation text_input' :=
  (text_input assert_color assert_vector uuid4 init_ok style_ok
     default_value_ok).

Local Abbreviation label' :=
  (label assert_color assert_vector uuid4 init_ok style_ok wrap probe_max_char).



End FailedCalls.

Lemma nested_world_ranked x sm :
  sm ∈ _submenus (menus nested_world !!! x) -> nested_rank sm < nested_rank x.
Proof.
  destruct x as [|[|[|x]]].
  - intros H. vm_compute in H. inversion H.
  - intros H. vm_compute in H. apply list_elem_of_In in H.
    destruct H as [<-|[]]. simpl. lia.
  - intros H. vm_compute in H. inversion H.
  - unfold nested_world. cbn [menus].
    rewrite !lookup_total_insert_ne by lia. rewrite lookup_total_empty.
    intros H. inversion H.
Qed.




(** C5, an instance: in [nested_world] a button of [main] that targets
    [sub] is refused, a button that targets [other] is registered and
    [other] becomes a submenu of [main]. *)
Lemma button_submenu_cycle_witness :
  demo_button 5 0%nat "back" (AMenu 1%nat) [] [] nested_world
  = (nested_world, Raise (ValueError (recursive_menu_msg "sub")))
  /\ (exists w',
        (demo_button 5 0%nat "open" (AMenu 2%nat) []
           [("button_id", VStr "open")] nested_world).1 = w'
        /\ is_ok (demo_button 5 0%nat "open" (AMenu 2%nat) []
                    [("button_id", VStr "open")] nested_world).2 = true
        /\ _submenus (menu_at w' 0%nat) = [2%nat]
        /\ length (_widgets (menu_at w' 0%nat)) = 1%nat).
Proof.
  split.
  - apply (button_submenu_cycle assert_color_ref assert_vector_ref
             demo_uuid4 demo_init_ok demo_style_ok
             demo_selection_callback_ok nested_rank 5 0%nat
             "back" 1%nat [] [] nested_world);
      try solve [reflexivity | apply nested_world_ranked | simpl; lia
                | right; reflexivity].
    right. apply contains_direct. vm_compute. left.
  - destruct (button_submenu_cycle assert_color_ref assert_vector_ref
                demo_uuid4 demo_init_ok demo_style_ok
             demo_selection_callback_ok nested_rank 5 0%nat
                "open" 2%nat [] [("button_id", VStr "open")] nested_world)
      as (_ & Hreg & _);
      try solve [reflexivity | apply nested_world_ranked | simpl; lia
                | right; reflexivity].
    destruct Hreg as (w' & Hrun & _ & _ & Hsub & Hwid).
    + intros [H|H]; [discriminate|].
      inversion H as [? ? Hin|? ? ? Hin _]; subst;
        vm_compute in Hin; inversion Hin.
    + exists w'. unfold demo_button. rewrite Hrun.
      split; [reflexivity|]. split; [reflexivity|].
      split; [exact Hsub|]. rewrite Hwid. reflexivity.
Defined.

(** C9, an instance: a password input with default [x] is refused, one
    with the empty default is registered. *)
Lemma text_input_password_default_witness :
  demo_text_input 0%nat "pw" (VStr "x") VNone true "pw" [] [] demo_world
  = (demo_world,
     Raise (ValueError
              "default value must be empty if the input is a password"))
  /\ is_ok (demo_text_input 0%nat "pw" (VStr "") VNone true "pw" [] []
              demo_world).2 = true.
Proof.
  split.
  - destruct (text_input_password_default assert_color_ref assert_vector_ref
                demo_uuid4 demo_init_ok demo_style_ok demo_default_value_ok
                0%nat "pw" (VStr "x") VNone "pw" [] [] demo_world)
      as [Hraise _].
    destruct (Hraise eq_refl) as [_ Hval]. apply Hval; reflexivity.
  - destruct (text_input_password_default assert_color_ref assert_vector_ref
                demo_uuid4 demo_init_ok demo_style_ok demo_default_value_ok
                0%nat "pw" (VStr "") VNone "pw" [] [] demo_world)
      as [_ Hok].
    destruct (Hok eq_refl eq_refl eq_refl eq_refl eq_refl eq_refl eq_refl)
      as (Hrun & _).
    unfold demo_text_input. rewrite Hrun. reflexivity.
Defined.

(** * The rest of the manager *)

(** ** What the resolver does to the mapping, whatever the outcome *)

Lemma same_outside_refl ks d : same_outside ks d d.
Proof. by intros k _. Qed.

Lemma same_outside_trans ks d1 d2 d3 :
  same_outside ks d1 d2 -> same_outside ks d2 d3 -> same_outside ks d1 d3.
Proof. intros H1 H2 k Hk. by rewrite H2, H1. Qed.

Lemma keeps_dict_ret {A} ks (a : A) : keeps_dict ks (ret a).
Proof. intros d d' r [= <- _]. apply same_outside_refl. Qed.

Lemma keeps_dict_lift {A} ks (x : result A) : keeps_dict ks (lift x).
Proof. intros d d' r [= <- _]. apply same_outside_refl. Qed.

Lemma keeps_dict_assert ks b msg : keeps_dict ks (assert_ b msg).
Proof. destruct b; intros d d' r [= <- _]; apply same_outside_refl. Qed.

Lemma keeps_dict_pop ks key dflt :
  key ∈ ks -> keeps_dict ks (pop key dflt).
Proof.
  intros Hin d d' r [= <- _] k Hk. apply DictFacts.get_remove_ne.
  intros ->. done.
Qed.

Lemma keeps_dict_bind {A B} ks (c : M Dict.t A) (k : A -> M Dict.t B) :
  keeps_dict ks c -> (forall a, keeps_dict ks (k a)) -> keeps_dict ks (bind c k).
Proof.
  intros Hc Hk d d' r. unfold bind. destruct (c d) as [d1 [a|e]] eqn:E.
  - intros Hka. eapply same_outside_trans; [eapply Hc, E | eapply Hk, Hka].
  - intros [= <- _]. eapply Hc, E.
Qed.

Ltac keeps_dict_tac :=
  repeat
    lazymatch goal with
    | |- forall _, _ => intro
    | |- keeps_dict _ (ret _) => apply keeps_dict_ret
    | |- keeps_dict _ (lift _) => apply keeps_dict_lift
    | |- keeps_dict _ (assert_ _ _) => apply keeps_dict_assert
    | |- keeps_dict _ (utils_assert_color _ _) => apply keeps_dict_assert
    | |- keeps_dict _ (utils_assert_vector _ _ _) => apply keeps_dict_assert
    | |- keeps_dict _ (pop _ _) =>
        apply keeps_dict_pop; by apply (bool_decide_unpack _)
    | |- keeps_dict _ (bind _ _) => apply keeps_dict_bind
    | |- keeps_dict _ (if ?c then _ else _) => destruct c
    end.

Lemma keeps_dict_filter ac av theme :
  keeps_dict consumed_keys (_filter_widget_attributes ac av theme).
Proof. unfold _filter_widget_attributes. cbv zeta. keeps_dict_tac. Qed.

Lemma keys_remove k d :
  Dict.keys (Dict.remove k d) = filter (fun k' => k' <> k) (Dict.keys d).
Proof.
  induction d as [|[k' v] d IH]; [done|]. simpl.
  destruct (String.eqb k' k) eqn:E.
  - apply String.eqb_eq in E. subst k'. rewrite filter_cons_False by auto.
    apply IH.
  - apply String.eqb_neq in E. rewrite filter_cons_True by done.
    simpl. by rewrite IH.
Qed.

Lemma keys_remove_all ks d :
  Dict.keys (Dict.remove_all ks d) = filter (fun k => k ∉ ks) (Dict.keys d).
Proof.
  revert d. induction ks as [|k0 ks IH]; intros d; simpl.
  - induction (Dict.keys d) as [|k l IH]; [done|].
    rewrite filter_cons_True by apply not_elem_of_nil. by rewrite <- IH.
  - rewrite IH, keys_remove, list_filter_filter. apply list_filter_iff.
    intros k. rewrite not_elem_of_cons. tauto.
Qed.

Section ResolverExtras.

Variable assert_color : value -> bool.

Variable assert_vector : value -> nat -> bool.

Local Abbreviation resolve := (_filter_widget_attributes assert_color assert_vector).

Local Abbreviation accepts := (accepted assert_color assert_vector).

(** X1: whatever the outcome, the resolver leaves every key it does not
    consume in the mapping with its value; after a successful resolution
    the mapping holds those keys, and no other, in their original order. *)
Theorem resolver_touches_only_its_keys theme kwargs d r :
  resolve theme kwargs = (d, r) ->
  (forall k, k ∉ consumed_keys -> Dict.get k d = Dict.get k kwargs)
  /\ (is_ok r = true ->
      Dict.keys d = filter (fun k => k ∉ consumed_keys) (Dict.keys kwargs)).
Proof.
  intros H. split.
  - by apply (keeps_dict_filter _ _ _ _ _ _ H).
  - destruct r as [a|e]; [intros _|discriminate].
    apply filter_Ok_inv in H as (_ & -> & _). apply keys_remove_all.
Qed.

(** X2: a bundle the resolver returns has exactly the keys the binder
    reads, in a fixed order, so that no read of [_configure_widget] can
    fail: every key is present and the margin has its two components.  The
    antialias flag is the theme's: the caller has no say in it. *)
Theorem resolver_bundle_is_readable theme kwargs d a :
  resolve theme kwargs = (d, Ok a) ->
  Dict.keys a
  = [ "align"; "background_color"; "background_inflate"; "border_color";
      "border_inflate"; "border_width"; "font_antialias";
      "font_background_color"; "font_color"; "font_name"; "font_size";
      "margin"; "padding"; "readonly_color"; "readonly_selected_color";
      "selection_color"; "selection_effect"; "shadow"; "shadow_color";
      "shadow_position"; "shadow_offset" ]
  /\ subscripts a configured_keys = Ok tt
  /\ (exists x y,
        subscript a "margin" = Ok (VTuple [x; y])
        /\ getitem (VTuple [x; y]) 0 = Ok x
        /\ getitem (VTuple [x; y]) 1 = Ok y)
  /\ subscript a "font_antialias" = Ok (Theme.widget_font_antialias theme).
Proof.
  intros H. apply filter_Ok_inv in H as (HA & _ & ->).
  split; [reflexivity|]. split; [reflexivity|]. split; [|reflexivity].
  destruct (accepted_margin _ _ _ _ HA) as (x & y & Hm).
  exists x, y. split; [|done].
  change (subscript (bundle theme kwargs) "margin")
    with (Ok (given kwargs "margin" (Theme.widget_margin theme))).
  by rewrite Hm.
Qed.

Lemma given_agree kw1 kw2 k dflt :
  Dict.get k kw1 = Dict.get k kw2 -> given kw1 k dflt = given kw2 k dflt.
Proof. unfold given. by intros ->. Qed.

(** X3: the resolver reads nothing but the keys it consumes: two mappings
    that agree on those keys are accepted or rejected together and, when
    accepted, give the same bundle. *)
Theorem resolver_reads_only_its_keys theme kw1 kw2 :
  (forall k, k ∈ consumed_keys -> Dict.get k kw1 = Dict.get k kw2) ->
  is_ok (resolve theme kw1).2 = is_ok (resolve theme kw2).2
  /\ forall d a, resolve theme kw1 = (d, Ok a) ->
       exists d', resolve theme kw2 = (d', Ok a).
Proof.
  intros Hag.
  assert (HA : accepts theme kw1 = accepts theme kw2
               /\ bundle theme kw1 = bundle theme kw2).
  { unfold accepted, bundle, resolved_font_background,
      resolved_selection_effect, derives_font_background.
    repeat match goal with
    | |- context [given kw1 ?k ?dflt] =>
        rewrite (given_agree kw1 kw2 k dflt)
          by (apply Hag; by apply (bool_decide_unpack _))
    end. done. }
  destruct HA as [HA HB]. split.
  - by rewrite !filter_is_ok.
  - intros d a H. apply filter_Ok_inv in H as (HA1 & _ & ->).
    eexists. rewrite HB. apply filter_ok. by rewrite <- HA.
Qed.

End ResolverExtras.

(** ** Runs that return *)

Lemma bind_Ok_inv {S A B} (m : M S A) (k : A -> M S B) s s' b :
  bind m k s = (s', Ok b) ->
  exists a s1, m s = (s1, Ok a) /\ k a s1 = (s', Ok b).
Proof.
  unfold bind. destruct (m s) as [s1 [a|e]]; [|discriminate].
  intros H. by exists a, s1.
Qed.

Lemma append_Ok_inv self widget w w' r :
  _append_widget self widget w = (w', Ok r) ->
  _menu widget = Some self
  /\ w' = registered self widget w
  /\ r = as_registered (menu_at w self) widget.
Proof.
  intros H. destruct (_menu widget) as [a|] eqn:Hm.
  - destruct (decide (a = self)) as [->|Hne].
    + rewrite append_run in H by done. by injection H as <- <-.
    + unfold _append_widget in H. rewrite Hm in H.
      apply Nat.eqb_neq in Hne. rewrite Hne in H. discriminate.
  - unfold _append_widget in H. rewrite Hm in H. discriminate.
Qed.

Lemma configure_Ok_inv style_ok self widget attrs w w' x :
  _configure_widget style_ok self widget attrs w = (w', Ok x) ->
  w' = w
  /\ x = with_style (with_menu widget self) attrs
  /\ _menu widget = None
  /\ _check_id_duplicated (menu_at w self) (_id widget) = Ok tt
  /\ style_ok attrs = true.
Proof.
  unfold _configure_widget. rewrite bind_assert.
  destruct (_menu widget); [discriminate|].
  unfold get_menu_obj. unfold bind at 1. rewrite bind_lift.
  change (_id (with_menu widget self)) with (_id widget).
  destruct (_check_id_duplicated _ _) as [[]|]; [|discriminate].
  rewrite bind_lift.
  destruct (subscripts attrs configured_keys); [|discriminate].
  rewrite bind_lift.
  destruct (subscript attrs "margin") as [margin|]; [|discriminate].
  rewrite bind_lift. destruct (getitem margin 0); [|discriminate].
  rewrite bind_lift. destruct (getitem margin 1); [|discriminate].
  rewrite bind_assert. destruct (style_ok attrs); [|discriminate].
  by intros [= <- <-].
Qed.

Lemma check_id_fresh m i :
  _check_id_duplicated m i = Ok tt <->
  forall x, x ∈ _widgets m -> _id x <> i.
Proof.
  unfold _check_id_duplicated.
  destruct (existsb _ _) eqn:E.
  - split; [discriminate|]. intros H. exfalso.
    apply existsb_exists in E as (x & Hx & Hi).
    apply String.eqb_eq in Hi. eapply H; [|done].
    by apply list_elem_of_In.
  - split; [|done]. intros _ x Hx Hi.
    assert (existsb (fun w => String.eqb (_id w) i) (_widgets m) = true);
      [|congruence].
    apply existsb_exists. exists x. split; [by apply list_elem_of_In|].
    by apply String.eqb_eq.
Qed.

(** ** Registration *)

(** X4: [_append_widget] accepts exactly the widgets bound to its menu.
    It then puts the widget at the end of the list, adds one to the
    counter, discards the widgets surface, and leaves the submenus, the
    other menus and the widget's identity alone; a widget bound elsewhere
    or not bound raises and nothing changes. *)
Theorem append_widget_effect self widget w :
  (_menu widget = Some self ->
   exists r,
     _append_widget self widget w = (registered self widget w, Ok r)
     /\ _widgets (menu_at (registered self widget w) self)
        = (_widgets (menu_at w self) ++ [r])%list
     /\ added_widgets (menu_at (registered self widget w) self)
        = (added_widgets (menu_at w self) + 1)%Z
     /\ _widgets_surface (menu_at (registered self widget w) self) = None
     /\ _submenus (menu_at (registered self widget w) self)
        = _submenus (menu_at w self)
     /\ _id r = _id widget
     /\ _menu r = Some self
     /\ forall b, b <> self ->
          menu_at (registered self widget w) b = menu_at w b)
  /\ (_menu widget <> Some self ->
      _append_widget self widget w
      = (w, Raise (AssertionError
                     "widget cannot have a different instance of menu"))).
Proof.
  split.
  - intros Hm. eexists. split; [by apply append_run|].
    rewrite menu_at_registered.
    split; [reflexivity|]. split; [reflexivity|]. split; [reflexivity|].
    split; [reflexivity|].
    split; [by destruct (_ && _)|]. split; [by destruct (_ && _)|].
    intros b Hb. by apply menu_at_registered_ne.
  - intros Hm. unfold _append_widget. rewrite bind_assert.
    destruct (_menu widget) as [a|]; [|done].
    destruct (a =? self)%nat eqn:E; [|done].
    apply Nat.eqb_eq in E. congruence.
Qed.

(** ** The binder *)

(** X5: [_configure_widget] binds a widget once.  When it returns, the
    world is as before and the widget is bound to the menu, with its ID
    and with the bundle as its style; configuring the returned widget
    again, on any menu and with any bundle, raises. *)
Theorem configure_binds_once style_ok self widget attrs w w' x :
  _configure_widget style_ok self widget attrs w = (w', Ok x) ->
  w' = w
  /\ _menu x = Some self
  /\ _id x = _id widget
  /\ _style x = Some attrs
  /\ forall other attrs' w0,
       _configure_widget style_ok other x attrs' w0
       = (w0, Raise (AssertionError "widget cannot have an instance of menu")).
Proof.
  intros H. apply configure_Ok_inv in H as (-> & -> & _).
  repeat split; reflexivity.
Qed.

(** X6: a widget that [_configure_widget] returned for a menu is accepted
    by [_append_widget] of that menu, and of no other. *)
Theorem configure_then_append style_ok self widget attrs w w' x :
  _configure_widget style_ok self widget attrs w = (w', Ok x) ->
  (exists r, _append_widget self x w' = (registered self x w, Ok r)
             /\ _id r = _id widget)
  /\ forall other w0,
       other <> self ->
       _append_widget other x w0
       = (w0, Raise (AssertionError
                       "widget cannot have a different instance of menu")).
Proof.
  intros H. apply configure_Ok_inv in H as (-> & -> & _). split.
  - eexists. split; [by apply append_run|]. by destruct (_ && _).
  - intros other w0 Hne. unfold _append_widget. rewrite bind_assert.
    simpl. apply Nat.eqb_neq in Hne. rewrite Nat.eqb_sym in Hne.
    by rewrite Hne.
Qed.

(** ** What a factory that returns has done *)

Lemma added_same_registration self w1 w2 w' r :
  same_registration w1 w2 -> added self w2 w' r -> added self w1 w' r.
Proof.
  intros HR (Hm & Hw & Hc & Hf & Ho).
  destruct (HR self) as (Hw1 & _ & Hc1).
  split; [done|]. split; [by rewrite Hw, Hw1|].
  split; [by rewrite Hc, Hc1|]. split; [by rewrite <- Hw1|].
  intros b Hb. rewrite Ho by done. by destruct (HR b) as (? & _).
Qed.

Lemma on_ok_bind {A B} (c : M World A) (k : A -> M World B) Q :
  (forall w1 w2 w' r, same_registration w1 w2 -> Q w2 w' r -> Q w1 w' r) ->
  keeps same_registration c ->
  (forall a, on_ok Q (k a)) ->
  on_ok Q (bind c k).
Proof.
  intros HQ Hc Hk w w' r H.
  apply bind_Ok_inv in H as (a & w1 & Hc1 & Hk1).
  eapply HQ; [eapply Hc, Hc1 | eapply Hk, Hk1].
Qed.

(** The widget a factory registers after the binder has returned it: the
    binder's widget, possibly with a callback or a default value set. *)
Lemma on_ok_configure style_ok self widget attrs (K : Widget -> M World Widget) :
  (forall y w w' r,
     K y w = (w', Ok r) ->
     exists z, _id z = _id y /\ _append_widget self z w = (w', Ok r)) ->
  on_ok (added self) (bind (_configure_widget style_ok self widget attrs) K).
Proof.
  intros HK w w' r H.
  apply bind_Ok_inv in H as (y & w1 & Hc & Hk).
  apply configure_Ok_inv in Hc as (-> & -> & _ & Hid & _).
  apply HK in Hk as (z & Hz & Ha).
  apply append_Ok_inv in Ha as (Hm & -> & ->).
  assert (Hr : _id (as_registered (menu_at w self) z) = _id widget).
  { unfold as_registered. by destruct (_ && _). }
  split; [unfold as_registered; by destruct (_ && _)|].
  split; [by rewrite menu_at_registered|].
  split; [by rewrite menu_at_registered|].
  split; [rewrite Hr; by apply check_id_fresh|].
  intros b Hb. by rewrite menu_at_registered_ne.
Qed.

Ltac tail_tac :=
  let H := fresh in
  intros ? ? ? ? H;
  repeat
    match type of H with
    | bind (assert_ ?b _) _ _ = _ =>
        rewrite bind_assert in H; destruct b; [|discriminate]
    end;
  eexists; split; [|exact H]; reflexivity.

Ltac on_ok_tac :=
  repeat
    lazymatch goal with
    | |- forall _, _ => intro
    | |- on_ok _ (bind (_configure_widget _ _ _ _) _) =>
        apply on_ok_configure; tail_tac
    | |- on_ok _ (bind _ _) =>
        apply on_ok_bind;
        [ intros ? ? ? ?; apply added_same_registration
        | first [ assumption
                | solve [keeps_tac]
                | solve [apply keeps_same_menus_registration; auto] ]
        | ]
    | |- on_ok _ (if ?c then _ else _) => destruct c
    | |- on_ok _ (match ?x with _ => _ end) => destruct x
    | |- on_ok _ (raise _) => let H := fresh in intros ? ? ? H; discriminate H
    end.

Section Added.

Variable assert_color : value -> bool.

Variable assert_vector : value -> nat -> bool.

Variable uuid4 : nat -> string.

Variable init_ok : WidgetKind -> string -> string -> Dict.t -> bool.

Variable style_ok : Dict.t -> bool.

Variable selection_callback_ok : value -> bool.

Variable default_value_ok : value -> bool.

Lemma image_added self image_id onselect selectable params kwargs :
  on_ok (added self)
    (image assert_color assert_vector uuid4 init_ok style_ok self image_id
       onselect selectable params kwargs).
Proof. unfold image. cbv zeta. on_ok_tac. Qed.

Lemma text_input_added self title default onselect password textinput_id
    params kwargs :
  on_ok (added self)
    (text_input assert_color assert_vector uuid4 init_ok style_ok
       default_value_ok self title default onselect password textinput_id
       params kwargs).
Proof. unfold text_input. cbv zeta. on_ok_tac. Qed.

Lemma button_added depth self title action args kwargs :
  on_ok (added self)
    (button assert_color assert_vector uuid4 init_ok style_ok
       selection_callback_ok depth self title action args kwargs).
Proof. unfold button. cbv zeta. on_ok_tac. Qed.

End Added.

(** ** Keyword arguments *)

Lemma keywords_collide named kwargs k :
  Dict.get k kwargs <> None -> Dict.mem k named = true ->
  keywords named kwargs = Raise TypeError.
Proof.
  intros Hk Hn. unfold keywords.
  assert (existsb (fun k => Dict.mem k named) (Dict.keys kwargs) = true)
    as ->; [|done].
  apply existsb_exists. exists k. split; [|done].
  apply list_elem_of_In.
  destruct (decide (k ∈ Dict.keys kwargs)) as [|Hn']; [done|].
  by apply DictFacts.get_None_notin in Hn'.
Qed.

Lemma keywords_disjoint named kwargs :
  (forall k, k ∈ Dict.keys kwargs -> Dict.mem k named = false) ->
  keywords named kwargs = Ok (named ++ kwargs)%list.
Proof.
  intros H. unfold keywords.
  assert (existsb (fun k => Dict.mem k named) (Dict.keys kwargs) = false)
    as ->; [|done].
  apply not_true_is_false. intros E.
  apply existsb_exists in E as (k & Hk & Hm).
  apply list_elem_of_In in Hk. rewrite (H k Hk) in Hm. discriminate.
Qed.

(** ** The other factories *)

Section OtherRuns.

Variable assert_color : value -> bool.

Variable assert_vector : value -> nat -> bool.

Variable construct : WidgetClass -> Dict.t -> M World Widget.

Variable style_ok : Dict.t -> bool.

Variable set_default_value_ok : Widget -> value -> bool.

Variable int_other : value -> result Z.

Local Abbreviation resolve := (_filter_widget_attributes assert_color assert_vector).

Local Abbreviation accepts := (accepted assert_color assert_vector).

Local Abbreviation color_input' :=
  (color_input assert_color assert_vector construct style_ok
     set_default_value_ok).

Local Abbreviation selector' :=
  (selector assert_color assert_vector construct style_ok).

Local Abbreviation toggle_switch' :=
  (toggle_switch assert_color assert_vector construct style_ok
     set_default_value_ok int_other).

Local Abbreviation vertical_margin' :=
  (vertical_margin assert_color assert_vector construct style_ok).

Local Abbreviation none_widget' :=
  (none_widget assert_color assert_vector construct style_ok).

Local Abbreviation finish' := (finish style_ok).

Lemma bind_the_dict {B} (k : Dict.t -> M Dict.t B) d :
  bind the_dict k d = k d d.
Proof. reflexivity. Qed.

Lemma color_input_after_options self title color_type color_id default
    hex_format input_separator input_underline onchange onreturn onselect
    kwargs w :
  let theme := _theme (menu_at w self) in
  isinstance_str default || isinstance_tuple default = true ->
  accepts theme kwargs = true ->
  color_input' self title color_type color_id default hex_format
    input_separator input_underline onchange onreturn onselect kwargs w
  = match keywords
            (color_input_named theme title color_type color_id hex_format
               input_separator input_underline onchange onreturn onselect
               kwargs)
            (Dict.remove_all color_input_keys kwargs) with
    | Ok args =>
        bind (construct ColorInput args)
          (finish' self (bundle theme kwargs)
             (Some (set_default_value_ok, default))) w
    | Raise e => (w, Raise e)
    end.
Proof.
  intros theme Hty HA. unfold color_input.
  rewrite bind_assert, Hty, bind_get_menu_obj. cbv beta.
  unfold bind at 1, on_dict. unfold bind at 1. subst theme.
  rewrite (filter_ok _ _ _ _ HA).
  rewrite (bind_pop_all consumed_keys) by reflexivity. cbv beta.
  rewrite (bind_pop_all (consumed_keys ++ ["dynamic_width"])) by reflexivity.
  cbv beta.
  rewrite (bind_pop_all
             (consumed_keys ++ ["dynamic_width"; "input_underline_vmargin"]))
    by reflexivity.
  cbv beta.
  rewrite (bind_pop_all
             (consumed_keys ++ ["dynamic_width"; "input_underline_vmargin";
                                "previsualization_margin"]))
    by reflexivity.
  cbv beta. rewrite bind_the_dict, bind_lift.
  change ((consumed_keys ++ ["dynamic_width"; "input_underline_vmargin";
                             "previsualization_margin"]) ++
          ["previsualization_width"])%list with color_input_keys.
  fold (color_input_named (_theme (menu_at w self)) title color_type color_id
          hex_format input_separator input_underline onchange onreturn
          onselect kwargs).
  destruct (keywords _ _) as [args|e]; reflexivity.
Qed.

Lemma selector_after_options self title items default onchange onreturn
    onselect selector_id kwargs w :
  let theme := _theme (menu_at w self) in
  accepts theme kwargs = true ->
  selector' self title items default onchange onreturn onselect selector_id
    kwargs w
  = match keywords
            (selector_named title items default onchange onreturn onselect
               selector_id)
            (Dict.remove_all consumed_keys kwargs) with
    | Ok args =>
        bind (construct Selector args)
          (finish' self (bundle theme kwargs) None) w
    | Raise e => (w, Raise e)
    end.
Proof.
  intros theme HA. unfold selector.
  rewrite bind_get_menu_obj. cbv beta.
  unfold bind at 1, on_dict. unfold bind at 1. subst theme.
  rewrite (filter_ok _ _ _ _ HA).
  rewrite bind_the_dict, bind_lift.
  fold (selector_named title items default onchange onreturn onselect
          selector_id).
  destruct (keywords _ _) as [args|e]; reflexivity.
Qed.

Lemma toggle_switch_after_options self title default onchange toggleswitch_id
    state_text state_values kwargs w :
  let theme := _theme (menu_at w self) in
  isinstance_int default && in_zero_one default = true ->
  accepts theme kwargs = true ->
  toggle_switch' self title default onchange toggleswitch_id state_text
    state_values kwargs w
  = match int_ int_other (given kwargs "width" (VInt 150)) with
    | Ok state_width =>
        match keywords
                (toggle_switch_named title default onchange toggleswitch_id
                   state_text state_values state_width kwargs)
                (Dict.remove_all toggle_switch_keys kwargs) with
        | Ok args =>
            bind (construct ToggleSwitch args)
              (finish' self (bundle theme kwargs)
             (Some (set_default_value_ok, default))) w
        | Raise e => (w, Raise e)
        end
    | Raise e => (w, Raise e)
    end.
Proof.
  intros theme Hd HA. apply andb_prop in Hd as [Hi Hz]. unfold toggle_switch.
  rewrite Hi, bind_assert, Hz, bind_get_menu_obj. cbv beta.
  unfold bind at 1, on_dict. unfold bind at 1. subst theme.
  rewrite (filter_ok _ _ _ _ HA).
  rewrite (bind_pop_all consumed_keys) by reflexivity. cbv beta.
  do 10 (lazymatch goal with
         | |- context [bind (pop _ _) _ (Dict.remove_all ?ks kwargs)] =>
             rewrite (bind_pop_all ks) by reflexivity; cbv beta;
             rewrite <- app_assoc; cbn [app]
         end).
  fold toggle_switch_keys.
  rewrite bind_lift.
  destruct (int_ int_other _) as [state_width|e]; [|reflexivity].
  rewrite bind_the_dict, bind_lift.
  fold (toggle_switch_named title default onchange toggleswitch_id state_text
          state_values state_width kwargs).
  destruct (keywords _ _) as [args|e]; reflexivity.
Qed.

Lemma vertical_margin_after_checks self margin margin_id w :
  let theme := _theme (menu_at w self) in
  let kwargs := [("margin", VTuple [VInt 0; margin])] in
  isinstance_int_float margin = true ->
  positive_num margin = true ->
  accepts theme kwargs = true ->
  vertical_margin' self margin margin_id w
  = bind (construct VMargin [("widget_id", margin_id)])
      (finish' self (bundle theme kwargs) None) w.
Proof.
  intros theme kwargs Hty Hpos HA. unfold vertical_margin.
  rewrite bind_assert, Hty, bind_lift.
  unfold positive_num in Hpos. destruct (gt_zero margin) as [c|]; [|done].
  subst c. rewrite bind_assert, bind_get_menu_obj. cbv beta.
  unfold bind at 1, on_dict. subst theme kwargs.
  by rewrite (filter_ok _ _ _ _ HA).
Qed.

Lemma none_widget_after_checks self widget_id w :
  let theme := _theme (menu_at w self) in
  accepts theme [] = true ->
  none_widget' self widget_id w
  = bind (construct NoneWidget [("widget_id", widget_id)])
      (finish' self (bundle theme []) None) w.
Proof.
  intros theme HA. unfold none_widget.
  rewrite bind_get_menu_obj. cbv beta.
  unfold bind at 1, on_dict. subst theme.
  by rewrite (filter_ok _ _ _ _ HA).
Qed.

(** A built widget that is not bound yet, with an ID the menu does not
    hold, goes through the rest of the factory. *)
Lemma finish_run self attributes theme kwargs default x w :
  attributes = bundle theme kwargs ->
  accepts theme kwargs = true ->
  _menu x = None ->
  _check_id_duplicated (menu_at w self) (_id x) = Ok tt ->
  style_ok attributes = true ->
  match default with
  | Some (ok, v) => ok (with_style (with_menu x self) attributes) v = true
  | None => True
  end ->
  let widget :=
    match default with
    | Some (_, v) =>
        with_default_value (with_style (with_menu x self) attributes) v
    | None => with_style (with_menu x self) attributes
    end in
  finish' self attributes default x w
  = (registered self widget w, Ok (as_registered (menu_at w self) widget)).
Proof.
  intros -> HA Hm Hid Hs Hd widget. unfold finish.
  rewrite (bind_configure assert_color assert_vector style_ok) by done.
  destruct default as [[ok v]|].
  - rewrite bind_assert, Hd. by rewrite append_run.
  - by rewrite append_run.
Qed.

End OtherRuns.

Section OtherAtomicity.

Variable assert_color : value -> bool.

Variable assert_vector : value -> nat -> bool.

Variable construct : WidgetClass -> Dict.t -> M World Widget.

Variable style_ok : Dict.t -> bool.

Variable set_default_value_ok : Widget -> value -> bool.

Variable int_other : value -> result Z.

Hypothesis construct_keeps : forall c args, keeps same_menus (construct c args).

Local Abbreviation color_input' :=
  (color_input assert_color assert_vector construct style_ok
     set_default_value_ok).

Local Abbreviation selector' :=
  (selector assert_color assert_vector construct style_ok).

Local Abbreviation toggle_switch' :=
  (toggle_switch assert_color assert_vector construct style_ok
     set_default_value_ok int_other).

Local Abbreviation vertical_margin' :=
  (vertical_margin assert_color assert_vector construct style_ok).

Local Abbreviation none_widget' :=
  (none_widget assert_color assert_vector construct style_ok).

Lemma color_input_atomic self title color_type color_id default hex_format
    input_separator input_underline onchange onreturn onselect kwargs :
  atomic same_menus
    (color_input' self title color_type color_id default hex_format
       input_separator input_underline onchange onreturn onselect kwargs).
Proof. unfold color_input. cbv zeta. keeps_tac. all: apply construct_keeps. Qed.

Lemma selector_atomic self title items default onchange onreturn onselect
    selector_id kwargs :
  atomic same_menus
    (selector' self title items default onchange onreturn onselect
       selector_id kwargs).
Proof. unfold selector. cbv zeta. keeps_tac. all: apply construct_keeps. Qed.

Lemma toggle_switch_atomic self title default onchange toggleswitch_id
    state_text state_values kwargs :
  atomic same_menus
    (toggle_switch' self title default onchange toggleswitch_id state_text
       state_values kwargs).
Proof.
  unfold toggle_switch. cbv zeta. keeps_tac. all: apply construct_keeps.
Qed.

Lemma vertical_margin_atomic self margin margin_id :
  atomic same_menus (vertical_margin' self margin margin_id).
Proof.
  unfold vertical_margin. cbv zeta. keeps_tac. all: apply construct_keeps.
Qed.

Lemma none_widget_atomic self widget_id :
  atomic same_menus (none_widget' self widget_id).
Proof. unfold none_widget. cbv zeta. keeps_tac. all: apply construct_keeps. Qed.

Lemma color_input_added self title color_type color_id default hex_format
    input_separator input_underline onchange onreturn onselect kwargs :
  on_ok (added self)
    (color_input' self title color_type color_id default hex_format
       input_separator input_underline onchange onreturn onselect kwargs).
Proof. unfold color_input. cbv zeta. on_ok_tac. Qed.

Lemma selector_added self title items default onchange onreturn onselect
    selector_id kwargs :
  on_ok (added self)
    (selector' self title items default onchange onreturn onselect
       selector_id kwargs).
Proof. unfold selector. cbv zeta. on_ok_tac. Qed.

Lemma toggle_switch_added self title default onchange toggleswitch_id
    state_text state_values kwargs :
  on_ok (added self)
    (toggle_switch' self title default onchange toggleswitch_id state_text
       state_values kwargs).
Proof. unfold toggle_switch. cbv zeta. on_ok_tac. Qed.

Lemma vertical_margin_added self margin margin_id :
  on_ok (added self) (vertical_margin' self margin margin_id).
Proof. unfold vertical_margin. cbv zeta. on_ok_tac. Qed.

Lemma none_widget_added self widget_id :
  on_ok (added self) (none_widget' self widget_id).
Proof. unfold none_widget. cbv zeta. on_ok_tac. Qed.

End OtherAtomicity.

(** ** A widget the caller built *)

Lemma held_bind_get_widget {B} (k : Widget -> M Held.t B) w x :
  bind Held.get_widget k (w, x) = k x (w, x).
Proof. reflexivity. Qed.

Lemma held_bind_set_widget {B} y (k : unit -> M Held.t B) w x :
  bind (Held.set_widget y) k (w, x) = k tt (w, y).
Proof. reflexivity. Qed.

Lemma held_bind_get_menu_obj {B} a (k : Menu -> M Held.t B) w x :
  bind (Held.on_world (get_menu_obj a)) k (w, x) = k (menu_at w a) (w, x).
Proof. reflexivity. Qed.

Section HeldFacts.

Variable assert_color : value -> bool.

Variable assert_vector : value -> nat -> bool.

Variable style_ok : Dict.t -> bool.

Variable controls_ok : Widget -> bool.

Local Abbreviation accepts := (accepted assert_color assert_vector).

Local Abbreviation generic_widget' :=
  (Held.generic_widget assert_color assert_vector style_ok controls_ok).

(** The binder on a held widget and the binder on a widget's value agree
    on the outcome and on the widget returned; the held widget also shows
    what a failed call leaves of it. *)
Lemma held_configure_agrees self attrs w x :
  Held._configure_widget style_ok self attrs (w, x)
  = match (_configure_widget style_ok self x attrs w).2 with
    | Ok y => ((w, y), Ok tt)
    | Raise e => ((w, if bound x then x else with_menu x self), Raise e)
    end.
Proof.
  unfold Held._configure_widget, _configure_widget, bound.
  rewrite held_bind_get_widget, !bind_assert.
  destruct (_menu x) eqn:Hm; [reflexivity|].
  rewrite held_bind_set_widget, held_bind_get_menu_obj, held_bind_get_widget.
  rewrite bind_get_menu_obj, !bind_lift.
  change (_id (with_menu x self)) with (_id x).
  destruct (_check_id_duplicated _ _) as [[]|]; [|reflexivity].
  cbv iota. rewrite ?bind_lift.
  destruct (subscripts attrs configured_keys); [|reflexivity].
  destruct (subscript attrs "margin") as [margin|]; [|reflexivity].
  rewrite ?bind_lift. destruct (getitem margin 0); [|reflexivity].
  rewrite ?bind_lift. destruct (getitem margin 1); [|reflexivity].
  rewrite ?bind_assert. destruct (style_ok attrs); reflexivity.
Qed.

Lemma generic_widget_bound self configure_defaults w x :
  bound x = true ->
  generic_widget' self configure_defaults (w, x)
  = ((w, x),
     Raise (ValueError "widget to be added is already appended to another Menu")).
Proof.
  unfold bound. intros Hb. unfold Held.generic_widget.
  rewrite held_bind_get_widget. by destruct (_menu x).
Qed.

(** Without the defaults: the widget is bound, its ID checked, and it is
    registered as it is. *)
Lemma generic_widget_plain self w x :
  _menu x = None ->
  generic_widget' self false (w, x)
  = match _check_id_duplicated (menu_at w self) (_id x) with
    | Ok _ =>
        if controls_ok (with_menu x self) then
          ((registered self (with_menu x self) w,
            as_registered (menu_at w self) (with_menu x self)), Ok tt)
        else ((w, with_menu x self), Raise (AssertionError ""))
    | Raise e => ((w, with_menu x self), Raise e)
    end.
Proof.
  intros Hm. unfold Held.generic_widget.
  rewrite held_bind_get_widget, Hm. cbv iota.
  rewrite bind_ret, held_bind_get_widget, held_bind_set_widget.
  rewrite held_bind_get_menu_obj, held_bind_get_widget, bind_lift.
  change (_id (with_menu x self)) with (_id x).
  destruct (_check_id_duplicated _ _) as [[]|]; [|reflexivity].
  rewrite bind_assert. destruct (controls_ok _); [|reflexivity].
  unfold bind, Held.on_world. cbn [fst snd].
  by rewrite append_run.
Qed.

(** With the defaults: the theme's bundle is resolved and the binder run
    before the same steps. *)
Lemma generic_widget_defaults self w x :
  _menu x = None ->
  generic_widget' self true (w, x)
  = match (_filter_widget_attributes assert_color assert_vector
             (_theme (menu_at w self)) []).2 with
    | Ok attrs =>
        match (_configure_widget style_ok self x attrs w).2 with
        | Ok y =>
            if controls_ok y then
              ((registered self y w, as_registered (menu_at w self) y), Ok tt)
            else ((w, y), Raise (AssertionError ""))
        | Raise e => ((w, with_menu x self), Raise e)
        end
    | Raise e => ((w, x), Raise e)
    end.
Proof.
  intros Hm. unfold Held.generic_widget.
  rewrite held_bind_get_widget, Hm. cbv iota.
  rewrite !bind_bind, held_bind_get_menu_obj.
  unfold bind at 1. unfold Held.on_world at 1, on_dict. cbn [fst snd].
  destruct (_filter_widget_attributes _ _ _ _) as [d [attrs|e]];
    [|reflexivity].
  cbn [fst snd]. unfold bind at 1. rewrite held_configure_agrees.
  cbn [fst snd].
  destruct (_configure_widget style_ok self x attrs w) as [w1 [y|e]] eqn:E;
    cbn [snd]; [|unfold bound; by rewrite Hm].
  apply configure_Ok_inv in E as (-> & -> & _ & Hid & _).
  rewrite held_bind_get_widget, held_bind_set_widget.
  rewrite held_bind_get_menu_obj, held_bind_get_widget, bind_lift.
  change (_id (with_menu (with_style (with_menu x self) attrs) self))
    with (_id x).
  rewrite Hid. rewrite bind_assert.
  change (with_menu (with_style (with_menu x self) attrs) self)
    with (with_style (with_menu x self) attrs).
  destruct (controls_ok _); [|reflexivity].
  unfold bind, Held.on_world. cbn [fst snd].
  by rewrite append_run.
Qed.

Lemma generic_widget_raises_same_world self configure_defaults w x w' x' e :
  generic_widget' self configure_defaults (w, x) = ((w', x'), Raise e) ->
  w' = w.
Proof.
  destruct (_menu x) eqn:Hm.
  - rewrite generic_widget_bound by (unfold bound; by rewrite Hm).
    by intros [= <- _ _].
  - destruct configure_defaults.
    + rewrite generic_widget_defaults by done.
      destruct (_filter_widget_attributes _ _ _ _).2;
        [|by intros [= <- _ _]].
      destruct (_configure_widget _ _ _ _ _).2; [|by intros [= <- _ _]].
      destruct (controls_ok _); [discriminate|]. by intros [= <- _ _].
    + rewrite generic_widget_plain by done.
      destruct (_check_id_duplicated _ _); [|by intros [= <- _ _]].
      destruct (controls_ok _); [discriminate|]. by intros [= <- _ _].
Qed.

Lemma generic_widget_Ok_inv self configure_defaults w x w' x' :
  generic_widget' self configure_defaults (w, x) = ((w', x'), Ok tt) ->
  exists y,
    _menu x = None /\ _id y = _id x /\ _menu y = Some self
    /\ _check_id_duplicated (menu_at w self) (_id x) = Ok tt
    /\ w' = registered self y w
    /\ x' = as_registered (menu_at w self) y.
Proof.
  destruct (_menu x) eqn:Hm.
  - rewrite generic_widget_bound by (unfold bound; by rewrite Hm).
    discriminate.
  - destruct configure_defaults.
    + rewrite generic_widget_defaults by done.
      destruct (_filter_widget_attributes _ _ _ _).2 as [attrs|];
        [|discriminate].
      destruct (_configure_widget _ _ _ _ _) as [w1 [y|]] eqn:E;
        [|discriminate].
      cbn [snd]. apply configure_Ok_inv in E as (-> & -> & _ & Hid & _).
      destruct (controls_ok _); [|discriminate]. intros [= <- <-].
      by exists (with_style (with_menu x self) attrs).
    + rewrite generic_widget_plain by done.
      destruct (_check_id_duplicated _ _) as [[]|] eqn:Hid; [|discriminate].
      destruct (controls_ok _); [|discriminate]. intros [= <- <-].
      by exists (with_menu x self).
Qed.

End HeldFacts.

(** ** The other factories: what they check and what they build *)

Section OtherClaims.

Variable assert_color : value -> bool.

Variable assert_vector : value -> nat -> bool.

Variable construct : WidgetClass -> Dict.t -> M World Widget.

Variable style_ok : Dict.t -> bool.

Variable set_default_value_ok : Widget -> value -> bool.

Variable int_other : value -> result Z.

Local Abbreviation accepts := (accepted assert_color assert_vector).

Local Abbreviation color_input' :=
  (color_input assert_color assert_vector construct style_ok
     set_default_value_ok).

Local Abbreviation selector' :=
  (selector assert_color assert_vector construct style_ok).

Local Abbreviation toggle_switch' :=
  (toggle_switch assert_color assert_vector construct style_ok
     set_default_value_ok int_other).

Local Abbreviation vertical_margin' :=
  (vertical_margin assert_color assert_vector construct style_ok).

Local Abbreviation none_widget' :=
  (none_widget assert_color assert_vector construct style_ok).

(** X7: [vertical_margin] takes a number greater than zero: anything that
    is not an [int] or a [float], and any number that is not positive
    (zero, a negative number, a NaN), raises an [AssertionError] before the
    world is touched. *)
Theorem vertical_margin_rejects self margin margin_id w :
  (isinstance_int_float margin = false ->
   vertical_margin' self margin margin_id w = (w, Raise (AssertionError "")))
  /\ (isinstance_int_float margin = true ->
      positive_num margin = false ->
      vertical_margin' self margin margin_id w
      = (w, Raise (AssertionError
           "zero margin is not valid, prefer adding a NoneWidget menu.add.none_widget()"))).
Proof.
  unfold vertical_margin. split.
  - intros Hty. by rewrite bind_assert, Hty.
  - intros Hty Hpos. rewrite bind_assert, Hty, bind_lift.
    unfold positive_num in Hpos.
    destruct margin; try discriminate; simpl in *; by rewrite Hpos.
Qed.

(** X8: for a positive number, [vertical_margin] builds the [VMargin] from
    the ID alone and styles it as [none_widget] styles its widget, except
    for the margin, which is [(0, margin)] whatever the theme's margin is;
    the widget is then registered. *)
Theorem vertical_margin_run self margin margin_id w w1 x :
  let theme := _theme (menu_at w self) in
  let kwargs := [("margin", VTuple [VInt 0; margin])] in
  let widget := with_style (with_menu x self) (bundle theme kwargs) in
  isinstance_int_float margin = true ->
  positive_num margin = true ->
  accepts theme kwargs = true ->
  construct VMargin [("widget_id", margin_id)] w = (w1, Ok x) ->
  _menu x = None ->
  _check_id_duplicated (menu_at w1 self) (_id x) = Ok tt ->
  style_ok (bundle theme kwargs) = true ->
  vertical_margin' self margin margin_id w
  = (registered self widget w1, Ok (as_registered (menu_at w1 self) widget))
  /\ bundle theme kwargs
     = Dict.set "margin" (VTuple [VInt 0; margin]) (bundle theme [])
  /\ accepts theme kwargs
     = accepts theme [("margin", VTuple [VInt 0; VInt 0])].
Proof.
  intros theme kwargs widget Hty Hpos HA Hc Hm Hid Hs.
  split; [|split; reflexivity].
  rewrite vertical_margin_after_checks by done.
  erewrite bind_ok by exact Hc.
  by apply (finish_run assert_color assert_vector) with (theme := theme)
                                                       (kwargs := kwargs).
Qed.

(** X9: [none_widget] resolves the empty mapping: its widget is styled with
    the theme's bundle, in which each consumed key has the theme's default
    (as the resolver carries it), and is registered. *)
Theorem none_widget_run self widget_id w w1 x :
  let theme := _theme (menu_at w self) in
  let widget := with_style (with_menu x self) (bundle theme []) in
  accepts theme [] = true ->
  construct NoneWidget [("widget_id", widget_id)] w = (w1, Ok x) ->
  _menu x = None ->
  _check_id_duplicated (menu_at w1 self) (_id x) = Ok tt ->
  style_ok (bundle theme []) = true ->
  none_widget' self widget_id w
  = (registered self widget w1, Ok (as_registered (menu_at w1 self) widget))
  /\ _style (as_registered (menu_at w1 self) widget) = Some (bundle theme [])
  /\ forall k dflt,
       theme_default theme k = Some dflt ->
       Dict.get k (bundle theme []) = Some (carried theme [] k dflt).
Proof.
  intros theme widget HA Hc Hm Hid Hs. split; [|split].
  - rewrite none_widget_after_checks by done.
    erewrite bind_ok by exact Hc.
    by apply (finish_run assert_color assert_vector) with (theme := theme)
                                                         (kwargs := []).
  - unfold as_registered. by destruct (_ && _).
  - intros k dflt Hk. unfold theme_default in Hk.
    repeat match type of Hk with
    | (if String.eqb k ?s then _ else _) = _ =>
        destruct (String.eqb_spec k s) as [->|?];
        [injection Hk as <-; reflexivity|]
    end.
    discriminate.
Qed.

(** X10: [toggle_switch] checks its default state first: a value that is
    not an [int] (or [bool]) is a [ValueError], an [int] other than 0 and 1
    an [AssertionError], and the world is left as it was; the values that
    pass are exactly 0, 1, [False] and [True]. *)
Theorem toggle_switch_checks_default self title default onchange
    toggleswitch_id state_text state_values kwargs w :
  (isinstance_int default = false ->
   toggle_switch' self title default onchange toggleswitch_id state_text
     state_values kwargs w
   = (w, Raise (ValueError
                  "invalid value type, default can be 0, False, 1, or True")))
  /\ (isinstance_int default = true ->
      in_zero_one default = false ->
      toggle_switch' self title default onchange toggleswitch_id state_text
        state_values kwargs w
      = (w, Raise (AssertionError "default value can be 0 or 1")))
  /\ (isinstance_int default && in_zero_one default = true <->
      default ∈ [VInt 0; VInt 1; VBool false; VBool true]).
Proof.
  unfold toggle_switch. split; [|split].
  - by intros ->.
  - intros -> Hz. by rewrite bind_assert, Hz.
  - split.
    + intros H. apply andb_prop in H as [Hi Hz].
      destruct default as [|[]|n| | | | | | | | |]; try discriminate.
      * set_solver.
      * set_solver.
      * simpl in Hz. apply andb_prop in Hz as [H0 H1].
        apply Z.leb_le in H0, H1.
        assert (n = 0 \/ n = 1)%Z as [-> | ->] by lia; set_solver.
    + intros H. repeat (apply elem_of_cons in H as [->|H]; [reflexivity|]).
      by apply elem_of_nil in H.
Qed.

(** X11: a keyword that a factory writes itself in the constructor call
    cannot also come through the caller's mapping: [colorinput_id],
    [cursor_color], [cursor_switch_ms], [prev_margin] or
    [prev_width_factor] for [color_input], [elements] for [selector],
    [default_state] or [state_width] for [toggle_switch] make the call a
    [TypeError], once the arguments are checked and the attributes
    resolved; no widget is built and the world is as before. *)
Theorem repeated_keyword_raises self title kwargs k w :
  let theme := _theme (menu_at w self) in
  Dict.get k kwargs <> None ->
  accepts theme kwargs = true ->
  (k ∈ ["colorinput_id"; "cursor_color"; "cursor_switch_ms"; "prev_margin";
        "prev_width_factor"] ->
   forall color_type color_id default hex_format input_separator
          input_underline onchange onreturn onselect,
     isinstance_str default || isinstance_tuple default = true ->
     color_input' self title color_type color_id default hex_format
       input_separator input_underline onchange onreturn onselect kwargs w
     = (w, Raise TypeError))
  /\ (k = "elements" ->
      forall items default onchange onreturn onselect selector_id,
        selector' self title items default onchange onreturn onselect
          selector_id kwargs w
        = (w, Raise TypeError))
  /\ (k ∈ ["default_state"; "state_width"] ->
      forall default onchange toggleswitch_id state_text state_values
             state_width,
        isinstance_int default && in_zero_one default = true ->
        int_ int_other (given kwargs "width" (VInt 150)) = Ok state_width ->
        toggle_switch' self title default onchange toggleswitch_id state_text
          state_values kwargs w
        = (w, Raise TypeError)).
Proof.
  intros theme Hk HA. split; [|split].
  - intros Hin color_type color_id default hex_format input_separator
      input_underline onchange onreturn onselect Hty.
    rewrite color_input_after_options by done.
    rewrite (keywords_collide _ _ k); [done| |].
    + rewrite DictFacts.get_remove_all_notin; [done|].
      repeat (apply elem_of_cons in Hin as [->|Hin];
              [by apply (bool_decide_unpack _)|]).
      by apply elem_of_nil in Hin.
    + repeat (apply elem_of_cons in Hin as [->|Hin]; [reflexivity|]).
      by apply elem_of_nil in Hin.
  - intros -> items default onchange onreturn onselect selector_id.
    rewrite selector_after_options by done.
    rewrite (keywords_collide _ _ "elements"); [done| |reflexivity].
    by rewrite DictFacts.get_remove_all_notin
      by (by apply (bool_decide_unpack _)).
  - intros Hin default onchange toggleswitch_id state_text state_values
      state_width Hd Hw.
    rewrite toggle_switch_after_options by done. rewrite Hw.
    rewrite (keywords_collide _ _ k); [done| |].
    + rewrite DictFacts.get_remove_all_notin; [done|].
      repeat (apply elem_of_cons in Hin as [->|Hin];
              [by apply (bool_decide_unpack _)|]).
      by apply elem_of_nil in Hin.
    + repeat (apply elem_of_cons in Hin as [->|Hin]; [reflexivity|]).
      by apply elem_of_nil in Hin.
Qed.

End OtherClaims.

Lemma get_Some_elem_of k v d : Dict.get k d = Some v -> (k, v) ∈ d.
Proof.
  induction d as [|[k' v'] d IH]; simpl; [discriminate|].
  destruct (String.eqb_spec k' k) as [->|Hne].
  - intros [= ->]. left.
  - intros H. right. auto.
Qed.

Lemma keywords_Ok named kwargs args :
  keywords named kwargs = Ok args -> args = (named ++ kwargs)%list.
Proof. unfold keywords. destruct (existsb _ _); [discriminate|]. by intros [=]. Qed.

Section OtherBuilds.

Variable assert_color : value -> bool.

Variable assert_vector : value -> nat -> bool.

Variable construct : WidgetClass -> Dict.t -> M World Widget.

Variable style_ok : Dict.t -> bool.

Variable set_default_value_ok : Widget -> value -> bool.

Variable int_other : value -> result Z.

Local Abbreviation accepts := (accepted assert_color assert_vector).

Local Abbreviation color_input' :=
  (color_input assert_color assert_vector construct style_ok
     set_default_value_ok).

Local Abbreviation selector' :=
  (selector assert_color assert_vector construct style_ok).

Local Abbreviation toggle_switch' :=
  (toggle_switch assert_color assert_vector construct style_ok
     set_default_value_ok int_other).

(** X12: [selector] does not check what is left of the mapping: every key
    the resolver does not consume goes to the constructor of the
    [Selector] with its value, after the seven keywords [selector] writes
    itself; the widget the constructor returns is bound, styled with the
    bundle and registered. *)
Theorem selector_passes_unknown_keys self title items default onchange
    onreturn onselect selector_id kwargs args w w1 x :
  let theme := _theme (menu_at w self) in
  let named :=
    selector_named title items default onchange onreturn onselect
      selector_id in
  let rest := Dict.remove_all consumed_keys kwargs in
  let widget := with_style (with_menu x self) (bundle theme kwargs) in
  accepts theme kwargs = true ->
  keywords named rest = Ok args ->
  construct Selector args w = (w1, Ok x) ->
  _menu x = None ->
  _check_id_duplicated (menu_at w1 self) (_id x) = Ok tt ->
  style_ok (bundle theme kwargs) = true ->
  selector' self title items default onchange onreturn onselect selector_id
    kwargs w
  = (registered self widget w1, Ok (as_registered (menu_at w1 self) widget))
  /\ args = (named ++ rest)%list
  /\ forall k v, k ∉ consumed_keys -> Dict.get k kwargs = Some v ->
       (k, v) ∈ args.
Proof.
  intros theme named rest widget HA Hkw Hc Hm Hid Hs.
  pose proof (keywords_Ok _ _ _ Hkw) as Hargs. split; [|split; [done|]].
  - rewrite selector_after_options by done.
    fold named rest. rewrite Hkw. erewrite bind_ok by exact Hc.
    by apply (finish_run assert_color assert_vector) with (theme := theme)
                                                         (kwargs := kwargs).
  - intros k v Hk Hv. rewrite Hargs. apply elem_of_app. right.
    apply get_Some_elem_of. unfold rest.
    by rewrite DictFacts.get_remove_all_notin.
Qed.

(** X13: [toggle_switch] hands the constructor the switch options with the
    caller's value or their default, the width converted by [int] as
    [state_width] (150 when the caller gives none), and what is left of
    the mapping; a width [int] cannot convert raises what [int] raises and
    leaves the world as it was.  The widget the constructor returns is
    bound, styled, given the default state and registered. *)
Theorem toggle_switch_run self title default onchange toggleswitch_id
    state_text state_values kwargs w :
  let theme := _theme (menu_at w self) in
  let rest := Dict.remove_all toggle_switch_keys kwargs in
  isinstance_int default && in_zero_one default = true ->
  accepts theme kwargs = true ->
  (forall e,
     int_ int_other (given kwargs "width" (VInt 150)) = Raise e ->
     toggle_switch' self title default onchange toggleswitch_id state_text
       state_values kwargs w
     = (w, Raise e))
  /\ (forall state_width args w1 x,
        let named :=
          toggle_switch_named title default onchange toggleswitch_id
            state_text state_values state_width kwargs in
        let widget :=
          with_default_value
            (with_style (with_menu x self) (bundle theme kwargs)) default in
        int_ int_other (given kwargs "width" (VInt 150)) = Ok state_width ->
        keywords named rest = Ok args ->
        construct ToggleSwitch args w = (w1, Ok x) ->
        _menu x = None ->
        _check_id_duplicated (menu_at w1 self) (_id x) = Ok tt ->
        style_ok (bundle theme kwargs) = true ->
        set_default_value_ok
          (with_style (with_menu x self) (bundle theme kwargs)) default
        = true ->
        toggle_switch' self title default onchange toggleswitch_id
          state_text state_values kwargs w
        = (registered self widget w1,
           Ok (as_registered (menu_at w1 self) widget))
        /\ args = (named ++ rest)%list
        /\ _default_value (as_registered (menu_at w1 self) widget) = default
        /\ (Dict.get "width" kwargs = None -> state_width = VInt 150)).
Proof.
  intros theme rest Hd HA. split.
  - intros e He. rewrite toggle_switch_after_options by done. by rewrite He.
  - intros state_width args w1 x named widget Hw Hkw Hc Hm Hid Hs Hdef.
    split; [|split; [|split]].
    + rewrite toggle_switch_after_options by done. rewrite Hw.
      fold named rest. rewrite Hkw. erewrite bind_ok by exact Hc.
      by apply (finish_run assert_color assert_vector style_ok self _ theme
                  kwargs (Some (set_default_value_ok, default))).
    + by apply keywords_Ok.
    + unfold as_registered. by destruct ((_index _ <? 0)%Z && _).
    + intros Hnone. unfold given in Hw. rewrite Hnone in Hw.
      simpl in Hw. congruence.
Qed.

(** X14: [color_input] takes a string or a tuple as default and nothing
    else; it hands the constructor the cursor color and blink time of the
    theme and its four options with the caller's value or their default;
    the widget the constructor returns is bound, styled, given the default
    and registered. *)
Theorem color_input_run self title color_type color_id default hex_format
    input_separator input_underline onchange onreturn onselect kwargs w :
  let theme := _theme (menu_at w self) in
  let named :=
    color_input_named theme title color_type color_id hex_format
      input_separator input_underline onchange onreturn onselect kwargs in
  let rest := Dict.remove_all color_input_keys kwargs in
  (isinstance_str default || isinstance_tuple default = false ->
   color_input' self title color_type color_id default hex_format
     input_separator input_underline onchange onreturn onselect kwargs w
   = (w, Raise (AssertionError "")))
  /\ (forall args w1 x,
        let widget :=
          with_default_value
            (with_style (with_menu x self) (bundle theme kwargs)) default in
        isinstance_str default || isinstance_tuple default = true ->
        accepts theme kwargs = true ->
        keywords named rest = Ok args ->
        construct ColorInput args w = (w1, Ok x) ->
        _menu x = None ->
        _check_id_duplicated (menu_at w1 self) (_id x) = Ok tt ->
        style_ok (bundle theme kwargs) = true ->
        set_default_value_ok
          (with_style (with_menu x self) (bundle theme kwargs)) default
        = true ->
        color_input' self title color_type color_id default hex_format
          input_separator input_underline onchange onreturn onselect kwargs w
        = (registered self widget w1,
           Ok (as_registered (menu_at w1 self) widget))
        /\ args = (named ++ rest)%list
        /\ _default_value (as_registered (menu_at w1 self) widget) = default
        /\ subscript args "cursor_color" = Ok (Theme.cursor_color theme)
        /\ subscript args "cursor_switch_ms"
           = Ok (Theme.cursor_switch_ms theme)).
Proof.
  intros theme named rest. split.
  - intros Hty. unfold color_input. by rewrite bind_assert, Hty.
  - intros args w1 x widget Hty HA Hkw Hc Hm Hid Hs Hdef.
    pose proof (keywords_Ok _ _ _ Hkw) as Hargs.
    split; [|split; [done|split; [|split]]].
    + rewrite color_input_after_options by done.
      fold theme named rest. rewrite Hkw. erewrite bind_ok by exact Hc.
      by apply (finish_run assert_color assert_vector style_ok self _ theme
                  kwargs (Some (set_default_value_ok, default))).
    + unfold as_registered. by destruct ((_index _ <? 0)%Z && _).
    + by rewrite Hargs.
    + by rewrite Hargs.
Qed.

End OtherBuilds.

Lemma added_NoDup self w w' r :
  added self w w' r ->
  NoDup (map _id (_widgets (menu_at w self))) ->
  NoDup (map _id (_widgets (menu_at w' self))).
Proof.
  intros (_ & Hw & _ & Hf & _) Hnd. rewrite Hw, map_app. simpl.
  apply NoDup_app. split; [done|]. split; [|apply NoDup_singleton].
  intros i Hi Hr. apply list_elem_of_singleton in Hr as ->.
  apply list_elem_of_fmap in Hi as (x & Hx & Hin). by apply (Hf x).
Qed.

Section AllFactories.

Variable assert_color : value -> bool.

Variable assert_vector : value -> nat -> bool.

Variable uuid4 : nat -> string.

Variable init_ok : WidgetKind -> string -> string -> Dict.t -> bool.

Variable construct : WidgetClass -> Dict.t -> M World Widget.

Variable style_ok : Dict.t -> bool.

Variable selection_callback_ok : value -> bool.

Variable default_value_ok : value -> bool.

Variable set_default_value_ok : Widget -> value -> bool.

Variable int_other : value -> result Z.

Hypothesis construct_keeps : forall c args, keeps same_menus (construct c args).

Local Abbreviation button' :=
  (button assert_color assert_vector uuid4 init_ok style_ok
     selection_callback_ok).

Local Abbreviation image' :=
  (image assert_color assert_vector uuid4 init_ok style_ok).

Local Abbreviation text_input' :=
  (text_input assert_color assert_vector uuid4 init_ok style_ok
     default_value_ok).

Local Abbreviation color_input' :=
  (color_input assert_color assert_vector construct style_ok
     set_default_value_ok).

Local Abbreviation selector' :=
  (selector assert_color assert_vector construct style_ok).

Local Abbreviation toggle_switch' :=
  (toggle_switch assert_color assert_vector construct style_ok
     set_default_value_ok int_other).

Local Abbreviation vertical_margin' :=
  (vertical_margin assert_color assert_vector construct style_ok).

Local Abbreviation none_widget' :=
  (none_widget assert_color assert_vector construct style_ok).

Lemma added_appended_to self w w' r :
  added self w w' r -> appended_to self w w' r.
Proof. intros (? & ? & ? & _ & ?). by repeat split. Qed.

(** X15: when [button], [image] or [text_input] returns a widget, that
    widget is bound to the menu and is the last of the menu's list, which
    is otherwise as before; the counter of added widgets has grown by one
    and the lists of the other menus are untouched. *)
Theorem factory_registers_its_widget self w w' r :
  (forall depth title action args kwargs,
     button' depth self title action args kwargs w = (w', Ok r) ->
     appended_to self w w' r)
  /\ (forall image_id onselect selectable params kwargs,
        image' self image_id onselect selectable params kwargs w = (w', Ok r) ->
        appended_to self w w' r)
  /\ (forall title default onselect password textinput_id params kwargs,
        text_input' self title default onselect password textinput_id params
          kwargs w = (w', Ok r) ->
        appended_to self w w' r).
Proof.
  split; [|split]; intros; apply added_appended_to.
  - eapply button_added; eauto.
  - eapply image_added; eauto.
  - eapply text_input_added; eauto.
Qed.

(** X16: the same holds of [color_input], [selector], [toggle_switch],
    [vertical_margin] and [none_widget], for constructors that leave the
    menus alone. *)
Theorem other_factory_registers_its_widget self w w' r :
  (forall title color_type color_id default hex_format input_separator
          input_underline onchange onreturn onselect kwargs,
     color_input' self title color_type color_id default hex_format
       input_separator input_underline onchange onreturn onselect kwargs w
     = (w', Ok r) ->
     appended_to self w w' r)
  /\ (forall title items default onchange onreturn onselect selector_id kwargs,
        selector' self title items default onchange onreturn onselect
          selector_id kwargs w = (w', Ok r) ->
        appended_to self w w' r)
  /\ (forall title default onchange toggleswitch_id state_text state_values
             kwargs,
        toggle_switch' self title default onchange toggleswitch_id state_text
          state_values kwargs w = (w', Ok r) ->
        appended_to self w w' r)
  /\ (forall margin margin_id,
        vertical_margin' self margin margin_id w = (w', Ok r) ->
        appended_to self w w' r)
  /\ (forall widget_id,
        none_widget' self widget_id w = (w', Ok r) ->
        appended_to self w w' r).
Proof.
  split; [|split; [|split; [|split]]]; intros; apply added_appended_to.
  - eapply color_input_added; eauto.
  - eapply selector_added; eauto.
  - eapply toggle_switch_added; eauto.
  - eapply vertical_margin_added; eauto.
  - eapply none_widget_added; eauto.
Qed.

(** X17: a call of [color_input], [selector], [toggle_switch],
    [vertical_margin] or [none_widget] that raises leaves every menu as it
    was (widgets, index, counter, submenus), for constructors that leave
    the menus alone; these factories have no step like the submenu
    registration of [button]. *)
Theorem other_factory_failure_keeps_menus self w w' e :
  (forall title color_type color_id default hex_format input_separator
          input_underline onchange onreturn onselect kwargs,
     color_input' self title color_type color_id default hex_format
       input_separator input_underline onchange onreturn onselect kwargs w
     = (w', Raise e) ->
     same_menus w w')
  /\ (forall title items default onchange onreturn onselect selector_id kwargs,
        selector' self title items default onchange onreturn onselect
          selector_id kwargs w = (w', Raise e) ->
        same_menus w w')
  /\ (forall title default onchange toggleswitch_id state_text state_values
             kwargs,
        toggle_switch' self title default onchange toggleswitch_id state_text
          state_values kwargs w = (w', Raise e) ->
        same_menus w w')
  /\ (forall margin margin_id,
        vertical_margin' self margin margin_id w = (w', Raise e) ->
        same_menus w w')
  /\ (forall widget_id,
        none_widget' self widget_id w = (w', Raise e) ->
        same_menus w w').
Proof.
  split; [|split; [|split; [|split]]]; intros.
  - eapply color_input_atomic; eauto.
  - eapply selector_atomic; eauto.
  - eapply toggle_switch_atomic; eauto.
  - eapply vertical_margin_atomic; eauto.
  - eapply none_widget_atomic; eauto.
Qed.

(** X18: widget IDs stay unique: if no two widgets of the menu have the same
    ID, then none do after any of the eight factories that register one
    widget has returned. *)
Theorem ids_stay_unique self w w' r :
  NoDup (map _id (_widgets (menu_at w self))) ->
  (exists depth title action args kwargs,
     button' depth self title action args kwargs w = (w', Ok r))
  \/ (exists image_id onselect selectable params kwargs,
        image' self image_id onselect selectable params kwargs w = (w', Ok r))
  \/ (exists title default onselect password textinput_id params kwargs,
        text_input' self title default onselect password textinput_id params
          kwargs w = (w', Ok r))
  \/ (exists title color_type color_id default hex_format input_separator
             input_underline onchange onreturn onselect kwargs,
        color_input' self title color_type color_id default hex_format
          input_separator input_underline onchange onreturn onselect kwargs w
        = (w', Ok r))
  \/ (exists title items default onchange onreturn onselect selector_id kwargs,
        selector' self title items default onchange onreturn onselect
          selector_id kwargs w = (w', Ok r))
  \/ (exists title default onchange toggleswitch_id state_text state_values
             kwargs,
        toggle_switch' self title default onchange toggleswitch_id state_text
          state_values kwargs w = (w', Ok r))
  \/ (exists margin margin_id,
        vertical_margin' self margin margin_id w = (w', Ok r))
  \/ (exists widget_id, none_widget' self widget_id w = (w', Ok r)) ->
  NoDup (map _id (_widgets (menu_at w' self)))
  /\ forall x, x ∈ _widgets (menu_at w self) -> _id x <> _id r.
Proof.
  intros Hnd H.
  assert (added self w w' r) as Ha.
  { destruct H as [H|[H|[H|[H|[H|[H|[H|H]]]]]]];
      repeat (lazymatch type of H with ex _ => destruct H as [? H] end).
    - eapply button_added; eauto.
    - eapply image_added; eauto.
    - eapply text_input_added; eauto.
    - eapply color_input_added; eauto.
    - eapply selector_added; eauto.
    - eapply toggle_switch_added; eauto.
    - eapply vertical_margin_added; eauto.
    - eapply none_widget_added; eauto. }
  split; [by eapply added_NoDup|]. by destruct Ha as (_ & _ & _ & ? & _).
Qed.

End AllFactories.

(** ** Adding a widget the caller built *)

Section GenericWidget.

Variable assert_color : value -> bool.

Variable assert_vector : value -> nat -> bool.

Variable uuid4 : nat -> string.

Variable init_ok : WidgetKind -> string -> string -> Dict.t -> bool.

Variable style_ok : Dict.t -> bool.

Variable selection_callback_ok : value -> bool.

Variable default_value_ok : value -> bool.

Variable controls_ok : Widget -> bool.

Local Abbreviation accepts := (accepted assert_color assert_vector).

Local Abbreviation generic_widget' :=
  (Held.generic_widget assert_color assert_vector style_ok controls_ok).

Local Abbreviation button' :=
  (button assert_color assert_vector uuid4 init_ok style_ok
     selection_callback_ok).

Local Abbreviation image' :=
  (image assert_color assert_vector uuid4 init_ok style_ok).

Local Abbreviation text_input' :=
  (text_input assert_color assert_vector uuid4 init_ok style_ok
     default_value_ok).

(** X19: a widget is added once.  The widget that [button], [image] or
    [text_input] returned, and the widget that a call of [generic_widget]
    has added, is refused by [generic_widget] on every menu, in every
    world and with or without the defaults: the call raises a [ValueError]
    and changes neither the world nor the widget. *)
Theorem generic_widget_adds_once self w w' r :
  (exists depth title action args kwargs,
     button' depth self title action args kwargs w = (w', Ok r))
  \/ (exists image_id onselect selectable params kwargs,
        image' self image_id onselect selectable params kwargs w = (w', Ok r))
  \/ (exists title default onselect password textinput_id params kwargs,
        text_input' self title default onselect password textinput_id params
          kwargs w = (w', Ok r))
  \/ (exists configure_defaults x,
        generic_widget' self configure_defaults (w, x) = ((w', r), Ok tt)) ->
  forall other configure_defaults w0,
    generic_widget' other configure_defaults (w0, r)
    = ((w0, r), Raise already_added).
Proof.
  intros H other configure_defaults w0. apply generic_widget_bound.
  assert (_menu r = Some self) as Hm; [|unfold bound; by rewrite Hm].
  destruct H as [H|[H|[H|H]]];
    repeat (lazymatch type of H with ex _ => destruct H as [? H] end).
  - by eapply button_added in H as (? & _).
  - by eapply image_added in H as (? & _).
  - by eapply text_input_added in H as (? & _).
  - apply generic_widget_Ok_inv in H as (y & _ & _ & Hy & _ & _ & ->).
    unfold as_registered. by destruct (_ && _).
Qed.

(** X20: a call of [generic_widget] that fails on the ID leaves its mark on
    the widget: the widget was bound to the menu before the ID was
    checked, so the world is unchanged but the widget the caller holds is
    now bound, and every later attempt to add it, on any menu, is refused
    as already added. *)
Theorem generic_widget_failure_binds self configure_defaults w x e :
  _menu x = None ->
  _check_id_duplicated (menu_at w self) (_id x) = Raise e ->
  (configure_defaults = true ->
   accepts (_theme (menu_at w self)) [] = true) ->
  generic_widget' self configure_defaults (w, x)
  = ((w, with_menu x self), Raise e)
  /\ forall other configure_defaults' w0,
       generic_widget' other configure_defaults' (w0, with_menu x self)
       = ((w0, with_menu x self), Raise already_added).
Proof.
  intros Hm Hid HA. split; [|intros; by apply generic_widget_bound].
  destruct configure_defaults.
  - rewrite generic_widget_defaults by done.
    rewrite (filter_ok _ _ _ _ (HA eq_refl)). cbn [snd].
    unfold _configure_widget. rewrite bind_assert, Hm, bind_get_menu_obj.
    rewrite bind_lift. change (_id (with_menu x self)) with (_id x).
    by rewrite Hid.
  - rewrite generic_widget_plain by done. by rewrite Hid.
Qed.

(** X21: [generic_widget] on a widget that is not bound and whose ID is
    free: without the defaults the widget is bound and registered with
    the style it has, and the theme is not consulted; with the defaults
    it is first styled with the theme's bundle, which must resolve.  A
    call that raises leaves the world as it was. *)
Theorem generic_widget_run self w x :
  let theme := _theme (menu_at w self) in
  let m := menu_at w self in
  _menu x = None ->
  _check_id_duplicated m (_id x) = Ok tt ->
  (controls_ok (with_menu x self) = true ->
   generic_widget' self false (w, x)
   = ((registered self (with_menu x self) w,
       as_registered m (with_menu x self)), Ok tt)
   /\ _style (as_registered m (with_menu x self)) = _style x)
  /\ (let styled := with_style (with_menu x self) (bundle theme []) in
      accepts theme [] = true ->
      style_ok (bundle theme []) = true ->
      controls_ok styled = true ->
      generic_widget' self true (w, x)
      = ((registered self styled w, as_registered m styled), Ok tt))
  /\ (accepts theme [] = false ->
      exists e, generic_widget' self true (w, x) = ((w, x), Raise e))
  /\ forall configure_defaults w' x' e,
       generic_widget' self configure_defaults (w, x) = ((w', x'), Raise e) ->
       w' = w.
Proof.
  intros theme m Hm Hid. split; [|split; [|split]].
  - intros Hc. split.
    + rewrite generic_widget_plain by done. fold m. by rewrite Hid, Hc.
    + unfold as_registered. by destruct (_ && _).
  - intros styled HA Hs Hc. rewrite generic_widget_defaults by done.
    fold theme. rewrite (filter_ok _ _ _ _ HA). cbn [snd].
    pose proof (bind_configure assert_color assert_vector style_ok self x
                  theme [] ret w Hm Hid HA Hs) as Hcfg.
    unfold bind in Hcfg.
    destruct (_configure_widget style_ok self x (bundle theme []) w)
      as [w1 [y|e]]; [|discriminate].
    injection Hcfg as -> ->. cbn [snd]. fold styled. by rewrite Hc.
  - intros HA. rewrite generic_widget_defaults by done. fold theme.
    destruct (filter_raises _ _ _ _ HA) as (d & e & ->). by exists e.
  - intros. by eapply generic_widget_raises_same_world.
Qed.

End GenericWidget.

(** ** More about the first factories *)

Lemma remove_set_eq k v d : Dict.remove k (Dict.set k v d) = Dict.remove k d.
Proof.
  induction d as [|[k' v'] d IH]; simpl.
  - by rewrite String.eqb_refl.
  - destruct (String.eqb k' k) eqn:E; simpl.
    + by rewrite String.eqb_refl.
    + by rewrite E, IH.
Qed.

Lemma remove_set_ne k k' v d :
  k <> k' -> Dict.remove k' (Dict.set k v d) = Dict.set k v (Dict.remove k' d).
Proof.
  intros Hne. induction d as [|[k0 v0] d IH]; simpl.
  - destruct (String.eqb_spec k k'); done.
  - destruct (String.eqb_spec k0 k) as [->|Hk0]; simpl.
    + destruct (String.eqb_spec k k'); [done|]. simpl.
      by rewrite String.eqb_refl.
    + destruct (String.eqb_spec k0 k'); [done|]. simpl.
      destruct (String.eqb_spec k0 k); [done|]. by rewrite IH.
Qed.

Lemma remove_all_set_in k v ks d :
  k ∈ ks -> Dict.remove_all ks (Dict.set k v d) = Dict.remove_all ks d.
Proof.
  revert d. induction ks as [|k0 ks IH]; intros d Hin.
  - by apply elem_of_nil in Hin.
  - simpl. destruct (decide (k0 = k)) as [->|Hne].
    + by rewrite remove_set_eq.
    + apply elem_of_cons in Hin as [->|Hin]; [done|].
      rewrite remove_set_ne by done. by apply IH.
Qed.

Section FirstFactories.

Variable assert_color : value -> bool.

Variable assert_vector : value -> nat -> bool.

Variable uuid4 : nat -> string.

Variable init_ok : WidgetKind -> string -> string -> Dict.t -> bool.

Variable style_ok : Dict.t -> bool.

Variable selection_callback_ok : value -> bool.

Local Abbreviation accepts := (accepted assert_color assert_vector).

Local Abbreviation button' :=
  (button assert_color assert_vector uuid4 init_ok style_ok
     selection_callback_ok).

Local Abbreviation image' :=
  (image assert_color assert_vector uuid4 init_ok style_ok).

(** X22: [image] does not look at the font and shadow keys: whatever value
    the caller gives one of them, valid or not, the call does what it does
    without it. *)
Theorem image_ignores_font_keys self image_id onselect selectable params
    kwargs k v w :
  k ∈ image_discarded_keys ->
  image' self image_id onselect selectable params (Dict.set k v kwargs) w
  = image' self image_id onselect selectable params kwargs w.
Proof. intros Hk. unfold image. by rewrite remove_all_set_in. Qed.

(** X23: [button] checks its own options before anything else and for every
    action: a [back_count] that is not an [int] of at least 1, a
    [button_id] that is not a string or an [accept_kwargs] that is not a
    [bool] is an [AssertionError], also when the action is not [BACK];
    an action that is neither a menu, an event, a callable nor [None] is a
    [ValueError] once the options and the attributes are accepted.  The
    world is as before in both cases. *)
Theorem button_checks_its_options depth self title action args kwargs w :
  (button_options_ok kwargs = false ->
   exists msg,
     button' depth self title action args kwargs w
     = (w, Raise (AssertionError msg)))
  /\ (forall v,
        action = AOther v ->
        button_options_ok kwargs = true ->
        accepts (_theme (menu_at w self))
          (Dict.remove_all button_option_keys kwargs) = true ->
        button' depth self title action args kwargs w
        = (w, Raise invalid_action)).
Proof.
  split.
  - unfold button_options_ok. intros Ho. unfold button.
    rewrite bind_get_menu_obj. cbv beta. unfold bind at 1, on_dict.
    rewrite bind_pop, bind_assert.
    destruct (isinstance_int _ && one_le _); [|by eexists].
    rewrite bind_pop, bind_assert, given_remove_ne by done.
    destruct (isinstance_str _); [|by eexists].
    rewrite bind_pop, bind_assert, !given_remove_ne by done.
    destruct (isinstance_bool _); [discriminate|by eexists].
  - intros v -> Ho HA. by rewrite button_after_options by done.
Qed.

(** X24: with [accept_kwargs=True], [button] does not check what is left of
    the mapping, whatever the action: a callable receives the remaining
    keys with its arguments, and for an event or [None] they are dropped
    without a word.  The button is built, bound, styled and registered. *)
Theorem button_accepting_kwargs depth self title action args kwargs w :
  let theme := _theme (menu_at w self) in
  let m := menu_at w self in
  let options := Dict.remove_all button_option_keys kwargs in
  let rest := Dict.remove_all consumed_keys options in
  let bid := str_of (given kwargs "button_id" (VStr "")) in
  let lid := id_or_uuid uuid4 bid w in
  let widget :=
    button_widget theme options self title lid
      (given kwargs "onselect" VNone) false in
  button_options_ok kwargs = true ->
  truthy (given kwargs "accept_kwargs" (VBool false)) = true ->
  plain_action action = true ->
  accepts theme options = true ->
  init_ok KButton title bid
    (button_args action (given kwargs "back_count" (VInt 1)) args true rest)
  = true ->
  _check_id_duplicated m lid = Ok tt ->
  style_ok (bundle theme options) = true ->
  selection_callback_ok (given kwargs "onselect" VNone) = true ->
  button' depth self title action args kwargs w
  = (registered self widget (after_id bid w), Ok (as_registered m widget)).
Proof.
  intros theme m options rest bid lid widget Ho Hak Hact HA Hinit Hdup Hs Hsel.
  rewrite button_after_options by done.
  fold theme options rest bid. rewrite Hak. cbn [negb].
  assert (Hnew : forall extra B (K : Widget -> M World B),
             init_ok KButton title bid extra = true ->
             bind (new_widget uuid4 init_ok KButton title bid extra) K w
             = K (built KButton title lid) (after_id bid w)).
  { intros extra B K Hi. by rewrite (bind_new_widget_any uuid4 init_ok). }
  assert (Htail :
    bind (ret tt)
      (fun _ =>
         bind (_configure_widget style_ok self (built KButton title lid)
                 (bundle theme options))
           (fun widget0 =>
              bind (assert_ (selection_callback_ok
                               (given kwargs "onselect" VNone)) "")
                (fun _ => _append_widget self
                            (with_onselect widget0
                               (given kwargs "onselect" VNone)))))
      (after_id bid w)
    = (registered self widget (after_id bid w), Ok (as_registered m widget))).
  { rewrite bind_ret.
    rewrite (bind_configure assert_color assert_vector style_ok);
      [| reflexivity | by rewrite menu_at_after_id | done | done].
    rewrite bind_assert, Hsel. rewrite append_run by reflexivity.
    unfold registered, as_registered. by rewrite menu_at_after_id. }
  destruct action; try discriminate; cbv iota;
    by rewrite Hnew by exact Hinit.
Qed.

End FirstFactories.

(** ** Labels of any number of lines *)

Lemma split_lines_no_newline s :
  Forall (fun l => has_newline l = false) (split_lines s).
Proof.
  induction s as [|c s IH]; simpl; [by constructor|].
  destruct (Ascii.eqb c newline) eqn:E; [by constructor|].
  destruct (split_lines s) as [|l ls].
  - constructor; [|constructor]. simpl. by rewrite E.
  - inversion IH; subst. constructor; [|done]. simpl. by rewrite E.
Qed.

Lemma split_lines_nonempty s : (1 <= length (split_lines s))%nat.
Proof.
  induction s as [|c s IH]; simpl; [lia|].
  destruct (Ascii.eqb c newline); simpl; [lia|].
  destruct (split_lines s); simpl in *; lia.
Qed.

Lemma split_lines_length s :
  has_newline s = true -> (2 <= length (split_lines s))%nat.
Proof.
  induction s as [|c s IH]; simpl; [discriminate|].
  destruct (Ascii.eqb c newline) eqn:E; simpl.
  - intros _. pose proof (split_lines_nonempty s). lia.
  - intros H. specialize (IH H).
    destruct (split_lines s) as [|l ls]; simpl in *; lia.
Qed.

Lemma line_id_inj X i j : line_id X i = line_id X j -> i = j.
Proof.
  unfold line_id. intros H. apply append_inj_l in H.
  apply (append_inj_l "+") in H. apply (inj pretty) in H. lia.
Qed.

Section LabelAnyLines.

Variable assert_color : value -> bool.

Variable assert_vector : value -> nat -> bool.

Variable uuid4 : nat -> string.

Variable init_ok : WidgetKind -> string -> string -> Dict.t -> bool.

Variable style_ok : Dict.t -> bool.

Variable wrap : string -> Z -> result (list string).

Variable probe_max_char : Menu -> Widget -> string -> result Z.

Local Abbreviation accepts := (accepted assert_color assert_vector).

Local Abbreviation label' :=
  (label assert_color assert_vector uuid4 init_ok style_ok wrap
     probe_max_char).

Lemma check_id_appended m a i :
  _check_id_duplicated m i = Ok tt ->
  _id a <> i ->
  _check_id_duplicated (appended m a) i = Ok tt.
Proof.
  rewrite !check_id_fresh. intros H Ha x Hx.
  rewrite widgets_appended in Hx. apply elem_of_app in Hx as [Hx|Hx]; [auto|].
  apply list_elem_of_singleton in Hx as ->.
  unfold as_registered. by destruct (_ && _).
Qed.

Lemma label_lines_loop d self X onselect selectable kwargs theme ts :
  X <> "" ->
  accepts theme kwargs = true ->
  Dict.remove_all consumed_keys kwargs = [] ->
  style_ok (bundle theme kwargs) = true ->
  Forall (fun l => has_newline l = false) ts ->
  forall acc w,
    _theme (menu_at w self) = theme ->
    (forall i t, ts !! i = Some t ->
       init_ok KLabel t (line_id X (length acc + i)) [("onselect", onselect)]
       = true) ->
    (forall i, (i < length ts)%nat ->
       _check_id_duplicated (menu_at w self) (line_id X (length acc + i))
       = Ok tt) ->
    exists w' ws,
      (fix each (ts : list string) (widgets : list LabelResult)
         : M World (list LabelResult) :=
         match ts with
         | [] => ret widgets
         | t :: ts' =>
             let* wig :=
               label' (S d) self t
                 (X ++ "+" ++ pretty (length widgets + 1)%nat)
                 0 onselect selectable kwargs in
             each ts'
               (match wig with
                | Many l => (widgets ++ l)%list
                | One _ => (widgets ++ [wig])%list
                end)
         end) ts (map One acc) w
      = (w', Ok (map One (acc ++ ws)))
      /\ length ws = length ts
      /\ (forall i t, ts !! i = Some t ->
            exists a, ws !! i = Some a /\ kind a = KLabel
                      /\ _id a = line_id X (length acc + i) /\ _title a = t
                      /\ _menu a = Some self)
      /\ _widgets (menu_at w' self) = (_widgets (menu_at w self) ++ ws)%list
      /\ uuids_drawn w' = uuids_drawn w.
Proof.
  intros HX HA Hleft Hstyle Hts.
  induction Hts as [|t ts Ht Hts IH]; intros acc w Hth Hinit Hdup.
  - exists w, []. rewrite !app_nil_r.
    split; [done|]. split; [done|]. split; [|done].
    intros i t Hi. by rewrite lookup_nil in Hi.
  - assert (Hne : forall s, X ++ s <> "") by (by destruct X).
    set (a := label_widget theme kwargs self t (line_id X (length acc))
                onselect selectable).
    set (a' := as_registered (menu_at w self) a).
    assert (Hrun : label' (S d) self t
                     (X ++ "+" ++ pretty (length (map One acc) + 1)%nat) 0
                     onselect selectable kwargs w
                   = (registered self a w, Ok (One a'))).
    { rewrite length_map. fold (line_id X (length acc)).
      pose proof (label_line_run assert_color assert_vector uuid4 init_ok
                    style_ok wrap probe_max_char d self t
                    (line_id X (length acc)) onselect selectable kwargs w)
        as H.
      cbv zeta in H. rewrite Hth in H. apply H; try done.
      - apply Hne.
      - specialize (Hinit 0%nat t eq_refl). by rewrite Nat.add_0_r in Hinit.
      - specialize (Hdup 0%nat). rewrite Nat.add_0_r in Hdup. apply Hdup.
        simpl. lia. }
    assert (Ha'id : _id a' = line_id X (length acc)).
    { unfold a', as_registered. by destruct (_ && _). }
    destruct (IH (acc ++ [a'])%list (registered self a w))
      as (w' & ws & Hloop & Hlen & Hws & Hwid & Hu).
    + by rewrite menu_at_registered.
    + intros i t' Hi. rewrite length_app. simpl.
      replace (length acc + 1 + i)%nat with (length acc + S i)%nat by lia.
      by apply Hinit.
    + intros i Hi. rewrite length_app, menu_at_registered. simpl.
      replace (length acc + 1 + i)%nat with (length acc + S i)%nat by lia.
      apply check_id_appended; [apply Hdup; simpl; lia|].
      change (_id a) with (line_id X (length acc)).
      intros E. apply line_id_inj in E. lia.
    + exists w', (a' :: ws). split; [|split; [|split; [|split]]].
      * rewrite (bind_ok _ _ _ _ _ Hrun).
        replace (map One acc ++ [One a'])%list with (map One (acc ++ [a']))
          by (by rewrite map_app).
        rewrite Hloop. by rewrite <- app_assoc.
      * simpl. by rewrite Hlen.
      * intros [|i] t' Hi.
        -- injection Hi as <-. exists a'. rewrite Nat.add_0_r.
           split; [done|]. unfold a', as_registered.
           by destruct (_ && _).
        -- destruct (Hws i t' Hi) as (b & Hb & Hk & Hid & Hti & Hm).
           exists b. split; [done|]. split; [done|]. split; [|done].
           rewrite Hid, length_app. simpl. f_equal. lia.
      * rewrite Hwid, menu_at_registered, widgets_appended, <- app_assoc.
        reflexivity.
      * by rewrite Hu.
Qed.

(** X25: a label whose title has line breaks registers one label per line,
    however many lines there are: with base ID [X], line [i] (from 0)
    becomes a label with ID [X+(i+1)] and that line as its text, the
    labels are appended to the menu in the order of the lines and returned
    in that order, and no UUID is drawn.  (Default wrapping off; the
    attributes resolve with no key left, the constructor and the setters
    accept every line, and none of the IDs is in use.) *)
Theorem label_registers_every_line d self title X onselect selectable kwargs w :
  let theme := _theme (menu_at w self) in
  let m := menu_at w self in
  let lines := split_lines title in
  has_newline title = true ->
  X <> "" ->
  accepts theme kwargs = true ->
  Dict.remove_all consumed_keys kwargs = [] ->
  (forall i t, lines !! i = Some t ->
     init_ok KLabel t (line_id X i) [("onselect", onselect)] = true) ->
  (forall i, (i < length lines)%nat ->
     _check_id_duplicated m (line_id X i) = Ok tt) ->
  style_ok (bundle theme kwargs) = true ->
  exists w' ws,
    label' (S (S d)) self title X 0 onselect selectable kwargs w
    = (w', Ok (Many (map One ws)))
    /\ length ws = length lines
    /\ (2 <= length lines)%nat
    /\ (forall i t, lines !! i = Some t ->
          exists a, ws !! i = Some a /\ kind a = KLabel
                    /\ _id a = line_id X i /\ _title a = t
                    /\ _menu a = Some self)
    /\ _widgets (menu_at w' self) = (_widgets m ++ ws)%list
    /\ uuids_drawn w' = uuids_drawn w.
Proof.
  intros theme m lines Hnl HX HA Hleft Hinit Hdup Hstyle.
  destruct (label_lines_loop d self X onselect selectable kwargs theme lines
              HX HA Hleft Hstyle (split_lines_no_newline title) [] w eq_refl
              Hinit Hdup)
    as (w' & ws & Hloop & Hlen & Hws & Hwid & Hu).
  exists w', ws. split; [|split; [done|split; [|done]]].
  - remember (S d) as d1 eqn:Hd. cbn [label].
    rewrite bind_assert. change (-1 <=? 0)%Z with true. cbv iota.
    assert (HXl : (String.length X =? 0)%nat = false).
    { destruct X; [done|reflexivity]. }
    rewrite HXl, bind_ret, Hnl. subst d1.
    fold lines. change (@nil LabelResult) with (map One []).
    by rewrite (bind_ok _ _ _ _ _ Hloop).
  - by apply split_lines_length.
Qed.

Lemma label_wrapped_loop d self X max_char onselect selectable kwargs theme ls :
  X <> "" ->
  (0 < max_char)%Z ->
  accepts theme kwargs = true ->
  Dict.remove_all consumed_keys kwargs = [] ->
  style_ok (bundle theme kwargs) = true ->
  Forall (fits max_char) ls ->
  forall acc w,
    _theme (menu_at w self) = theme ->
    (forall i t, ls !! i = Some t ->
       init_ok KLabel t (line_id X (length acc + i)) [("onselect", onselect)]
       = true) ->
    (forall i, (i < length ls)%nat ->
       _check_id_duplicated (menu_at w self) (line_id X (length acc + i))
       = Ok tt) ->
    exists w' ws,
      (fix each (ls : list string) (widget : list LabelResult)
         : M World (list LabelResult) :=
         match ls with
         | [] => ret widget
         | line :: ls' =>
             let* r :=
               label' (S d) self line
                 (X ++ "+" ++ pretty (length widget + 1)%nat)
                 max_char onselect selectable kwargs in
             each ls' (widget ++ [r])%list
         end) ls (map One acc) w
      = (w', Ok (map One (acc ++ ws)))
      /\ length ws = length ls
      /\ (forall i t, ls !! i = Some t ->
            exists a, ws !! i = Some a /\ kind a = KLabel
                      /\ _id a = line_id X (length acc + i) /\ _title a = t
                      /\ _menu a = Some self)
      /\ _widgets (menu_at w' self) = (_widgets (menu_at w self) ++ ws)%list
      /\ uuids_drawn w' = uuids_drawn w.
Proof.
  intros HX Hmc HA Hleft Hstyle Hls.
  induction Hls as [|t ls [Ht Hfit] Hls IH]; intros acc w Hth Hinit Hdup.
  - exists w, []. rewrite !app_nil_r.
    split; [done|]. split; [done|]. split; [|done].
    intros i t Hi. by rewrite lookup_nil in Hi.
  - assert (Hne : forall s, X ++ s <> "") by (by destruct X).
    set (a := label_widget theme kwargs self t (line_id X (length acc))
                onselect selectable).
    set (a' := as_registered (menu_at w self) a).
    assert (Hrun : label' (S d) self t
                     (X ++ "+" ++ pretty (length (map One acc) + 1)%nat)
                     max_char onselect selectable kwargs w
                   = (registered self a w, Ok (One a'))).
    { rewrite length_map. fold (line_id X (length acc)).
      pose proof (label_single_run assert_color assert_vector uuid4 init_ok
                    style_ok wrap probe_max_char d self t
                    (line_id X (length acc)) max_char onselect selectable
                    kwargs w)
        as H.
      assert (Hl : (String.length (line_id X (length acc)) =? 0)%nat = false).
      { unfold line_id. destruct X; [done|reflexivity]. }
      cbv zeta in H. rewrite Hl, Hth in H. apply H; try done.
      - lia.
      - apply orb_true_iff. left. by apply Z.leb_le.
      - apply Hne.
      - specialize (Hinit 0%nat t eq_refl). by rewrite Nat.add_0_r in Hinit.
      - specialize (Hdup 0%nat). rewrite Nat.add_0_r in Hdup. apply Hdup.
        simpl. lia. }
    destruct (IH (acc ++ [a'])%list (registered self a w))
      as (w' & ws & Hloop & Hlen & Hws & Hwid & Hu).
    + by rewrite menu_at_registered.
    + intros i t' Hi. rewrite length_app. simpl.
      replace (length acc + 1 + i)%nat with (length acc + S i)%nat by lia.
      by apply Hinit.
    + intros i Hi. rewrite length_app, menu_at_registered. simpl.
      replace (length acc + 1 + i)%nat with (length acc + S i)%nat by lia.
      apply check_id_appended; [apply Hdup; simpl; lia|].
      change (_id a) with (line_id X (length acc)).
      intros E. apply line_id_inj in E. lia.
    + exists w', (a' :: ws). split; [|split; [|split; [|split]]].
      * rewrite (bind_ok _ _ _ _ _ Hrun).
        replace (map One acc ++ [One a'])%list with (map One (acc ++ [a']))
          by (by rewrite map_app).
        rewrite Hloop. by rewrite <- app_assoc.
      * simpl. by rewrite Hlen.
      * intros [|i] t' Hi.
        -- injection Hi as <-. exists a'. rewrite Nat.add_0_r.
           split; [done|]. unfold a', as_registered.
           by destruct (_ && _).
        -- destruct (Hws i t' Hi) as (b & Hb & Hk & Hid & Hti & Hm).
           exists b. split; [done|]. split; [done|]. split; [|done].
           rewrite Hid, length_app. simpl. f_equal. lia.
      * rewrite Hwid, menu_at_registered, widgets_appended, <- app_assoc.
        reflexivity.
      * by rewrite Hu.
Qed.

(** X26: a label of one line that is longer than [max_char] is wrapped.
    The base ID [X] must be free although no widget takes it: if it is in
    use the call raises before anything is registered.  Otherwise each
    line that [textwrap.wrap] returns becomes a label with ID [X+(i+1)],
    registered in order, when the lines fit [max_char]. *)
Theorem label_wraps_long_title d self title X max_char onselect selectable
    kwargs w :
  let theme := _theme (menu_at w self) in
  let m := menu_at w self in
  has_newline title = false ->
  X <> "" ->
  (0 < max_char < Z.of_nat (String.length title))%Z ->
  (forall e,
     _check_id_duplicated m X = Raise e ->
     label' (S (S d)) self title X max_char onselect selectable kwargs w
     = (w, Raise e))
  /\ (forall lines,
        _check_id_duplicated m X = Ok tt ->
        wrap title max_char = Ok lines ->
        Forall (fits max_char) lines ->
        accepts theme kwargs = true ->
        Dict.remove_all consumed_keys kwargs = [] ->
        (forall i t, lines !! i = Some t ->
           init_ok KLabel t (line_id X i) [("onselect", onselect)] = true) ->
        (forall i, (i < length lines)%nat ->
           _check_id_duplicated m (line_id X i) = Ok tt) ->
        style_ok (bundle theme kwargs) = true ->
        exists w' ws,
          label' (S (S d)) self title X max_char onselect selectable kwargs w
          = (w', Ok (Many (map One ws)))
          /\ length ws = length lines
          /\ (forall i t, lines !! i = Some t ->
                exists a, ws !! i = Some a /\ kind a = KLabel
                          /\ _id a = line_id X i /\ _title a = t
                          /\ _menu a = Some self)
          /\ _widgets (menu_at w' self) = (_widgets m ++ ws)%list).
Proof.
  intros theme m Hnl HX Hmc.
  assert (HXl : (String.length X =? 0)%nat = false).
  { destruct X; [done|reflexivity]. }
  assert (H1 : (-1 <=? max_char)%Z = true) by (apply Z.leb_le; lia).
  assert (H2 : (max_char <? 0)%Z = false) by (apply Z.ltb_ge; lia).
  assert (H3 : (Z.of_nat (String.length title) <=? max_char)%Z
               || (max_char =? 0)%Z = false).
  { apply orb_false_iff. split; [apply Z.leb_gt|apply Z.eqb_neq]; lia. }
  split.
  - intros e He. remember (S d) as d1 eqn:Hd. cbn [label].
    rewrite bind_assert, H1, HXl, bind_ret, Hnl, bind_get_menu_obj, H2.
    rewrite bind_ret, H3, bind_get_menu_obj, bind_lift. fold m.
    by rewrite He.
  - intros lines Hx Hwrap Hfits HA Hleft Hinit Hdup Hstyle.
    destruct (label_wrapped_loop d self X max_char onselect selectable kwargs
                theme lines HX (proj1 Hmc) HA Hleft Hstyle Hfits [] w eq_refl
                Hinit Hdup)
      as (w' & ws & Hloop & Hlen & Hws & Hwid & Hu).
    exists w', ws. split; [|done].
    remember (S d) as d1 eqn:Hd. cbn [label].
    rewrite bind_assert, H1, HXl, bind_ret, Hnl, bind_get_menu_obj, H2.
    rewrite bind_ret, H3, bind_get_menu_obj, bind_lift. fold m.
    rewrite Hx, bind_lift, Hwrap. subst d1.
    change (@nil LabelResult) with (map One []).
    by rewrite (bind_ok _ _ _ _ _ Hloop).
Qed.

End LabelAnyLines.

(** ** Instances *)

Lemma resolver_touches_only_its_keys_witness :
  Dict.get "foo" (demo_resolve demo_kwargs).1 = Dict.get "foo" demo_kwargs
  /\ Dict.keys (demo_resolve demo_kwargs).1
     = filter (fun k => k ∉ consumed_keys) (Dict.keys demo_kwargs).
Proof.
  destruct (resolver_touches_only_its_keys assert_color_ref assert_vector_ref
              sample_theme demo_kwargs (demo_resolve demo_kwargs).1
              (demo_resolve demo_kwargs).2) as [H1 H2].
  - apply surjective_pairing.
  - split; [apply H1; by apply (bool_decide_unpack _)|].
    apply H2. vm_compute. reflexivity.
Defined.

Lemma resolver_bundle_is_readable_witness :
  subscripts (bundle sample_theme demo_kwargs) configured_keys = Ok tt
  /\ subscript (bundle sample_theme demo_kwargs) "font_antialias"
     = Ok (Theme.widget_font_antialias sample_theme).
Proof.
  destruct (resolver_bundle_is_readable assert_color_ref assert_vector_ref
              sample_theme demo_kwargs
              (Dict.remove_all consumed_keys demo_kwargs)
              (bundle sample_theme demo_kwargs))
    as (_ & H1 & _ & H2); [vm_compute; reflexivity|].
  by split.
Defined.

Lemma resolver_reads_only_its_keys_witness :
  is_ok (demo_resolve [("foo", VInt 1)]).2 = is_ok (demo_resolve []).2.
Proof.
  apply (resolver_reads_only_its_keys assert_color_ref assert_vector_ref
           sample_theme [("foo", VInt 1)] []).
  intros k Hk.
  repeat (apply elem_of_cons in Hk as [->|Hk]; [reflexivity|]).
  by apply elem_of_nil in Hk.
Defined.

Lemma append_widget_effect_witness :
  exists r,
    _append_widget 0%nat (demo_widget KButton "b" true) demo_world
    = (registered 0%nat (demo_widget KButton "b" true) demo_world, Ok r)
    /\ _id r = "b" /\ selected r = true.
Proof.
  destruct (proj1 (append_widget_effect 0%nat (demo_widget KButton "b" true)
                     demo_world) eq_refl)
    as (r & Hrun & _ & _ & _ & _ & Hid & _).
  exists r. split; [exact Hrun|]. split; [exact Hid|].
  rewrite append_run in Hrun by reflexivity. by injection Hrun as <-.
Defined.

Lemma demo_world_selection_valid a : selection_valid (menu_at demo_world a).
Proof.
  left. unfold menu_at, demo_world. cbn [menus].
  destruct (decide (a = 0%nat)) as [->|?]; [by rewrite lookup_total_insert_eq|].
  rewrite lookup_total_insert_ne by done.
  destruct (decide (a = 1%nat)) as [->|?]; [by rewrite lookup_total_insert_eq|].
  rewrite lookup_total_insert_ne by done. by rewrite lookup_total_empty.
Qed.

Lemma configure_binds_once_witness :
  _configure_widget demo_style_ok 1%nat
    (with_style (with_menu (loose_widget "x") 0%nat) (bundle sample_theme []))
    [] demo_world
  = (demo_world,
     Raise (AssertionError "widget cannot have an instance of menu")).
Proof.
  destruct (configure_binds_once demo_style_ok 0%nat (loose_widget "x")
              (bundle sample_theme []) demo_world demo_world
              (with_style (with_menu (loose_widget "x") 0%nat)
                 (bundle sample_theme [])))
    as (_ & _ & _ & _ & H); [vm_compute; reflexivity|].
  apply H.
Defined.

Lemma configure_then_append_witness :
  _append_widget 1%nat
    (with_style (with_menu (loose_widget "x") 0%nat) (bundle sample_theme []))
    demo_world
  = (demo_world,
     Raise (AssertionError "widget cannot have a different instance of menu")).
Proof.
  destruct (configure_then_append demo_style_ok 0%nat (loose_widget "x")
              (bundle sample_theme []) demo_world demo_world
              (with_style (with_menu (loose_widget "x") 0%nat)
                 (bundle sample_theme [])))
    as (_ & H); [vm_compute; reflexivity|].
  by apply H.
Defined.

Lemma vertical_margin_rejects_witness :
  demo_vertical_margin 0%nat (VInt 0) (VStr "gap") demo_world
  = (demo_world,
     Raise (AssertionError
       "zero margin is not valid, prefer adding a NoneWidget menu.add.none_widget()"))
  /\ demo_vertical_margin 0%nat (VStr "10") (VStr "gap") demo_world
     = (demo_world, Raise (AssertionError "")).
Proof.
  split.
  - apply (proj2 (vertical_margin_rejects assert_color_ref assert_vector_ref
                    (demo_construct id_keyword) demo_style_ok 0%nat (VInt 0)
                    (VStr "gap") demo_world)); reflexivity.
  - apply (proj1 (vertical_margin_rejects assert_color_ref assert_vector_ref
                    (demo_construct id_keyword) demo_style_ok 0%nat (VStr "10")
                    (VStr "gap") demo_world)); reflexivity.
Defined.

Lemma vertical_margin_run_witness :
  exists w' r,
    demo_vertical_margin 0%nat (VInt 10) (VStr "gap") demo_world = (w', Ok r)
    /\ bundle sample_theme [("margin", VTuple [VInt 0; VInt 10])]
       = Dict.set "margin" (VTuple [VInt 0; VInt 10]) (bundle sample_theme []).
Proof.
  eexists _, _.
  destruct (vertical_margin_run assert_color_ref assert_vector_ref
              (demo_construct id_keyword) demo_style_ok
              0%nat (VInt 10) (VStr "gap")
              demo_world demo_world (demo_built "gap" ""))
    as (H1 & H2 & _); try reflexivity.
  split; [exact H1|exact H2].
Defined.

Lemma none_widget_run_witness :
  exists w' r,
    demo_none_widget 0%nat (VStr "none") demo_world = (w', Ok r)
    /\ _style r = Some (bundle sample_theme []).
Proof.
  destruct (none_widget_run assert_color_ref assert_vector_ref
              (demo_construct id_keyword) demo_style_ok 0%nat (VStr "none")
              demo_world demo_world (demo_built "none" ""))
    as (H1 & H2 & _); try reflexivity.
  eexists _, _. split; [exact H1|exact H2].
Defined.

Lemma toggle_switch_checks_default_witness :
  demo_toggle_switch 0%nat (VStr "t") (VInt 2) VNone (VStr "id")
    (VTuple [VStr "Off"; VStr "On"]) (VTuple [VBool false; VBool true]) []
    demo_world
  = (demo_world, Raise (AssertionError "default value can be 0 or 1"))
  /\ demo_toggle_switch 0%nat (VStr "t") (VStr "1") VNone (VStr "id")
       (VTuple [VStr "Off"; VStr "On"]) (VTuple [VBool false; VBool true]) []
       demo_world
     = (demo_world,
        Raise (ValueError
                 "invalid value type, default can be 0, False, 1, or True")).
Proof.
  split.
  - apply (toggle_switch_checks_default assert_color_ref assert_vector_ref
             (demo_construct id_keyword) demo_style_ok
             demo_set_default_value_ok demo_int_other);
      reflexivity.
  - apply (toggle_switch_checks_default assert_color_ref assert_vector_ref
             (demo_construct id_keyword) demo_style_ok
             demo_set_default_value_ok demo_int_other);
      reflexivity.
Defined.

Lemma repeated_keyword_raises_witness :
  demo_color_input 0%nat (VStr "c") (VStr "rgb") (VStr "id") (VStr "")
    (VStr "none") (VStr ",") (VStr "_") VNone VNone VNone
    [("cursor_color", rgb 1 2 3)] demo_world
  = (demo_world, Raise TypeError)
  /\ demo_selector 0%nat (VStr "c") (VList []) (VInt 0) VNone VNone VNone
       (VStr "id") [("elements", VList [])] demo_world
     = (demo_world, Raise TypeError)
  /\ demo_toggle_switch 0%nat (VStr "c") (VInt 0) VNone (VStr "id")
       (VTuple [VStr "Off"; VStr "On"]) (VTuple [VBool false; VBool true])
       [("state_width", VInt 100)] demo_world
     = (demo_world, Raise TypeError).
Proof.
  split; [|split].
  - apply (proj1 (repeated_keyword_raises assert_color_ref assert_vector_ref
                    (demo_construct id_keyword) demo_style_ok
                    demo_set_default_value_ok demo_int_other 0%nat (VStr "c")
                    [("cursor_color", rgb 1 2 3)] "cursor_color" demo_world
                    ltac:(discriminate) eq_refl));
      [by apply (bool_decide_unpack _) | reflexivity].
  - apply (proj1 (proj2
             (repeated_keyword_raises assert_color_ref assert_vector_ref
                (demo_construct id_keyword) demo_style_ok
                demo_set_default_value_ok demo_int_other 0%nat (VStr "c")
                [("elements", VList [])] "elements" demo_world
                ltac:(discriminate) eq_refl))).
    reflexivity.
  - apply (proj2 (proj2
             (repeated_keyword_raises assert_color_ref assert_vector_ref
                (demo_construct id_keyword) demo_style_ok
                demo_set_default_value_ok demo_int_other 0%nat (VStr "c")
                [("state_width", VInt 100)] "state_width" demo_world
                ltac:(discriminate) eq_refl))
           ltac:(by apply (bool_decide_unpack _)) (VInt 0) VNone (VStr "id")
           (VTuple [VStr "Off"; VStr "On"]) (VTuple [VBool false; VBool true])
           (VInt 150));
      reflexivity.
Defined.

Lemma selector_passes_unknown_keys_witness :
  exists w' r args,
    demo_selector 0%nat (VStr "c") (VList []) (VInt 0) VNone VNone VNone
      (VStr "id") [("font_size", VInt 20); ("foo", VInt 1)] demo_world
    = (w', Ok r)
    /\ demo_construct id_keyword Selector args demo_world
       = (demo_world, Ok (demo_built "id" "c"))
    /\ ("foo", VInt 1) ∈ args.
Proof.
  destruct (selector_passes_unknown_keys assert_color_ref assert_vector_ref
              (demo_construct id_keyword) demo_style_ok 0%nat (VStr "c")
              (VList []) (VInt 0) VNone VNone VNone (VStr "id")
              [("font_size", VInt 20); ("foo", VInt 1)]
              (selector_named (VStr "c") (VList []) (VInt 0) VNone VNone VNone
                 (VStr "id") ++ [("foo", VInt 1)])%list
              demo_world demo_world (demo_built "id" "c"))
    as (H1 & _ & H3); try reflexivity.
  eexists _, _,
    (selector_named (VStr "c") (VList []) (VInt 0) VNone VNone VNone
       (VStr "id") ++ [("foo", VInt 1)])%list.
  split; [exact H1|]. split; [reflexivity|].
  apply H3; [by apply (bool_decide_unpack _)|reflexivity].
Defined.

Lemma toggle_switch_run_witness :
  exists w' r,
    demo_toggle_switch 0%nat (VStr "c") (VBool true) VNone (VStr "id")
      (VTuple [VStr "Off"; VStr "On"]) (VTuple [VBool false; VBool true])
      [("slider_thickness", VInt 5); ("foo", VInt 1)] demo_world
    = (w', Ok r)
    /\ _default_value r = VBool true.
Proof.
  destruct (toggle_switch_run assert_color_ref assert_vector_ref
              (demo_construct id_keyword) demo_style_ok
              demo_set_default_value_ok demo_int_other 0%nat (VStr "c")
              (VBool true) VNone (VStr "id")
              (VTuple [VStr "Off"; VStr "On"])
              (VTuple [VBool false; VBool true])
              [("slider_thickness", VInt 5); ("foo", VInt 1)] demo_world
              eq_refl eq_refl) as (_ & H).
  destruct (H (VInt 150)
              (toggle_switch_named (VStr "c") (VBool true) VNone (VStr "id")
                 (VTuple [VStr "Off"; VStr "On"])
                 (VTuple [VBool false; VBool true]) (VInt 150)
                 [("slider_thickness", VInt 5); ("foo", VInt 1)]
               ++ [("foo", VInt 1)])%list
              demo_world (demo_built "id" "c"))
    as (H1 & _ & H3 & _); try reflexivity.
  eexists _, _. split; [exact H1|exact H3].
Defined.

Lemma color_input_run_witness :
  exists w' r,
    demo_color_input 0%nat (VStr "c") (VStr "rgb") (VStr "id")
      (VTuple [VInt 1; VInt 2; VInt 3]) (VStr "none") (VStr ",") (VStr "_")
      VNone VNone VNone [("dynamic_width", VBool false)] demo_world
    = (w', Ok r)
    /\ _default_value r = VTuple [VInt 1; VInt 2; VInt 3].
Proof.
  destruct (color_input_run assert_color_ref assert_vector_ref
              (demo_construct id_keyword) demo_style_ok
              demo_set_default_value_ok 0%nat (VStr "c") (VStr "rgb")
              (VStr "id") (VTuple [VInt 1; VInt 2; VInt 3]) (VStr "none")
              (VStr ",") (VStr "_") VNone VNone VNone
              [("dynamic_width", VBool false)] demo_world) as (_ & H).
  destruct (H (color_input_named sample_theme (VStr "c") (VStr "rgb")
                 (VStr "id") (VStr "none") (VStr ",") (VStr "_") VNone VNone
                 VNone [("dynamic_width", VBool false)])
              demo_world (demo_built "id" "c"))
    as (H1 & _ & H3 & _); try reflexivity.
  eexists _, _. split; [exact H1|exact H3].
Defined.

Lemma demo_construct_keeps c args :
  keeps same_menus (demo_construct id_keyword c args).
Proof. by intros w w' r [= <- _]. Qed.

Lemma factory_registers_its_widget_witness :
  exists w' r,
    demo_image 0%nat "img" VNone false [] [] demo_world = (w', Ok r)
    /\ appended_to 0%nat demo_world w' r.
Proof.
  destruct (demo_image 0%nat "img" VNone false [] [] demo_world)
    as [w' [r|e]] eqn:E; [|vm_compute in E; discriminate].
  exists w', r. split; [reflexivity|].
  apply (proj1 (proj2 (factory_registers_its_widget assert_color_ref
                         assert_vector_ref demo_uuid4 demo_init_ok
                         demo_style_ok demo_selection_callback_ok
                         demo_default_value_ok 0%nat demo_world w' r))
           "img" VNone false [] []).
  exact E.
Defined.

Lemma other_factory_registers_its_widget_witness :
  exists w' r,
    demo_none_widget 0%nat (VStr "none") demo_world = (w', Ok r)
    /\ appended_to 0%nat demo_world w' r.
Proof.
  destruct (demo_none_widget 0%nat (VStr "none") demo_world)
    as [w' [r|e]] eqn:E; [|vm_compute in E; discriminate].
  exists w', r. split; [reflexivity|].
  destruct (other_factory_registers_its_widget assert_color_ref
              assert_vector_ref (demo_construct id_keyword) demo_style_ok
              demo_set_default_value_ok demo_int_other demo_construct_keeps
              0%nat demo_world w' r) as (_ & _ & _ & _ & H).
  apply (H (VStr "none")). exact E.
Defined.

Lemma other_factory_failure_keeps_menus_witness :
  menus (demo_selector 0%nat (VStr "c") (VList []) (VInt 0) VNone VNone VNone
           (VStr "id") [("elements", VList [])] demo_world).1
  = menus demo_world.
Proof.
  destruct (other_factory_failure_keeps_menus assert_color_ref
              assert_vector_ref (demo_construct id_keyword) demo_style_ok
              demo_set_default_value_ok demo_int_other demo_construct_keeps
              0%nat demo_world
              (demo_selector 0%nat (VStr "c") (VList []) (VInt 0) VNone VNone
                 VNone (VStr "id") [("elements", VList [])] demo_world).1
              TypeError) as (_ & H & _).
  apply (H (VStr "c") (VList []) (VInt 0) VNone VNone VNone (VStr "id")
           [("elements", VList [])]).
  vm_compute. reflexivity.
Defined.

Lemma ids_stay_unique_witness :
  exists w' r,
    demo_image 0%nat "img" VNone false [] [] taken_world = (w', Ok r)
    /\ NoDup (map _id (_widgets (menu_at w' 0%nat))).
Proof.
  destruct (demo_image 0%nat "img" VNone false [] [] taken_world)
    as [w' [r|e]] eqn:E; [|vm_compute in E; discriminate].
  exists w', r. split; [reflexivity|].
  apply (ids_stay_unique assert_color_ref assert_vector_ref demo_uuid4
           demo_init_ok (demo_construct id_keyword) demo_style_ok
           demo_selection_callback_ok demo_default_value_ok
           demo_set_default_value_ok demo_int_other demo_construct_keeps
           0%nat taken_world w' r).
  - vm_compute. apply NoDup_singleton.
  - right. left. by exists "img", VNone, false, [], [].
Defined.

Lemma generic_widget_adds_once_witness :
  exists w' r,
    demo_image 0%nat "img" VNone false [] [] demo_world = (w', Ok r)
    /\ demo_generic_widget 1%nat true (demo_world, r)
       = ((demo_world, r), Raise already_added).
Proof.
  destruct (demo_image 0%nat "img" VNone false [] [] demo_world)
    as [w' [r|e]] eqn:E; [|vm_compute in E; discriminate].
  exists w', r. split; [reflexivity|].
  apply (generic_widget_adds_once assert_color_ref assert_vector_ref
           demo_uuid4 demo_init_ok demo_style_ok demo_selection_callback_ok
           demo_default_value_ok demo_controls_ok 0%nat demo_world w' r).
  right. left. by exists "img", VNone, false, [], [].
Defined.

Lemma generic_widget_failure_binds_witness :
  exists e,
    demo_generic_widget 0%nat false (taken_world, loose_widget "X+2")
    = ((taken_world, with_menu (loose_widget "X+2") 0%nat), Raise e)
    /\ demo_generic_widget 1%nat false
         (taken_world, with_menu (loose_widget "X+2") 0%nat)
       = ((taken_world, with_menu (loose_widget "X+2") 0%nat),
          Raise already_added).
Proof.
  eexists.
  destruct (generic_widget_failure_binds assert_color_ref assert_vector_ref
              demo_style_ok demo_controls_ok 0%nat false taken_world
              (loose_widget "X+2")
              (IndexError
                 "widget id X+2 already exists on the current menu"))
    as (H1 & H2); [reflexivity | vm_compute; reflexivity | discriminate |].
  split; [exact H1|apply H2].
Defined.

Lemma generic_widget_run_witness :
  demo_generic_widget 0%nat false (demo_world, loose_widget "g")
  = ((registered 0%nat (with_menu (loose_widget "g") 0%nat) demo_world,
      as_registered (menu_at demo_world 0%nat)
        (with_menu (loose_widget "g") 0%nat)), Ok tt)
  /\ _style (as_registered (menu_at demo_world 0%nat)
               (with_menu (loose_widget "g") 0%nat)) = None.
Proof.
  destruct (generic_widget_run assert_color_ref assert_vector_ref demo_style_ok
              demo_controls_ok 0%nat demo_world (loose_widget "g"))
    as (H & _); [reflexivity | reflexivity |].
  apply H. reflexivity.
Defined.

Lemma image_ignores_font_keys_witness :
  demo_image 0%nat "img" VNone false []
    (Dict.set "font_size" (VInt (-5)) [("align", VStr "left")]) demo_world
  = demo_image 0%nat "img" VNone false [] [("align", VStr "left")] demo_world.
Proof.
  apply (image_ignores_font_keys assert_color_ref assert_vector_ref demo_uuid4
           demo_init_ok demo_style_ok).
  by apply (bool_decide_unpack _).
Defined.

Lemma button_checks_its_options_witness :
  (exists msg,
     demo_button 3 0%nat "quit" AExit [] [("back_count", VInt 0)] demo_world
     = (demo_world, Raise (AssertionError msg)))
  /\ demo_button 3 0%nat "quit" (AOther (VInt 7)) [] [] demo_world
     = (demo_world, Raise invalid_action).
Proof.
  destruct (button_checks_its_options assert_color_ref assert_vector_ref
              demo_uuid4 demo_init_ok demo_style_ok
              demo_selection_callback_ok 3 0%nat "quit" AExit []
              [("back_count", VInt 0)] demo_world) as (H1 & _).
  destruct (button_checks_its_options assert_color_ref assert_vector_ref
              demo_uuid4 demo_init_ok demo_style_ok
              demo_selection_callback_ok 3 0%nat "quit" (AOther (VInt 7)) []
              [] demo_world) as (_ & H2).
  split; [apply H1; reflexivity | apply (H2 (VInt 7)); reflexivity].
Defined.

Lemma button_accepting_kwargs_witness :
  exists w' r,
    demo_button 3 0%nat "back" ABack []
      [("accept_kwargs", VBool true); ("button_id", VStr "b");
       ("foo", VInt 1)] demo_world
    = (w', Ok r).
Proof.
  eexists _, _.
  apply (button_accepting_kwargs assert_color_ref assert_vector_ref demo_uuid4
           demo_init_ok demo_style_ok demo_selection_callback_ok 3 0%nat
           "back" ABack []
           [("accept_kwargs", VBool true); ("button_id", VStr "b");
            ("foo", VInt 1)] demo_world);
    reflexivity.
Defined.

Lemma demo_world_id_free i :
  _check_id_duplicated (menu_at demo_world 0%nat) i = Ok tt.
Proof. reflexivity. Qed.

Lemma label_registers_every_line_witness :
  exists w' ws,
    demo_label 2 0%nat three_lines "L" 0%Z VNone false [] demo_world
    = (w', Ok (Many (map One ws)))
    /\ length ws = 3%nat
    /\ _widgets (menu_at w' 0%nat) = ws.
Proof.
  destruct (label_registers_every_line assert_color_ref assert_vector_ref
              demo_uuid4 demo_init_ok demo_style_ok demo_wrap
              demo_probe_max_char 0 0%nat three_lines "L" VNone false []
              demo_world eq_refl ltac:(discriminate) eq_refl eq_refl
              (fun i t _ => eq_refl) (fun i _ => demo_world_id_free _)
              eq_refl)
    as (w' & ws & Hrun & Hlen & _ & _ & Hw & _).
  exists w', ws. split; [exact Hrun|]. split; [exact Hlen|exact Hw].
Defined.

Lemma label_wraps_long_title_witness :
  exists w' ws,
    demo_label_wrapping 2 0%nat "ab cd" "L" 2%Z VNone false [] demo_world
    = (w', Ok (Many (map One ws)))
    /\ length ws = 2%nat.
Proof.
  destruct (label_wraps_long_title assert_color_ref assert_vector_ref
              demo_uuid4 demo_init_ok demo_style_ok demo_wrap_words
              demo_probe_max_char 0 0%nat "ab cd" "L" 2%Z VNone false []
              demo_world eq_refl ltac:(discriminate)
              ltac:(simpl; lia)) as (_ & H).
  destruct (H ["ab"; "cd"] eq_refl eq_refl
              ltac:(repeat constructor; simpl; lia) eq_refl eq_refl
              (fun i t _ => eq_refl) (fun i _ => demo_world_id_free _)
              eq_refl)
    as (w' & ws & Hrun & Hlen & _).
  exists w', ws. split; [exact Hrun|exact Hlen].
Defined.

(** ** Text inputs, the probe of a label, the selection index *)

Section TextInputAny.

Variable assert_color : value -> bool.

Variable assert_vector : value -> nat -> bool.

Variable uuid4 : nat -> string.

Variable init_ok : WidgetKind -> string -> string -> Dict.t -> bool.

Variable style_ok : Dict.t -> bool.

Variable default_value_ok : value -> bool.

Local Abbreviation accepts := (accepted assert_color assert_vector).

Local Abbreviation text_input' :=
  (text_input assert_color assert_vector uuid4 init_ok style_ok
     default_value_ok).

(** X27: [text_input] takes a string, an [int] or a [float] as default and
    nothing else.  When the input is no password, or the default is the
    empty string, what is left of the mapping goes to the constructor
    after the keywords [text_input] writes itself: a key left over that
    repeats one of them (the cursor settings of the theme are among them)
    is a [TypeError], raised before the widget is built, and the world
    stays as it was; when no key does, the constructor receives the
    theme's cursor settings, the underline margin (0 unless the caller
    gives one) and every key the resolver does not consume, and the widget
    is bound, styled, given the default and registered. *)
Theorem text_input_run self title default onselect password textinput_id
    params kwargs w :
  let theme := _theme (menu_at w self) in
  let m := menu_at w self in
  let lid := id_or_uuid uuid4 textinput_id w in
  let named :=
    text_input_named theme params title textinput_id onselect password kwargs in
  let extra :=
    text_input_extra theme params title textinput_id onselect password kwargs in
  let widget :=
    text_input_widget theme kwargs self title lid onselect default in
  (isinstance_str default || isinstance_int_float default = false ->
   text_input' self title default onselect password textinput_id params
     kwargs w
   = (w, Raise (AssertionError "")))
  /\ (isinstance_str default || isinstance_int_float default = true ->
      password && ne_empty_str default = false ->
      accepts theme kwargs = true ->
      (forall k,
         Dict.get k (text_input_rest kwargs) <> None ->
         Dict.mem k named = true ->
         text_input' self title default onselect password textinput_id params
           kwargs w
         = (w, Raise TypeError))
      /\ (is_ok (keywords named (text_input_rest kwargs)) = true ->
          init_ok KTextInput title textinput_id extra = true ->
          _check_id_duplicated m lid = Ok tt ->
          style_ok (bundle theme kwargs) = true ->
          default_value_ok default = true ->
          text_input' self title default onselect password textinput_id params
            kwargs w
          = (registered self widget (after_id textinput_id w),
             Ok (as_registered m widget))
          /\ _default_value (as_registered m widget) = default
          /\ forall k v, k ∉ consumed_keys -> k <> "input_underline_vmargin" ->
               Dict.get k kwargs = Some v -> (k, v) ∈ extra)).
Proof.
  intros theme m lid named extra widget. split.
  - intros Hty. unfold text_input. by rewrite bind_assert, Hty.
  - intros Hty Hpw HA.
    assert (Hhead :
      text_input' self title default onselect password textinput_id params
        kwargs w
      = bind (lift (keywords named (text_input_rest kwargs)))
          (fun args =>
             bind (new_widget uuid4 init_ok KTextInput title textinput_id args)
               (fun widget =>
                  bind (_configure_widget style_ok self
                          (with_onselect widget onselect)
                          (bundle theme kwargs))
                    (fun widget =>
                       bind (assert_ (default_value_ok default) "")
                         (fun _ =>
                            _append_widget self
                              (with_default_value widget default))))) w).
    { unfold text_input. rewrite bind_assert, Hty.
      rewrite bind_get_menu_obj. cbv beta.
      unfold bind at 1, on_dict.
      rewrite (text_input_options_run assert_color assert_vector)
        by exact HA.
      cbv zeta. cbn [fst snd]. rewrite Hpw. reflexivity. }
    split.
    + intros k Hk Hn. rewrite Hhead, bind_lift.
      by rewrite (keywords_collide _ _ k).
    + intros Hkw Hinit Hdup Hstyle Hdef. split; [|split].
      * rewrite Hhead, bind_lift, (keywords_is_ok _ _ Hkw). cbv iota.
        rewrite (bind_new_widget_any uuid4 init_ok) by exact Hinit.
        rewrite (bind_configure assert_color assert_vector style_ok);
          [| reflexivity | by rewrite menu_at_after_id | done | done].
        rewrite bind_assert, Hdef.
        rewrite append_run by reflexivity.
        unfold registered, as_registered. rewrite menu_at_after_id.
        reflexivity.
      * unfold as_registered.
        by destruct ((_index m <? 0)%Z && is_selectable widget).
      * intros k v Hk Hne Hv. unfold extra, text_input_extra, text_input_rest.
        apply elem_of_app. right.
        apply get_Some_elem_of.
        rewrite DictFacts.get_remove_ne by done.
        by rewrite DictFacts.get_remove_all_notin.
Qed.

End TextInputAny.

Lemma text_input_run_witness :
  (exists w' r,
     demo_text_input 0%nat "name" (VStr "Ann") VNone false "n" []
       [("user", VStr "ann")] demo_world
     = (w', Ok r)
     /\ _default_value r = VStr "Ann")
  /\ demo_text_input 0%nat "name" (VStr "Ann") VNone false "n" []
       [("cursor_color", rgb 0 0 0)] demo_world
     = (demo_world, Raise TypeError).
Proof.
  split.
  - destruct (text_input_run assert_color_ref assert_vector_ref demo_uuid4
                demo_init_ok demo_style_ok demo_default_value_ok 0%nat "name"
                (VStr "Ann") VNone false "n" [] [("user", VStr "ann")]
                demo_world) as (_ & H).
    destruct (H eq_refl eq_refl eq_refl) as (_ & Hok).
    destruct (Hok eq_refl eq_refl eq_refl eq_refl eq_refl) as (H1 & H2 & _).
    eexists _, _. split; [exact H1|exact H2].
  - destruct (text_input_run assert_color_ref assert_vector_ref demo_uuid4
                demo_init_ok demo_style_ok demo_default_value_ok 0%nat "name"
                (VStr "Ann") VNone false "n" [] [("cursor_color", rgb 0 0 0)]
                demo_world) as (_ & H).
    destruct (H eq_refl eq_refl eq_refl) as (Hcollide & _).
    apply (Hcollide "cursor_color"); [discriminate | reflexivity].
Defined.

Section LabelProbe.

Variable assert_color : value -> bool.

Variable assert_vector : value -> nat -> bool.

Variable uuid4 : nat -> string.

Variable init_ok : WidgetKind -> string -> string -> Dict.t -> bool.

Variable style_ok : Dict.t -> bool.

Variable wrap : string -> Z -> result (list string).

Variable probe_max_char : Menu -> Widget -> string -> result Z.

Local Abbreviation accepts := (accepted assert_color assert_vector).

Local Abbreviation label' :=
  (label assert_color assert_vector uuid4 init_ok style_ok wrap
     probe_max_char).

(** X28: [max_char] is at least -1, else the call raises before anything
    is done.  With [max_char = -1] the threshold is measured on a probe
    label: the probe is built without an ID of its own, bound to the menu
    and styled from a copy of the mapping, but it is never registered;
    when the title fits the measured threshold, the menu receives the one
    label of the call and nothing else. *)
Theorem label_probe_is_not_registered d self title X max_char onselect
    selectable kwargs n w :
  let theme := _theme (menu_at w self) in
  let m := menu_at w self in
  let probe :=
    with_style (with_menu (built KLabel title (uuid4 (uuids_drawn w))) self)
      (bundle theme kwargs) in
  let widget := label_widget theme kwargs self title X onselect selectable in
  ((max_char < -1)%Z ->
   label' (S d) self title X max_char onselect selectable kwargs w
   = (w, Raise (AssertionError "")))
  /\ (max_char = (-1)%Z ->
      has_newline title = false ->
      X <> "" ->
      accepts theme kwargs = true ->
      Dict.remove_all consumed_keys kwargs = [] ->
      init_ok KLabel title "" [] = true ->
      init_ok KLabel title X [("onselect", onselect)] = true ->
      _check_id_duplicated m (uuid4 (uuids_drawn w)) = Ok tt ->
      _check_id_duplicated m X = Ok tt ->
      style_ok (bundle theme kwargs) = true ->
      probe_max_char m probe title = Ok n ->
      (Z.of_nat (String.length title) <=? n)%Z || (n =? 0)%Z = true ->
      label' (S d) self title X max_char onselect selectable kwargs w
      = (registered self widget (drawn w), Ok (One (as_registered m widget)))
      /\ _widgets (menu_at (registered self widget (drawn w)) self)
         = (_widgets m ++ [as_registered m widget])%list
      /\ _menu probe = Some self).
Proof.
  intros theme m probe widget. split.
  - intros Hmc. cbn [label]. rewrite bind_assert.
    by replace (-1 <=? max_char)%Z with false
      by (symmetry; apply Z.leb_gt; lia).
  - intros -> Hnl HX HA Hleft Hi0 Hi Hdu Hdx Hstyle Hprobe Hfit.
    split; [|split; [|reflexivity]].
    + cbn [label]. rewrite bind_assert. change (-1 <=? -1)%Z with true.
      cbv iota.
      assert (HXl : (String.length X =? 0)%nat = false).
      { destruct X; [done|reflexivity]. }
      rewrite HXl, bind_ret, Hnl, bind_get_menu_obj.
      change (-1 <? 0)%Z with true. cbv iota. subst probe m theme.
      rewrite !bind_bind.
      rewrite (bind_on_dict_resolve assert_color assert_vector) by done.
      cbn [fst snd]. rewrite !bind_bind.
      rewrite (bind_new_widget_fresh uuid4 init_ok) by done.
      rewrite !bind_bind.
      rewrite (bind_configure assert_color assert_vector style_ok);
        [| reflexivity | done | done | done].
      rewrite bind_lift, Hprobe. cbv iota. rewrite Hfit.
      rewrite (bind_on_dict_resolve assert_color assert_vector) by done.
      cbn [fst snd]. rewrite (bind_new_widget uuid4 init_ok) by done.
      rewrite Hleft. rewrite bind_lift. cbn [_check_kwargs Dict.keys map].
      rewrite (bind_configure assert_color assert_vector style_ok);
        [| reflexivity | done | done | done].
      rewrite bind_append by reflexivity. reflexivity.
    + by rewrite menu_at_registered, widgets_appended.
Qed.

End LabelProbe.

Lemma label_probe_is_not_registered_witness :
  exists w' r,
    demo_label_probing 1 0%nat "hello" "L" (-1)%Z VNone false [] demo_world
    = (w', Ok (One r))
    /\ _widgets (menu_at w' 0%nat) = [r].
Proof.
  destruct (label_probe_is_not_registered assert_color_ref assert_vector_ref
              demo_uuid4 demo_init_ok demo_style_ok demo_wrap demo_probe_wide
              0 0%nat "hello" "L" (-1)%Z VNone false [] 80%Z demo_world)
    as (_ & H).
  destruct H as (H1 & H2 & _); try reflexivity; try discriminate.
  eexists _, _. split; [exact H1|exact H2].
Defined.

(** ** The selection index through the factories *)

Lemma keeps_selection_refl w : keeps_selection w w.
Proof. by intros H. Qed.

Lemma keeps_selection_trans w1 w2 w3 :
  keeps_selection w1 w2 -> keeps_selection w2 w3 -> keeps_selection w1 w3.
Proof. intros H1 H2 H. by apply H2, H1. Qed.

Lemma same_registration_keeps_selection w w' :
  same_registration w w' -> keeps_selection w w'.
Proof.
  intros HR Hv a. destruct (HR a) as (Hw & Hi & _).
  unfold selection_valid. rewrite Hw, Hi. apply Hv.
Qed.

Lemma keeps_selection_of_registration {A} (c : M World A) :
  keeps same_registration c -> keeps keeps_selection c.
Proof. intros H w w' r Hc. eapply same_registration_keeps_selection, H, Hc. Qed.

Lemma keeps_selection_append self widget :
  keeps keeps_selection (_append_widget self widget).
Proof.
  intros w w' r H Hv a. destruct r as [x|e].
  - apply append_Ok_inv in H as (Hm & -> & _).
    destruct (decide (self = a)) as [<-|Hne];
      [|by rewrite menu_at_registered_ne].
    rewrite menu_at_registered. unfold selection_valid, appended. simpl.
    destruct (_index (menu_at w self) <? 0)%Z eqn:E; simpl.
    + destruct (is_selectable widget) eqn:Hw.
      * right. exists (select widget). rewrite Nat2Z.id.
        by rewrite list_lookup_middle.
      * left. by apply Z.ltb_lt.
    + apply Z.ltb_ge in E.
      destruct (Hv self) as [Hneg|(y & Hy & Hs & Hsel)]; [lia|].
      right. exists y. split; [|done]. by apply lookup_app_l_Some.
  - apply append_raises in H as ->. apply Hv.
Qed.

Lemma keeps_selection_add_submenu {B} self target (k : unit -> M World B) :
  (forall u, keeps keeps_selection (k u)) ->
  keeps keeps_selection
    (bind (get_menu_obj self)
       (fun menu =>
          bind (put_menu self
                  (set_submenus menu (_submenus menu ++ [target])%list)) k)).
Proof.
  intros Hk w w' r. unfold bind at 1 2, get_menu_obj, put_menu.
  intros H. eapply keeps_selection_trans; [|eapply Hk, H].
  apply same_registration_keeps_selection.
  intros a. destruct (decide (self = a)) as [<-|Hne].
  - by rewrite menu_at_put.
  - by rewrite menu_at_put_ne.
Qed.

Ltac selection_tac :=
  repeat
    lazymatch goal with
    | |- forall _, _ => intro
    | |- keeps keeps_selection (_append_widget _ _) =>
        apply keeps_selection_append
    | |- keeps keeps_selection
           (bind (get_menu_obj _) (fun m => bind (put_menu _ _) _)) =>
        apply keeps_selection_add_submenu
    | |- keeps keeps_selection (bind _ _) =>
        apply keeps_bind; [exact keeps_selection_trans | |]
    | |- keeps keeps_selection (if ?c then _ else _) => destruct c
    | |- keeps keeps_selection (match ?x with _ => _ end) => destruct x
    | |- keeps keeps_selection _ =>
        apply keeps_selection_of_registration;
        first [ solve [keeps_tac]
              | solve [apply keeps_same_menus_registration; auto] ]
    end.

Section Selection.

Variable assert_color : value -> bool.

Variable assert_vector : value -> nat -> bool.

Variable uuid4 : nat -> string.

Variable init_ok : WidgetKind -> string -> string -> Dict.t -> bool.

Variable construct : WidgetClass -> Dict.t -> M World Widget.

Variable style_ok : Dict.t -> bool.

Variable selection_callback_ok : value -> bool.

Variable default_value_ok : value -> bool.

Variable set_default_value_ok : Widget -> value -> bool.

Variable int_other : value -> result Z.

Hypothesis construct_keeps : forall c args, keeps same_menus (construct c args).

Local Abbreviation button' :=
  (button assert_color assert_vector uuid4 init_ok style_ok
     selection_callback_ok).

Local Abbreviation image' :=
  (image assert_color assert_vector uuid4 init_ok style_ok).

Local Abbreviation text_input' :=
  (text_input assert_color assert_vector uuid4 init_ok style_ok
     default_value_ok).

Local Abbreviation color_input' :=
  (color_input assert_color assert_vector construct style_ok
     set_default_value_ok).

Local Abbreviation selector' :=
  (selector assert_color assert_vector construct style_ok).

Local Abbreviation toggle_switch' :=
  (toggle_switch assert_color assert_vector construct style_ok
     set_default_value_ok int_other).

Local Abbreviation vertical_margin' :=
  (vertical_margin assert_color assert_vector construct style_ok).

Local Abbreviation none_widget' :=
  (none_widget assert_color assert_vector construct style_ok).

(** X29: the selection index stays valid.  If in every menu the index is
    negative or points at a selectable, selected widget of the list, then
    it still does after [_append_widget] and after each of the eight
    factories that register one widget, whatever the arguments and
    whether the call returns or raises. *)
Theorem selection_stays_valid self w w' :
  (forall a, selection_valid (menu_at w a)) ->
  (exists widget r, _append_widget self widget w = (w', r))
  \/ (exists depth title action args kwargs r,
        button' depth self title action args kwargs w = (w', r))
  \/ (exists image_id onselect selectable params kwargs r,
        image' self image_id onselect selectable params kwargs w = (w', r))
  \/ (exists title default onselect password textinput_id params kwargs r,
        text_input' self title default onselect password textinput_id params
          kwargs w = (w', r))
  \/ (exists title color_type color_id default hex_format input_separator
             input_underline onchange onreturn onselect kwargs r,
        color_input' self title color_type color_id default hex_format
          input_separator input_underline onchange onreturn onselect kwargs w
        = (w', r))
  \/ (exists title items default onchange onreturn onselect selector_id kwargs
             r,
        selector' self title items default onchange onreturn onselect
          selector_id kwargs w = (w', r))
  \/ (exists title default onchange toggleswitch_id state_text state_values
             kwargs r,
        toggle_switch' self title default onchange toggleswitch_id state_text
          state_values kwargs w = (w', r))
  \/ (exists margin margin_id r,
        vertical_margin' self margin margin_id w = (w', r))
  \/ (exists widget_id r, none_widget' self widget_id w = (w', r)) ->
  forall a, selection_valid (menu_at w' a).
Proof.
  intros Hv H. revert Hv. change (keeps_selection w w').
  destruct H as [H|[H|[H|[H|[H|[H|[H|[H|H]]]]]]]];
    repeat (lazymatch type of H with ex _ => destruct H as [? H] end);
    revert H;
    lazymatch goal with
    | |- ?c w = (w', ?r) -> _ =>
        assert (keeps keeps_selection c) as Hk; [|by apply Hk]
    end.
  - apply keeps_selection_append.
  - unfold button. cbv zeta. selection_tac.
  - unfold image. cbv zeta. selection_tac.
  - unfold text_input. cbv zeta. selection_tac.
  - unfold color_input. cbv zeta. selection_tac.
  - unfold selector. cbv zeta. selection_tac.
  - unfold toggle_switch. cbv zeta. selection_tac.
  - unfold vertical_margin. cbv zeta. selection_tac.
  - unfold none_widget. cbv zeta. selection_tac.
Qed.

End Selection.

Lemma selection_stays_valid_witness :
  selection_valid
    (menu_at (demo_button 3 0%nat "quit" AExit [] [] demo_world).1 0%nat).
Proof.
  apply (selection_stays_valid assert_color_ref assert_vector_ref demo_uuid4
           demo_init_ok (demo_construct id_keyword) demo_style_ok
           demo_selection_callback_ok demo_default_value_ok
           demo_set_default_value_ok demo_int_other demo_construct_keeps
           0%nat demo_world).
  - apply demo_world_selection_valid.
  - right. left.
    exists 3%nat, "quit", AExit, [], [],
      (demo_button 3 0%nat "quit" AExit [] [] demo_world).2.
    apply surjective_pairing.
Defined.

(** * Leftover keys, in every call that refuses them *)



Section LeftoversAnyCall.

Variable assert_color : value -> bool.

Variable assert_vector : value -> nat -> bool.

Variable uuid4 : nat -> string.

Variable init_ok : WidgetKind -> string -> string -> Dict.t -> bool.

Variable style_ok : Dict.t -> bool.

Variable selection_callback_ok : value -> bool.

Variable wrap : string -> Z -> result (list string).

Variable probe_max_char : Menu -> Widget -> string -> result Z.

Local Abbreviation resolve := (_filter_widget_attributes assert_color assert_vector).

Local Abbreviation accepts := (accepted assert_color assert_vector).

Local Abbreviation button' :=
  (button assert_color assert_vector uuid4 init_ok style_ok
     selection_callback_ok).

Local Abbreviation image' :=
  (image assert_color assert_vector uuid4 init_ok style_ok).

Local Abbreviation label' :=
  (label assert_color assert_vector uuid4 init_ok style_ok wrap probe_max_char).








End LeftoversAnyCall.


(** * Labels with no ID of the caller's *)










Section LabelFresh.

Variable assert_color : value -> bool.

Variable assert_vector : value -> nat -> bool.

Variable uuid4 : nat -> string.

Variable init_ok : WidgetKind -> string -> string -> Dict.t -> bool.

Variable style_ok : Dict.t -> bool.

Variable wrap : string -> Z -> result (list string).

Variable probe_max_char : Menu -> Widget -> string -> result Z.

Local Abbreviation accepts := (accepted assert_color assert_vector).

Local Abbreviation label' :=
  (label assert_color assert_vector uuid4 init_ok style_ok wrap
     probe_max_char).






End LabelFresh.

